(** * hcache analysis tools: parsing and loading of performance artifacts

    A shallow embedding of the parsers of [tests/analysis]:
    - [benchmark_analyzer.py]   (module [Benchmark]),
    - [hitratio_analyzer.py]    (module [HitRatio]),
    - [concurrency_analyzer.py] (module [Concurrency]),
    - [pprof_analyzer.py]       (modules [Pprof] and [Profiles]),
    and of the helpers of the comprehensive report of [analyze_all.py]
    (module [Report]); the comparison data of [benchmark_analyzer.py] is
    module [Comparison].

    Conventions.  A Python [str] is the byte string of its UTF-8 encoding
    (a Rocq [string]); the character classes [\d], [\s], [\w] of [re] and the
    whitespace of [str.strip]/[str.split] are taken on the ASCII range.
    Python [int] is [Z] ([int(s)] with the interpreter's limit on the
    number of digits at its default, 4300); Python [float] is a primitive
    binary64 float.  A raised exception is the [Raise] branch of [result].
    Library functions that are not part of the repository ([json.loads],
    [pandas.to_datetime], the search for the [pattern] argument in a file
    name) are parameters of the definitions that call them. *)

From Stdlib Require Import ZArith List String Ascii Bool Lia Arith DecimalString.
From Stdlib Require Import Floats.PrimFloat Floats.SpecFloat Floats.FloatOps.
Import ListNotations.
Set Warnings "-register-all,-inexact-float".
Local Open Scope string_scope.
Local Open Scope list_scope.

(* ===================================================================== *)
(** * Python values, exceptions and built-in operations                   *)
(* ===================================================================== *)

Module Py.

(** Exceptions the modelled code can raise.  [json.JSONDecodeError] is a
    subclass of [ValueError] in Python; it is a case of its own here, as
    the only clauses that tell them apart catch [JSONDecodeError]. *)
Inductive exn : Type :=
| ValueError (msg : string)
| TypeError
| AttributeError
| OverflowError
| OSError
| JSONDecodeError
| RecursionError.

Inductive result (A : Type) : Type :=
| Ok (a : A)
| Raise (e : exn).
Arguments Ok {A} a.
Arguments Raise {A} e.

Definition bind {A B : Type} (r : result A) (f : A -> result B) : result B :=
  match r with
  | Ok a => f a
  | Raise e => Raise e
  end.

Definition is_ok {A : Type} (r : result A) : bool :=
  match r with Ok _ => true | Raise _ => false end.

(** [for x in xs: ys.append(f x)], where [f] may raise. *)
Fixpoint for_each {A B : Type} (f : A -> result B) (xs : list A)
  : result (list B) :=
  match xs with
  | [] => Ok []
  | x :: xs' =>
      bind (f x) (fun y => bind (for_each f xs') (fun ys => Ok (y :: ys)))
  end.

(** Python objects, as far as JSON documents and table cells need them. *)
Inductive pyval : Type :=
| PNone
| PBool (b : bool)
| PInt (z : Z)
| PFloat (f : float)
| PStr (s : string)
| PList (l : list pyval)
| PDict (d : list (string * pyval)).

(** ** Dictionaries: insertion-ordered association lists with unique keys *)

Definition dict : Type := list (string * pyval).

Fixpoint dict_get (k : string) (d : dict) : option pyval :=
  match d with
  | [] => None
  | (k', v) :: d' => if String.eqb k k' then Some v else dict_get k d'
  end.

(** [d[k] = v]: overwrite in place, or append a new key. *)
Fixpoint dict_set (k : string) (v : pyval) (d : dict) : dict :=
  match d with
  | [] => [(k, v)]
  | (k', v') :: d' =>
      if String.eqb k k' then (k, v) :: d' else (k', v') :: dict_set k v d'
  end.

(** [d.update(e)] and [{**d, **e}]. *)
Definition dict_update (d e : dict) : dict :=
  fold_left (fun acc kv => dict_set (fst kv) (snd kv) acc) e d.

(** [d.get(k, default)]. *)
Definition dict_get_default (k : string) (default : pyval) (d : dict) : pyval :=
  match dict_get k d with
  | Some v => v
  | None => default
  end.

(** [obj.get(k, default)] on an arbitrary object: only a dict has [get]. *)
Definition py_get (obj : pyval) (k : string) (default : pyval) : result pyval :=
  match obj with
  | PDict d => Ok (dict_get_default k default d)
  | _ => Raise AttributeError
  end.

(** ** Character classes (ASCII range) *)

Definition is_digit (c : ascii) : bool :=
  let n := nat_of_ascii c in (48 <=? n)%nat && (n <=? 57)%nat.

(** [str.isspace] and [\s]: TAB..CR, FS..US and the space. *)
Definition is_space (c : ascii) : bool :=
  let n := nat_of_ascii c in
  ((9 <=? n)%nat && (n <=? 13)%nat) || ((28 <=? n)%nat && (n <=? 32)%nat).

Definition is_upper (c : ascii) : bool :=
  let n := nat_of_ascii c in (65 <=? n)%nat && (n <=? 90)%nat.

Definition is_lower (c : ascii) : bool :=
  let n := nat_of_ascii c in (97 <=? n)%nat && (n <=? 122)%nat.

(** [\w]: letters, digits and the underscore. *)
Definition is_word (c : ascii) : bool :=
  is_digit c || is_upper c || is_lower c || Ascii.eqb c "_".

(** ** String methods *)

Fixpoint forall_chars (p : ascii -> bool) (s : string) : bool :=
  match s with
  | EmptyString => true
  | String c s' => p c && forall_chars p s'
  end.

Fixpoint starts_with (pre s : string) : bool :=
  match pre, s with
  | EmptyString, _ => true
  | String a pre', String b s' => Ascii.eqb a b && starts_with pre' s'
  | String _ _, EmptyString => false
  end.

Fixpoint drop (n : nat) (s : string) : string :=
  match n, s with
  | O, _ => s
  | S n', String _ s' => drop n' s'
  | S _, EmptyString => EmptyString
  end.

(** [sub in s]. *)
Fixpoint contains (sub s : string) : bool :=
  starts_with sub s ||
  match s with
  | EmptyString => false
  | String _ s' => contains sub s'
  end.

(** [s.endswith(suf)]. *)
Fixpoint ends_with (suf s : string) : bool :=
  String.eqb suf s ||
  match s with
  | EmptyString => false
  | String _ s' => ends_with suf s'
  end.

(** [s.split(sep)] for a non-empty [sep]: [skip] counts the characters of
    a separator still to be passed over, [cur] is the piece being read. *)
Fixpoint split_go (sep : string) (skip : nat) (cur : string) (s : string)
  : list string :=
  match s with
  | EmptyString => [cur]
  | String c s' =>
      match skip with
      | S k => split_go sep k cur s'
      | O =>
          if starts_with sep s
          then cur :: split_go sep (String.length sep - 1) EmptyString s'
          else split_go sep O (cur ++ String c EmptyString) s'
      end
  end.

Definition split (sep s : string) : list string := split_go sep O EmptyString s.

(** [s.replace(old, '')] for a non-empty [old]. *)
Fixpoint remove_go (old : string) (skip : nat) (s : string) : string :=
  match s with
  | EmptyString => EmptyString
  | String c s' =>
      match skip with
      | S k => remove_go old k s'
      | O =>
          if starts_with old s
          then remove_go old (String.length old - 1) s'
          else String c (remove_go old O s')
      end
  end.

Definition remove_all (old s : string) : string := remove_go old O s.

Fixpoint lstrip (s : string) : string :=
  match s with
  | String c s' => if is_space c then lstrip s' else s
  | EmptyString => EmptyString
  end.

(** Drops trailing whitespace: a character is kept when something that is
    kept follows it or when it is not whitespace. *)
Fixpoint rstrip (s : string) : string :=
  match s with
  | EmptyString => EmptyString
  | String c s' =>
      match rstrip s' with
      | EmptyString => if is_space c then EmptyString else String c EmptyString
      | t => String c t
      end
  end.

(** [s.strip()]. *)
Definition strip (s : string) : string := rstrip (lstrip s).

(** [s.split()]: maximal runs of non-whitespace characters. *)
Fixpoint words_go (cur : string) (s : string) : list string :=
  match s with
  | EmptyString => match cur with EmptyString => [] | _ => [cur] end
  | String c s' =>
      if is_space c
      then match cur with
           | EmptyString => words_go EmptyString s'
           | _ => cur :: words_go EmptyString s'
           end
      else words_go (cur ++ String c EmptyString) s'
  end.

Definition words (s : string) : list string := words_go EmptyString s.

(** [sep.join(parts)]. *)
Fixpoint join (sep : string) (parts : list string) : string :=
  match parts with
  | [] => EmptyString
  | [p] => p
  | p :: ps => p ++ sep ++ join sep ps
  end.

Definition lower_char (c : ascii) : ascii :=
  if is_upper c then ascii_of_nat (nat_of_ascii c + 32) else c.

(** [s.lower()]. *)
Fixpoint lower (s : string) : string :=
  match s with
  | EmptyString => EmptyString
  | String c s' => String (lower_char c) (lower s')
  end.

(** Truth value of a string: the empty string is false. *)
Definition truthy (s : string) : bool :=
  match s with EmptyString => false | _ => true end.

(** ** Numbers *)

Definition digit_value (c : ascii) : Z := Z.of_nat (nat_of_ascii c) - 48.

(** Reads [digit (["_"] digit)*] after its first digit: the value read so
    far, the number of digits read, and what is left. *)
Fixpoint digitpart_go (acc : Z) (n : nat) (s : string) : Z * nat * string :=
  match s with
  | String c s' =>
      if is_digit c then digitpart_go (10 * acc + digit_value c) (S n) s'
      else if Ascii.eqb c "_" then
        match s' with
        | String d s'' =>
            if is_digit d
            then digitpart_go (10 * acc + digit_value d) (S n) s''
            else (acc, n, s)
        | EmptyString => (acc, n, s)
        end
      else (acc, n, s)
  | EmptyString => (acc, n, s)
  end.

(** A digit part continuing the value [acc]; [None] when [s] does not start
    with a digit. *)
Definition digitpart (acc : Z) (s : string) : option (Z * nat * string) :=
  match s with
  | String c _ => if is_digit c then Some (digitpart_go acc O s) else None
  | EmptyString => None
  end.

(** An optional sign: [true] for a minus. *)
Definition sign (s : string) : bool * string :=
  match s with
  | String "-" s' => (true, s')
  | String "+" s' => (false, s')
  | _ => (false, s)
  end.

(** The interpreter's limit on the number of digits of a string that
    [int] converts ([sys.get_int_max_str_digits()]), at its default. *)
Definition int_max_str_digits : Z := 4300.

(** [int(s)] in base ten: a literal with more digits than the limit is
    refused (leading zeros count, underscores do not). *)
Definition py_int (s : string) : result Z :=
  let (neg, body) := sign (strip s) in
  match digitpart 0 body with
  | Some (v, n, EmptyString) =>
      if (int_max_str_digits <? Z.of_nat n)%Z
      then Raise (ValueError "Exceeds the limit for integer string conversion")
      else Ok (if neg then (- v)%Z else v)
  | _ => Raise (ValueError "invalid literal for int()")
  end.

(** [str(z)], as an f-string renders an [int]. *)
Definition str_of_int (z : Z) : string :=
  DecimalString.NilZero.string_of_int (Z.to_int z).

(** The binary64 number nearest to the integer [z] (ties to even). *)
Definition float_of_Z (z : Z) : float :=
  SF2Prim (binary_normalize prec emax z 0 false).

(** The binary64 number nearest to [m * 10 ^ e], for [0 <= m].  A negative
    [e] divides: the quotient is taken with 64 extra bits and a sticky
    bit, so that the single rounding of [binary_normalize] is the rounding
    of the exact value. *)
Definition float_of_decimal (m e : Z) : float :=
  if (0 <=? e)%Z then float_of_Z (m * 10 ^ e)
  else
    let d := (10 ^ (- e))%Z in
    let s := (64 + Z.log2_up d)%Z in
    let q := (m * 2 ^ s / d)%Z in
    let sticky := if (m * 2 ^ s mod d =? 0)%Z then 0%Z else 1%Z in
    SF2Prim (binary_normalize prec emax (2 * q + sticky) (- (s + 1)) false).

(** The exponent part of a float literal: [("e"|"E") [sign] digitpart]. *)
Definition exponent (s : string) : option (Z * string) :=
  match s with
  | String c s' =>
      if Ascii.eqb c "e" || Ascii.eqb c "E" then
        let (neg, body) := sign s' in
        match digitpart 0 body with
        | Some (v, _, rest) => Some (if neg then (- v)%Z else v, rest)
        | None => None
        end
      else None
  | EmptyString => None
  end.

(** The unsigned decimal forms [digits], [digits.], [digits.digits] and
    [.digits], each with an optional exponent. *)
Definition float_number (s : string) : option float :=
  let finish (m : Z) (fraclen : nat) (rest : string) : option float :=
    match rest with
    | EmptyString => Some (float_of_decimal m (- Z.of_nat fraclen))
    | _ =>
        match exponent rest with
        | Some (e, EmptyString) =>
            Some (float_of_decimal m (e - Z.of_nat fraclen))
        | _ => None
        end
    end in
  match digitpart 0 s with
  | Some (m, _, String "." rest) =>
      match digitpart m rest with
      | Some (m', k, rest') => finish m' k rest'
      | None => finish m O rest
      end
  | Some (m, _, rest) => finish m O rest
  | None =>
      match s with
      | String "." rest =>
          match digitpart 0 rest with
          | Some (m', k, rest') => finish m' k rest'
          | None => None
          end
      | _ => None
      end
  end.

(** [float(s)]. *)
Definition py_float (s : string) : result float :=
  let (neg, body) := sign (strip s) in
  let signed (f : float) := if neg then PrimFloat.opp f else f in
  let name := lower body in
  if String.eqb name "inf" || String.eqb name "infinity"
  then Ok (signed infinity)
  else if String.eqb name "nan" then Ok (signed nan)
  else match float_number body with
       | Some f => Ok (signed f)
       | None => Raise (ValueError "could not convert string to float")
       end.

(** Numeric operands: [bool] is a subclass of [int]. *)
Inductive num : Type :=
| NInt (z : Z)
| NFloat (f : float).

Definition as_num (v : pyval) : result num :=
  match v with
  | PInt z => Ok (NInt z)
  | PBool b => Ok (NInt (if b then 1 else 0))
  | PFloat f => Ok (NFloat f)
  | _ => Raise TypeError
  end.

Definition of_num (n : num) : pyval :=
  match n with
  | NInt z => PInt z
  | NFloat f => PFloat f
  end.

(** Conversion of an operand to [float]; an [int] beyond the binary64
    range raises. *)
Definition to_float (n : num) : result float :=
  match n with
  | NFloat f => Ok f
  | NInt z =>
      let f := float_of_Z z in
      if PrimFloat.is_infinity f then Raise OverflowError else Ok f
  end.

(** [a - b] and [a * b] on numbers: exact on two [int]s, binary64 as soon
    as one operand is a [float]. *)
Definition arith (fz : Z -> Z -> Z) (ff : float -> float -> float)
  (a b : pyval) : result pyval :=
  bind (as_num a) (fun x =>
  bind (as_num b) (fun y =>
  match x, y with
  | NInt p, NInt q => Ok (PInt (fz p q))
  | _, _ =>
      bind (to_float x) (fun p =>
      bind (to_float y) (fun q => Ok (PFloat (ff p q))))
  end)).

Definition py_sub : pyval -> pyval -> result pyval := arith Z.sub PrimFloat.sub.
Definition py_mul : pyval -> pyval -> result pyval := arith Z.mul PrimFloat.mul.

(** [a / d] for a non-zero [float] constant [d]. *)
Definition py_div_const (a : pyval) (d : float) : result pyval :=
  bind (as_num a) (fun x =>
  bind (to_float x) (fun p => Ok (PFloat (PrimFloat.div p d)))).

End Py.

Declare Scope py_scope.
Delimit Scope py_scope with py.
Notation "x <- e ;; k" := (Py.bind e (fun x => k))
  (at level 61, e at next level, right associativity) : py_scope.

(* ===================================================================== *)
(** * Regular expressions                                                 *)
(* ===================================================================== *)

(** A pattern is a backtracking matcher: applied to the text at the current
    position it lists every way to match, in the order in which [re] tries
    them, each with the value matched and the text left.  The first element
    of the list is the match [re] reports. *)
Module Re.
Import Py.

Definition parser (A : Type) : Type := string -> list (A * string).

Definition ret {A : Type} (a : A) : parser A := fun s => [(a, s)].

(** Concatenation: every continuation of the first way, then of the
    second, and so on. *)
Definition seq {A B : Type} (p : parser A) (f : A -> parser B) : parser B :=
  fun s => flat_map (fun ar => f (fst ar) (snd ar)) (p s).

(** A literal string. *)
Definition lit (l : string) : parser string :=
  fun s => if starts_with l s then [(l, drop (String.length l) s)] else [].

(** [[cls]+], greedy: the longest run first, then each shorter one. *)
Fixpoint plus (cls : ascii -> bool) (s : string) : list (string * string) :=
  match s with
  | String c s' =>
      if cls c
      then map (fun ar => (String c (fst ar), snd ar)) (plus cls s')
             ++ [(String c EmptyString, s')]
      else []
  | EmptyString => []
  end.

(** [[cls]{n}]. *)
Fixpoint times (n : nat) (cls : ascii -> bool) (s : string)
  : list (string * string) :=
  match n with
  | O => [(EmptyString, s)]
  | S n' =>
      match s with
      | String c s' =>
          if cls c
          then map (fun ar => (String c (fst ar), snd ar)) (times n' cls s')
          else []
      | EmptyString => []
      end
  end.

(** [[cls]], one character. *)
Definition one (cls : ascii -> bool) : parser string := times 1 cls.

(** [(?:p)?], greedy: with [p] first, then without. *)
Definition opt {A : Type} (p : parser A) : parser (option A) :=
  fun s => map (fun ar => (Some (fst ar), snd ar)) (p s) ++ [(None, s)].

(** [.*?] under [re.DOTALL]: nothing first, then one more character at a
    time. *)
Fixpoint lazy_any (s : string) : list (unit * string) :=
  (tt, s) ::
  match s with
  | String _ s' => lazy_any s'
  | EmptyString => []
  end.

(** [$] without [re.MULTILINE]: the end of the text, or just before a
    newline that ends it. *)
Definition eol : parser unit :=
  fun s =>
    match s with
    | EmptyString => [(tt, s)]
    | String c EmptyString => if Ascii.eqb c "010" then [(tt, s)] else []
    | _ => []
    end.

(** [re.match]: the first way to match at the start of the text. *)
Definition match_ {A : Type} (p : parser A) (s : string) : option A :=
  match p s with
  | (a, _) :: _ => Some a
  | [] => None
  end.

(** [re.search]: the first way to match at the leftmost position that has
    one. *)
Fixpoint search {A : Type} (p : parser A) (s : string) : option A :=
  match p s with
  | (a, _) :: _ => Some a
  | [] =>
      match s with
      | String _ s' => search p s'
      | EmptyString => None
      end
  end.

(** [re.findall]: successive searches, each resuming where the previous
    match ended (one character further after an empty match). *)
Fixpoint findall_go {A : Type} (fuel : nat) (p : parser A) (s : string)
  : list A :=
  match fuel with
  | O => []
  | S fuel' =>
      let step :=
        match s with
        | String _ s' => findall_go fuel' p s'
        | EmptyString => []
        end in
      match p s with
      | (a, r) :: _ =>
          a :: (if (String.length r <? String.length s)%nat
                then findall_go fuel' p r else step)
      | [] => step
      end
  end.

Definition findall {A : Type} (p : parser A) (s : string) : list A :=
  findall_go (S (String.length s)) p s.

End Re.

Declare Scope re_scope.
Delimit Scope re_scope with re.
Notation "x <- e ;; k" := (Re.seq e (fun x => k))
  (at level 61, e at next level, right associativity) : re_scope.

(** A table as [pandas.DataFrame] builds it from a list of dicts: one row
    per dict, in order. *)
Definition DataFrame : Type := list Py.dict.

(** [df[col] = v] for a scalar [v]. *)
Definition assign (col : string) (v : Py.pyval) (df : DataFrame) : DataFrame :=
  map (Py.dict_set col v) df.

(** What the analyzers see of the file system: [os.listdir] and
    [open(path).read()]. *)
Record filesystem : Type := {
  listdir : string -> Py.result (list string);
  read : string -> Py.result string
}.

(** [os.path.join] and [os.path.basename] (POSIX). *)
Definition path_join (a b : string) : string :=
  if Py.starts_with "/" b then b
  else if negb (Py.truthy a) || Py.ends_with "/" a then a ++ b
  else a ++ "/" ++ b.

Definition basename (p : string) : string := last (Py.split "/" p) "".

(** [s.split(sep, 1)] when [sep] occurs in [s]: the text before the first
    occurrence and the text after it. *)
Definition split_once (sep s : string) : string * string :=
  match Py.split sep s with
  | a :: _ =>
      (a, Py.drop (String.length a + String.length sep) s)
  | [] => (s, EmptyString)
  end.

(** The fields of an analyzer object that the loaders read or write
    ([img_dir] and the other output directories are derived from
    [output_dir] and play no part in loading). *)
Record analyzer : Type := {
  input_dir : string;
  output_dir : string;
  results : option DataFrame
}.

Definition set_results (self : analyzer) (df : DataFrame) : analyzer :=
  {| input_dir := input_dir self;
     output_dir := output_dir self;
     results := Some df |}.

(** The optional [pattern] argument of the loaders: [None] when it is not
    given (or empty), otherwise whether [re.search(pattern, filename)]
    finds a match. *)
Definition file_filter : Type := option (string -> bool).

Definition filtered_out (pattern : file_filter) (filename : string) : bool :=
  match pattern with
  | Some found => negb (found filename)
  | None => false
  end.

(** What a loader leaves behind: the value returned or the exception
    raised, the analyzer afterwards, and the lines it printed (the file
    named in each "Error parsing file" message, with the exception). *)
Record outcome : Type := {
  returned : Py.result DataFrame;
  after : analyzer;
  printed : list (string * Py.exn)
}.

(* ===================================================================== *)
(** * benchmark_analyzer.py                                               *)
(* ===================================================================== *)

Module Benchmark.
Import Py.

(** The groups of the benchmark-line pattern; an optional group that took
    no part in the match is [None]. *)
Record groups : Type := {
  g_name : string;
  g_procs : option string;
  g_iterations : string;
  g_ns_per_op : string;
  g_bytes_per_op : option string;
  g_allocs_per_op : option string
}.

(** [^(Benchmark\w+)(?:-(\d+))?\s+(\d+)\s+(\d+(?:\.\d+)?) ns/op
     (?:\s+(\d+) B/op)?(?:\s+(\d+) allocs/op)?$] *)
Definition pattern : Re.parser groups :=
 (b <- Re.lit "Benchmark" ;; w <- Re.plus is_word ;;
  procs <- Re.opt (_ <- Re.lit "-" ;; Re.plus is_digit) ;;
  _ <- Re.plus is_space ;;
  iterations <- Re.plus is_digit ;;
  _ <- Re.plus is_space ;;
  i <- Re.plus is_digit ;;
  f <- Re.opt (dot <- Re.lit "." ;; d <- Re.plus is_digit ;; Re.ret (dot ++ d)%string) ;;
  _ <- Re.lit " ns/op" ;;
  bytes <- Re.opt (_ <- Re.plus is_space ;; d <- Re.plus is_digit ;;
                   _ <- Re.lit " B/op" ;; Re.ret d) ;;
  allocs <- Re.opt (_ <- Re.plus is_space ;; d <- Re.plus is_digit ;;
                    _ <- Re.lit " allocs/op" ;; Re.ret d) ;;
  _ <- Re.eol ;;
  Re.ret {| g_name := (b ++ w)%string;
            g_procs := procs;
            g_iterations := iterations;
            g_ns_per_op := (i ++ match f with Some t => t | None => "" end)%string;
            g_bytes_per_op := bytes;
            g_allocs_per_op := allocs |})%re.

(** [int(x) if x else default] for an optional group. *)
Definition int_or (default : Z) (x : option string) : result Z :=
  match x with
  | Some t => if truthy t then py_int t else Ok default
  | None => Ok default
  end.

(** The parameters encoded in a benchmark name: for every part after the
    first that holds an [=], [params[key] = value]. *)
Definition extract_params (name_parts : list string) : dict :=
  fold_left
    (fun params part =>
       if contains "=" part
       then let (key, value) := split_once "=" part in
            dict_set key (PStr value) params
       else params)
    (tl name_parts) [].

(** The body of the loop of [parse_benchmark_file] for a line that
    matched. *)
Definition record_of (g : groups) : result dict :=
 (let name := g_name g in
  let name_parts := split "/" name in
  let base_name := hd EmptyString name_parts in
  let params := extract_params name_parts in
  procs <- int_or 1 (g_procs g) ;;
  iterations <- py_int (g_iterations g) ;;
  ns_per_op <- py_float (g_ns_per_op g) ;;
  bytes_per_op <- int_or 0 (g_bytes_per_op g) ;;
  allocs_per_op <- int_or 0 (g_allocs_per_op g) ;;
  Ok (dict_update
        [("name", PStr base_name);
         ("full_name", PStr name);
         ("procs", PInt procs);
         ("iterations", PInt iterations);
         ("ns_per_op", PFloat ns_per_op);
         ("bytes_per_op", PInt bytes_per_op);
         ("allocs_per_op", PInt allocs_per_op)]
        params))%py.

(** The loop over the lines of the file. *)
Fixpoint parse_lines (lines : list string) : result DataFrame :=
  match lines with
  | [] => Ok []
  | line :: rest =>
      match Re.match_ pattern line with
      | Some g =>
          (r <- record_of g ;; rs <- parse_lines rest ;; Ok (r :: rs))%py
      | None => parse_lines rest
      end
  end.

Definition parse_benchmark_file (fs : filesystem) (filename : string)
  : result DataFrame :=
 (content <- read fs filename ;;
  parse_lines (split (String "010" EmptyString) content))%py.

Section Load.

(** [pandas.to_datetime(date_str, format='%Y%m%d')]. *)
Variable to_datetime : string -> result pyval.

(** [(\w+)_(\d{8})\.txt] *)
Definition filename_pattern : Re.parser (string * string) :=
 (test_type <- Re.plus is_word ;; _ <- Re.lit "_" ;;
  date_str <- Re.times 8 is_digit ;; _ <- Re.lit ".txt" ;;
  Re.ret (test_type, date_str))%re.

(** The body of the loop of [load_benchmark_results] for a file that is
    not skipped. *)
Definition load_file (self : analyzer) (fs : filesystem) (filename : string)
  : result DataFrame :=
 (let filepath := path_join (input_dir self) filename in
  let (test_type, date_str) :=
    match Re.search filename_pattern filename with
    | Some m => m
    | None => ("unknown", "00000000")
    end in
  df <- parse_benchmark_file fs filepath ;;
  let df := assign "test_type" (PStr test_type) df in
  date <- to_datetime date_str ;;
  let df := assign "date" date df in
  let df := assign "source_file" (PStr filename) df in
  Ok df)%py.

(** The loop over the directory listing; an exception leaves the loop. *)
Fixpoint load_loop (self : analyzer) (fs : filesystem) (pattern : file_filter)
  (names : list string) (all_results : list DataFrame)
  : result (list DataFrame) :=
  match names with
  | [] => Ok all_results
  | filename :: rest =>
      if negb (ends_with ".txt" filename)
      then load_loop self fs pattern rest all_results
      else if filtered_out pattern filename
      then load_loop self fs pattern rest all_results
      else
        (df <- load_file self fs filename ;;
         load_loop self fs pattern rest (all_results ++ [df]))%py
  end.

Definition load_benchmark_results (self : analyzer) (fs : filesystem)
  (pattern : file_filter) : outcome :=
  match (names <- listdir fs (input_dir self) ;;
         load_loop self fs pattern names [])%py with
  | Raise e => {| returned := Raise e; after := self; printed := [] |}
  | Ok [] =>
      {| returned := Raise (ValueError "No benchmark results found");
         after := self; printed := [] |}
  | Ok all_results =>
      let df := List.concat all_results in
      {| returned := Ok df; after := set_results self df; printed := [] |}
  end.

End Load.

End Benchmark.

(* ===================================================================== *)
(** * hitratio_analyzer.py                                                *)
(* ===================================================================== *)

Module HitRatio.
Import Py.

(** [[\d.]] and [[0-9.]]. *)
Definition is_digit_or_dot (c : ascii) : bool := is_digit c || Ascii.eqb c ".".

(** One field of a statistics block: [.*?label\s+], then the value. *)
Definition field {A : Type} (label : string) (value : Re.parser A)
  : Re.parser A :=
 (_ <- Re.lazy_any ;; _ <- Re.lit label ;; _ <- Re.plus is_space ;; value)%re.

(** [[0-9.]+[µnm]?s] *)
Definition duration_pattern : Re.parser string :=
 (n <- Re.plus is_digit_or_dot ;;
  u <- Re.opt (fun s => Re.lit "µ" s ++ Re.lit "n" s ++ Re.lit "m" s) ;;
  s <- Re.lit "s" ;;
  Re.ret (n ++ match u with Some t => t | None => "" end ++ s)%string)%re.

(** The seven groups of a statistics block. *)
Record groups : Type := {
  g_total : string;
  g_hits : string;
  g_misses : string;
  g_hit_ratio : string;
  g_evictions : string;
  g_eviction_ratio : string;
  g_duration : string
}.

(** [测试结果:.*?总操作数:\s+(\d+).*?命中数:\s+(\d+).*?未命中数:\s+(\d+)
     .*?命中率:\s+([\d.]+)%.*?淘汰数:\s+(\d+).*?淘汰比率:\s+([\d.]+)%
     .*?持续时间:\s+([0-9.]+[µnm]?s)], with [re.DOTALL]. *)
Definition hitratio_pattern : Re.parser groups :=
 (_ <- Re.lit "测试结果:" ;;
  total <- field "总操作数:" (Re.plus is_digit) ;;
  hits <- field "命中数:" (Re.plus is_digit) ;;
  misses <- field "未命中数:" (Re.plus is_digit) ;;
  hit_ratio <- field "命中率:"
    (r <- Re.plus is_digit_or_dot ;; _ <- Re.lit "%" ;; Re.ret r) ;;
  evictions <- field "淘汰数:" (Re.plus is_digit) ;;
  eviction_ratio <- field "淘汰比率:"
    (r <- Re.plus is_digit_or_dot ;; _ <- Re.lit "%" ;; Re.ret r) ;;
  duration <- field "持续时间:" duration_pattern ;;
  Re.ret {| g_total := total; g_hits := hits; g_misses := misses;
            g_hit_ratio := hit_ratio; g_evictions := evictions;
            g_eviction_ratio := eviction_ratio; g_duration := duration |})%re.

(** [Test(\w+)] and [Size(\d+)], the group of each. *)
Definition test_name_pattern : Re.parser string :=
 (_ <- Re.lit "Test" ;; Re.plus is_word)%re.

Definition size_pattern : Re.parser string :=
 (_ <- Re.lit "Size" ;; Re.plus is_digit)%re.

(** The text in which the parameters of a block are looked up: what
    precedes the first [总操作数: <total_ops>] of the whole content, from
    the last [=== RUN] in it onwards. *)
Definition test_context_of (content : string) (total_ops : Z) : string :=
  let context_before :=
    hd EmptyString (split ("总操作数: " ++ str_of_int total_ops) content) in
  last (split "=== RUN" context_before) EmptyString.

Definition distribution_of (test_context : string) : pyval :=
  if contains "ZipfLow" test_context then PStr "zipf-1.07"
  else if contains "ZipfHigh" test_context then PStr "zipf-1.2"
  else if contains "Uniform" test_context then PStr "uniform"
  else PNone.

Definition policy_of (test_context : string) : pyval :=
  if contains "LRU" test_context then PStr "lru"
  else if contains "LFU" test_context then PStr "lfu"
  else if contains "FIFO" test_context then PStr "fifo"
  else if contains "Random" test_context then PStr "random"
  else PNone.

(** [cache_size] starts as [None] and is assigned in every branch. *)
Definition cache_size_of (test_context : string) : result pyval :=
  match Re.search size_pattern test_context with
  | Some digits => (n <- py_int digits ;; Ok (PInt n))%py
  | None =>
      if contains "small" (lower test_context) then Ok (PInt 1000)
      else if contains "large" (lower test_context) then Ok (PInt 100000)
      else Ok (PInt 10000)
  end.

(** The duration in milliseconds; [duration_ms] starts as the [int] 0. *)
Definition duration_ms_of (duration_str : string) : result pyval :=
  if contains "µs" duration_str then
    (f <- py_float (remove_all "µs" duration_str) ;;
     Ok (PFloat (PrimFloat.div f 1000)))%py
  else if contains "ns" duration_str then
    (f <- py_float (remove_all "ns" duration_str) ;;
     Ok (PFloat (PrimFloat.div f 1000000)))%py
  else if contains "ms" duration_str then
    (f <- py_float (remove_all "ms" duration_str) ;; Ok (PFloat f))%py
  else if contains "s" duration_str then
    (f <- py_float (remove_all "s" duration_str) ;;
     Ok (PFloat (PrimFloat.mul f 1000)))%py
  else Ok (PInt 0).

(** The body of the loop of [parse_test_output] for one match. *)
Definition record_of (content : string) (m : groups) : result dict :=
 (total_ops <- py_int (g_total m) ;;
  hits <- py_int (g_hits m) ;;
  misses <- py_int (g_misses m) ;;
  hit_ratio <- py_float (g_hit_ratio m) ;;
  evictions <- py_int (g_evictions m) ;;
  eviction_ratio <- py_float (g_eviction_ratio m) ;;
  let duration_str := g_duration m in
  let test_context := test_context_of content total_ops in
  let test_name :=
    match Re.search test_name_pattern test_context with
    | Some name => PStr name
    | None => PNone
    end in
  let distribution := distribution_of test_context in
  let policy := policy_of test_context in
  cache_size <- cache_size_of test_context ;;
  duration_ms <- duration_ms_of duration_str ;;
  Ok [("test_name", test_name);
      ("cache_size", cache_size);
      ("distribution", distribution);
      ("policy", policy);
      ("total_operations", PInt total_ops);
      ("hits", PInt hits);
      ("misses", PInt misses);
      ("hit_ratio", PFloat hit_ratio);
      ("evictions", PInt evictions);
      ("eviction_ratio", PFloat eviction_ratio);
      ("duration_ms", duration_ms)])%py.

(** [parse_test_output] on the text of the file. *)
Definition parse_content (content : string) : result DataFrame :=
  let hitratio_results := Re.findall hitratio_pattern content in
  for_each (record_of content) hitratio_results.

Definition parse_test_output (fs : filesystem) (filename : string)
  : result DataFrame :=
 (content <- read fs filename ;; parse_content content)%py.

Section Load.

(** [pandas.to_datetime(date_str, format='%Y%m%d')]. *)
Variable to_datetime : string -> result pyval.

(** [hitratio_(\d{8})\.(?:txt|log)], its group. *)
Definition filename_pattern : Re.parser string :=
 (_ <- Re.lit "hitratio_" ;; date_str <- Re.times 8 is_digit ;;
  _ <- Re.lit "." ;; _ <- (fun s => Re.lit "txt" s ++ Re.lit "log" s) ;;
  Re.ret date_str)%re.

(** The [try] block of [load_test_results]. *)
Definition load_file (self : analyzer) (fs : filesystem) (filename : string)
  : result DataFrame :=
 (let filepath := path_join (input_dir self) filename in
  let date_str :=
    match Re.search filename_pattern filename with
    | Some d => d
    | None => "00000000"
    end in
  df <- parse_test_output fs filepath ;;
  date <- to_datetime date_str ;;
  let df := assign "date" date df in
  let df := assign "source_file" (PStr filename) df in
  Ok df)%py.

(** The loop over the directory listing: an exception in the [try] block
    is printed and the loop goes on. *)
Fixpoint load_loop (self : analyzer) (fs : filesystem) (pattern : file_filter)
  (names : list string) (all_results : list DataFrame)
  (out : list (string * exn)) : list DataFrame * list (string * exn) :=
  match names with
  | [] => (all_results, out)
  | filename :: rest =>
      if negb (ends_with ".txt" filename || ends_with ".log" filename)
      then load_loop self fs pattern rest all_results out
      else if filtered_out pattern filename
      then load_loop self fs pattern rest all_results out
      else
        match load_file self fs filename with
        | Ok df => load_loop self fs pattern rest (all_results ++ [df]) out
        | Raise e =>
            load_loop self fs pattern rest all_results (out ++ [(filename, e)])
        end
  end.

Definition load_test_results (self : analyzer) (fs : filesystem)
  (pattern : file_filter) : outcome :=
  match listdir fs (input_dir self) with
  | Raise e => {| returned := Raise e; after := self; printed := [] |}
  | Ok names =>
      match load_loop self fs pattern names [] [] with
      | ([], out) =>
          {| returned := Raise (ValueError "No hit ratio test results found");
             after := self; printed := out |}
      | (all_results, out) =>
          let df := List.concat all_results in
          {| returned := Ok df; after := set_results self df; printed := out |}
      end
  end.

End Load.

End HitRatio.

(* ===================================================================== *)
(** * concurrency_analyzer.py                                             *)
(* ===================================================================== *)

Module Concurrency.
Import Py.

(** [c(\d+)], [r(\d+)], [d(\d+)([smh])], [cache-(\w+)] and [(\d{8})]. *)
Definition concurrency_pattern : Re.parser string :=
 (_ <- Re.lit "c" ;; Re.plus is_digit)%re.

Definition rate_pattern : Re.parser string :=
 (_ <- Re.lit "r" ;; Re.plus is_digit)%re.

Definition is_smh (c : ascii) : bool :=
  Ascii.eqb c "s" || Ascii.eqb c "m" || Ascii.eqb c "h".

Definition duration_pattern : Re.parser (string * string) :=
 (_ <- Re.lit "d" ;; value <- Re.plus is_digit ;; unit <- Re.one is_smh ;;
  Re.ret (value, unit))%re.

Definition cache_pattern : Re.parser string :=
 (_ <- Re.lit "cache-" ;; Re.plus is_word)%re.

Definition date_pattern : Re.parser string := Re.times 8 is_digit.

Definition extract_test_params (filename : string) (data : pyval)
  : result dict :=
 (let basename := basename filename in
  concurrency <-
    match Re.search concurrency_pattern basename with
    | Some g => (n <- py_int g ;; Ok (PInt n))
    | None => Ok (PInt 1)
    end ;;
  let params := dict_set "concurrency" concurrency [] in
  target_rate <-
    match Re.search rate_pattern basename with
    | Some g => (n <- py_int g ;; Ok (PInt n))
    | None => py_get data "rate" (PInt 0)
    end ;;
  let params := dict_set "target_rate" target_rate params in
  params <-
    match Re.search duration_pattern basename with
    | Some (g, unit) =>
        value <- py_int g ;;
        if String.eqb unit "s"
        then Ok (dict_set "target_duration" (PInt value) params)
        else if String.eqb unit "m"
        then Ok (dict_set "target_duration" (PInt (value * 60)) params)
        else if String.eqb unit "h"
        then Ok (dict_set "target_duration" (PInt (value * 3600)) params)
        else Ok params
    | None =>
        d <- py_get data "duration" (PInt 0) ;;
        v <- py_div_const d 1000000000 ;;
        Ok (dict_set "target_duration" v params)
    end ;;
  let params :=
    match Re.search cache_pattern basename with
    | Some g => dict_set "cache_config" (PStr g) params
    | None => dict_set "cache_config" (PStr "default") params
    end in
  let params :=
    match Re.search date_pattern basename with
    | Some g => dict_set "test_date" (PStr g) params
    | None => dict_set "test_date" (PStr "00000000") params
    end in
  Ok params)%py.

(** [item.get('latencies', {}).get(key, 0) / 1e6] *)
Definition latency (item : pyval) (key : string) : result pyval :=
 (latencies <- py_get item "latencies" (PDict []) ;;
  v <- py_get latencies key (PInt 0) ;;
  py_div_const v 1000000)%py.

(** The [metrics] dict of one result object. *)
Definition metrics_of (item : pyval) : result dict :=
 (latency_mean <- latency item "mean" ;;
  latency_p50 <- latency item "50th" ;;
  latency_p90 <- latency item "90th" ;;
  latency_p95 <- latency item "95th" ;;
  latency_p99 <- latency item "99th" ;;
  latency_max <- latency item "max" ;;
  throughput <- py_get item "throughput" (PInt 0) ;;
  success <- py_get item "success" (PInt 0) ;;
  failed <- py_sub (PInt 1) success ;;
  success_rate <- py_mul (PInt 100) failed ;;
  requests <- py_get item "requests" (PInt 0) ;;
  d <- py_get item "duration" (PInt 0) ;;
  duration <- py_div_const d 1000000000 ;;
  errors <- py_get item "errors" (PInt 0) ;;
  rate <- py_get item "rate" (PInt 0) ;;
  Ok [("latency_mean", latency_mean);
      ("latency_p50", latency_p50);
      ("latency_p90", latency_p90);
      ("latency_p95", latency_p95);
      ("latency_p99", latency_p99);
      ("latency_max", latency_max);
      ("throughput", throughput);
      ("success_rate", success_rate);
      ("requests", requests);
      ("duration", duration);
      ("errors", errors);
      ("rate", rate)])%py.

(** The body of the loop over the result objects: [{**test_params,
    **metrics}]. *)
Definition record_of (filename : string) (item : pyval) : result dict :=
 (test_params <- extract_test_params filename item ;;
  metrics <- metrics_of item ;;
  Ok (dict_update test_params metrics))%py.

Section Vegeta.

(** [json.loads]: the decoded document, or the exception raised.  That is
    a [JSONDecodeError] for a text that is not JSON; [json.loads] also
    raises a plain [ValueError] for an integer with more digits than [int]
    takes and a [RecursionError] for a document nested too deep, which the
    two [except json.JSONDecodeError] clauses do not catch. *)
Variable json_loads : string -> result pyval.

(** The line-by-line fallback: blank lines are skipped, a line that is not
    JSON is passed over, any other exception leaves the loop. *)
Fixpoint decode_lines (lines : list string) (data : list pyval)
  : result (list pyval) :=
  match lines with
  | [] => Ok data
  | line :: rest =>
      if truthy (strip line)
      then match json_loads line with
           | Ok v => decode_lines rest (data ++ [v])
           | Raise JSONDecodeError => decode_lines rest data
           | Raise e => Raise e
           end
      else decode_lines rest data
  end.

(** The objects of a result file: the decoded document when it is a list,
    the one-element list of it when it is not, the decoded lines when the
    document as a whole is not JSON. *)
Definition load_data (content : string) : result (list pyval) :=
  match json_loads content with
  | Ok (PList l) => Ok l
  | Ok v => Ok [v]
  | Raise JSONDecodeError =>
      decode_lines (split (String "010" EmptyString) (strip content)) []
  | Raise e => Raise e
  end.

(** [parse_vegeta_results] on the text of the file. *)
Definition parse_content (filename content : string) : result DataFrame :=
 (data <- load_data content ;; for_each (record_of filename) data)%py.

Definition parse_vegeta_results (fs : filesystem) (filename : string)
  : result DataFrame :=
 (content <- read fs filename ;; parse_content filename content)%py.

(** [pandas.to_datetime(series, format='%Y%m%d')], one element at a
    time. *)
Variable to_datetime : string -> result pyval.

Definition has_column (col : string) (df : DataFrame) : bool :=
  existsb (fun row => match dict_get col row with
                      | Some _ => true
                      | None => false
                      end) df.

(** [df['date'] = pd.to_datetime(df['test_date'], format='%Y%m%d')] *)
Definition assign_dates (df : DataFrame) : result DataFrame :=
  for_each
    (fun row =>
       match dict_get "test_date" row with
       | Some (PStr s) =>
           (date <- to_datetime s ;; Ok (dict_set "date" date row))%py
       | _ => Ok (dict_set "date" PNone row)
       end) df.

(** The [try] block of [load_concurrency_results]. *)
Definition load_file (self : analyzer) (fs : filesystem) (filename : string)
  : result DataFrame :=
 (let filepath := path_join (input_dir self) filename in
  df <- parse_vegeta_results fs filepath ;;
  let df := assign "source_file" (PStr filename) df in
  if has_column "test_date" df then assign_dates df else Ok df)%py.

Fixpoint load_loop (self : analyzer) (fs : filesystem) (pattern : file_filter)
  (names : list string) (all_results : list DataFrame)
  (out : list (string * exn)) : list DataFrame * list (string * exn) :=
  match names with
  | [] => (all_results, out)
  | filename :: rest =>
      if negb (ends_with ".json" filename || ends_with ".vegeta" filename)
      then load_loop self fs pattern rest all_results out
      else if filtered_out pattern filename
      then load_loop self fs pattern rest all_results out
      else
        match load_file self fs filename with
        | Ok df => load_loop self fs pattern rest (all_results ++ [df]) out
        | Raise e =>
            load_loop self fs pattern rest all_results (out ++ [(filename, e)])
        end
  end.

Definition load_concurrency_results (self : analyzer) (fs : filesystem)
  (pattern : file_filter) : outcome :=
  match listdir fs (input_dir self) with
  | Raise e => {| returned := Raise e; after := self; printed := [] |}
  | Ok names =>
      match load_loop self fs pattern names [] [] with
      | ([], out) =>
          {| returned := Raise (ValueError "No concurrency test results found");
             after := self; printed := out |}
      | (all_results, out) =>
          let df := List.concat all_results in
          {| returned := Ok df; after := set_results self df; printed := out |}
      end
  end.

End Vegeta.

End Concurrency.

(* ===================================================================== *)
(** * pprof_analyzer.py                                                   *)
(* ===================================================================== *)

Module Pprof.
Import Py.

(** What running [go tool pprof -top] comes to: the tool is not found
    ([check_go_tool_pprof] is false), the call raises a
    [SubprocessError], or it prints [stdout]. *)
Inductive tool_run : Type :=
| ToolMissing
| ToolFailed
| ToolOutput (stdout : string).

Definition is_header (line : string) : bool :=
  contains "flat" line && contains "cum" line && contains "%" line.

(** The search for the header line: its index, [None] for [-1]. *)
Fixpoint find_header (i : nat) (lines : list string) : option nat :=
  match lines with
  | [] => None
  | line :: rest => if is_header line then Some i else find_header (S i) rest
  end.

(** The loop over the data lines. *)
Fixpoint parse_rows (lines : list string) : result DataFrame :=
  match lines with
  | [] => Ok []
  | line :: rest =>
      if negb (truthy (strip line)) then parse_rows rest
      else
        let parts := words (strip line) in
        if (List.length parts <? 5)%nat then parse_rows rest
        else
          (flat_pct <- py_float (remove_all "%" (nth 0 parts EmptyString)) ;;
           let flat_val := nth 1 parts EmptyString in
           cum_pct <- py_float (remove_all "%" (nth 2 parts EmptyString)) ;;
           let cum_val := nth 3 parts EmptyString in
           let func_name := join " " (skipn 4 parts) in
           data <- parse_rows rest ;;
           Ok ([("flat_pct", PFloat flat_pct);
                ("flat_val", PStr flat_val);
                ("cum_pct", PFloat cum_pct);
                ("cum_val", PStr cum_val);
                ("function", PStr func_name)] :: data))%py
  end.

(** The parsing of the text printed by the tool. *)
Definition parse_top (stdout : string) : result DataFrame :=
  let lines := split (String "010" EmptyString) (strip stdout) in
  match find_header O lines with
  | None => Ok []
  | Some header_idx =>
      if (List.length lines <=? header_idx + 1)%nat then Ok []
      else parse_rows (skipn (header_idx + 1) lines)
  end.

Definition extract_top_functions (run : tool_run) : result DataFrame :=
  match run with
  | ToolMissing => Ok []
  | ToolFailed => Ok []
  | ToolOutput stdout => parse_top stdout
  end.

End Pprof.

(* ===================================================================== *)
(** * benchmark_analyzer.py: the comparison data                          *)
(* ===================================================================== *)

Module Comparison.
Import Py.

(** A file system with [os.path.isdir]. *)
Record tree : Type := {
  files : filesystem;
  isdir : string -> bool
}.

(** [self.comparison_results]: a dict from the name of a cache library to
    its table. *)
Definition libraries : Type := list (string * DataFrame).

Fixpoint get_library (k : string) (libs : libraries) : option DataFrame :=
  match libs with
  | [] => None
  | (k', df) :: libs' =>
      if String.eqb k k' then Some df else get_library k libs'
  end.

(** [self.comparison_results[k] = df] *)
Fixpoint set_library (k : string) (df : DataFrame) (libs : libraries)
  : libraries :=
  match libs with
  | [] => [(k, df)]
  | (k', df') :: libs' =>
      if String.eqb k k' then (k, df) :: libs'
      else (k', df') :: set_library k df libs'
  end.

Section Load.

(** [pandas.to_datetime(date_str, format='%Y%m%d')]. *)
Variable to_datetime : string -> result pyval.

(** The body of the inner loop for a [.txt] file. *)
Definition comparison_file (fs : filesystem) (cache_dir subdir filename : string)
  : result DataFrame :=
 (let filepath := path_join cache_dir filename in
  df <- Benchmark.parse_benchmark_file fs filepath ;;
  let (test_type, date_str) :=
    match Re.search Benchmark.filename_pattern filename with
    | Some m => m
    | None => ("unknown", "00000000")
    end in
  let df := assign "test_type" (PStr test_type) df in
  date <- to_datetime date_str ;;
  let df := assign "date" date df in
  let df := assign "source_file" (PStr filename) df in
  let df := assign "cache_lib" (PStr subdir) df in
  Ok df)%py.

(** The inner loop, over the files of one library. *)
Fixpoint file_loop (fs : filesystem) (cache_dir subdir : string)
  (names : list string) (all_results : list DataFrame)
  : result (list DataFrame) :=
  match names with
  | [] => Ok all_results
  | filename :: rest =>
      if ends_with ".txt" filename
      then (df <- comparison_file fs cache_dir subdir filename ;;
            file_loop fs cache_dir subdir rest (all_results ++ [df]))%py
      else file_loop fs cache_dir subdir rest all_results
  end.

(** The [try] statement for one library: the dict afterwards and what is
    printed. *)
Definition load_library (fs : filesystem) (cache_dir subdir : string)
  (libs : libraries) : libraries * list (string * exn) :=
  match (names <- listdir fs cache_dir ;;
         file_loop fs cache_dir subdir names [])%py with
  | Ok [] => (libs, [])
  | Ok all_results => (set_library subdir (List.concat all_results) libs, [])
  | Raise e => (libs, [(subdir, e)])
  end.

(** The outer loop, over the entries of [other_cache_dir]. *)
Fixpoint subdir_loop (t : tree) (other_cache_dir : string)
  (subdirs : list string) (libs : libraries) (out : list (string * exn))
  : libraries * list (string * exn) :=
  match subdirs with
  | [] => (libs, out)
  | subdir :: rest =>
      let cache_dir := path_join other_cache_dir subdir in
      if isdir t cache_dir
      then let (libs', o) := load_library (files t) cache_dir subdir libs in
           subdir_loop t other_cache_dir rest libs' (out ++ o)
      else subdir_loop t other_cache_dir rest libs out
  end.

(** [load_comparison_data], given [self.comparison_results]: the value
    returned, which is the dict itself, or the exception of the outer
    listing, with the dict afterwards and the lines printed. *)
Definition load_comparison_data (libs : libraries) (t : tree)
  (other_cache_dir : string)
  : result libraries * libraries * list (string * exn) :=
  match listdir (files t) other_cache_dir with
  | Raise e => (Raise e, libs, [])
  | Ok subdirs =>
      let (libs', out) := subdir_loop t other_cache_dir subdirs libs [] in
      (Ok libs', libs', out)
  end.

End Load.

End Comparison.

(* ===================================================================== *)
(** * pprof_analyzer.py: metadata and the analysis of a directory         *)
(* ===================================================================== *)

Module Profiles.
Import Py.

(** [[a-zA-Z]] *)
Definition is_letter (c : ascii) : bool := is_upper c || is_lower c.

(** [([a-zA-Z]+)_\d{8}], its group. *)
Definition test_pattern : Re.parser string :=
 (name <- Re.plus is_letter ;; _ <- Re.lit "_" ;;
  _ <- Re.times 8 is_digit ;; Re.ret name)%re.

(** [(\d{8})_?(\d{6})?], its two groups. *)
Definition date_pattern : Re.parser (string * option string) :=
 (date <- Re.times 8 is_digit ;; _ <- Re.opt (Re.lit "_") ;;
  time <- Re.opt (Re.times 6 is_digit) ;; Re.ret (date, time))%re.

Definition profile_type_of (filename : string) : option string :=
  if contains "cpu" (lower filename) then Some "cpu"
  else if contains "heap" (lower filename) || contains "mem" (lower filename)
  then Some "heap"
  else if contains "block" (lower filename) then Some "block"
  else if contains "mutex" (lower filename) then Some "mutex"
  else if contains "goroutine" (lower filename) then Some "goroutine"
  else None.

Definition extract_profile_metadata (filename : string) : dict :=
  let metadata :=
    [("profile_type", PStr "unknown");
     ("test_name", PStr "unknown");
     ("date", PStr "00000000");
     ("time", PStr "000000")] in
  let metadata :=
    match profile_type_of filename with
    | Some t => dict_set "profile_type" (PStr t) metadata
    | None => metadata
    end in
  let metadata :=
    match Re.search test_pattern filename with
    | Some name => dict_set "test_name" (PStr name) metadata
    | None => metadata
    end in
  match Re.search date_pattern filename with
  | Some (date, time) =>
      let metadata := dict_set "date" (PStr date) metadata in
      match time with
      | Some t => if truthy t then dict_set "time" (PStr t) metadata
                  else metadata
      | None => metadata
      end
  | None => metadata
  end.

(** What the calls of [go tool pprof] come to during one analysis:
    whether the tool is found ([check_go_tool_pprof]); what the body of
    the [try] of [generate_flamegraph] comes to for a profile ([Ok true]
    when it ends, [Ok false] when it raises a [SubprocessError], [Raise]
    when it raises another exception, as [open] does when the HTML page
    cannot be written); and the text that [-top] prints for a profile,
    [None] when that call fails. *)
Record tool : Type := {
  available : bool;
  flamegraph : string -> result bool;
  top : string -> option string
}.

Definition check_go_tool_pprof (t : tool) : bool := available t.

Definition generate_flamegraph (t : tool) (profile_path : string)
  : result bool :=
  if negb (check_go_tool_pprof t) then Ok false
  else flamegraph t profile_path.

(** The run that [extract_top_functions] makes for a profile. *)
Definition top_run (t : tool) (profile_path : string) : Pprof.tool_run :=
  if negb (check_go_tool_pprof t) then Pprof.ToolMissing
  else match top t profile_path with
       | Some stdout => Pprof.ToolOutput stdout
       | None => Pprof.ToolFailed
       end.

(** [os.path.splitext(name)[0]] for a name without a directory: the name
    up to its last dot, unless only dots precede that dot. *)
Definition splitext_root (name : string) : string :=
  match split "." name with
  | [] | [_] => name
  | parts =>
      let root := join "." (removelast parts) in
      if forall_chars (Ascii.eqb ".") root then name else root
  end.

(** One entry of [results['profiles']]. *)
Record profile_result : Type := {
  pr_filename : string;
  pr_path : string;
  pr_metadata : dict;
  pr_flamegraph_path : option string;
  pr_top_functions : option DataFrame
}.

(** The [results] dict: the profiles, and the tables of top functions by
    file name. *)
Record analysis : Type := {
  profiles : list profile_result;
  top_functions : list (string * DataFrame)
}.

Fixpoint set_table (k : string) (df : DataFrame) (d : list (string * DataFrame))
  : list (string * DataFrame) :=
  match d with
  | [] => [(k, df)]
  | (k', df') :: d' =>
      if String.eqb k k' then (k, df) :: d' else (k', df') :: set_table k df d'
  end.

(** The analyzer: its directories and [self.results]. *)
Record pprof_analyzer : Type := {
  pa_input_dir : string;
  pa_flame_dir : string;
  pa_results : option analysis
}.

Definition is_profile (filename : string) : bool :=
  ends_with ".pprof" filename || ends_with ".pb.gz" filename.

(** The body of the loop over the profiles. *)
Definition analyze_profile (t : tool) (self : pprof_analyzer)
  (profile_path : string) (results : analysis) : result analysis :=
 (let basename := basename profile_path in
  let metadata := extract_profile_metadata basename in
  let flamegraph_basename := splitext_root basename in
  let flamegraph_path := path_join (pa_flame_dir self) flamegraph_basename in
  generated <- generate_flamegraph t profile_path ;;
  let flamegraph_path' :=
    if generated : bool
    then Some (flamegraph_path ++ ".svg")%string else None in
  top_functions' <- Pprof.extract_top_functions (top_run t profile_path) ;;
  let nonempty := match top_functions' with [] => false | _ => true end in
  let profile_result :=
    {| pr_filename := basename;
       pr_path := profile_path;
       pr_metadata := metadata;
       pr_flamegraph_path := flamegraph_path';
       pr_top_functions := if nonempty then Some top_functions' else None |} in
  Ok {| profiles := profiles results ++ [profile_result];
        top_functions :=
          if nonempty
          then set_table basename top_functions' (top_functions results)
          else top_functions results |})%py.

Fixpoint analyze_loop (t : tool) (self : pprof_analyzer)
  (profile_files : list string) (results : analysis) : result analysis :=
  match profile_files with
  | [] => Ok results
  | profile_path :: rest =>
      (results' <- analyze_profile t self profile_path results ;;
       analyze_loop t self rest results')%py
  end.

(** [analyze_profiles]: the value returned or the exception raised, and
    the analyzer afterwards. *)
Definition analyze_profiles (t : tool) (fs : filesystem) (self : pprof_analyzer)
  : result analysis * pprof_analyzer :=
  let results := {| profiles := []; top_functions := [] |} in
  match listdir fs (pa_input_dir self) with
  | Raise e => (Raise e, self)
  | Ok names =>
      let profile_files :=
        map (path_join (pa_input_dir self)) (filter is_profile names) in
      match profile_files with
      | [] => (Ok results, self)
      | _ =>
          match analyze_loop t self profile_files results with
          | Raise e => (Raise e, self)
          | Ok results' =>
              (Ok results',
               {| pa_input_dir := pa_input_dir self;
                  pa_flame_dir := pa_flame_dir self;
                  pa_results := Some results' |})
          end
      end
  end.

End Profiles.

(* ===================================================================== *)
(** * analyze_all.py: the helpers of the comprehensive report             *)
(* ===================================================================== *)

Module Report.
Import Py.
Local Open Scope string_scope.

Definition nl : string := String "010" EmptyString.
Definition dquote : string := String "034" EmptyString.

(** [s.replace(old, new)] for a non-empty [old]: the occurrences are taken
    from the left and do not overlap; [skip] counts the characters of an
    occurrence still to be passed over. *)
Fixpoint replace_go (old new : string) (skip : nat) (s : string) : string :=
  match s with
  | EmptyString => EmptyString
  | String c s' =>
      match skip with
      | S k => replace_go old new k s'
      | O =>
          if starts_with old s
          then new ++ replace_go old new (String.length old - 1) s'
          else String c (replace_go old new O s')
      end
  end.

Definition replace (old new s : string) : string := replace_go old new O s.

(** The index of the first element that satisfies [p]. *)
Fixpoint index_of {A : Type} (p : A -> bool) (xs : list A) : option nat :=
  match xs with
  | [] => None
  | x :: xs' => if p x then Some O else option_map S (index_of p xs')
  end.

(** ** [extract_section] *)

Definition is_heading (section line : string) : bool :=
  starts_with ("## " ++ section) line || starts_with ("### " ++ section) line.

Definition extract_section (content start_section : string)
  (end_section : option string) : option string :=
  let lines := split nl content in
  match index_of (is_heading start_section) lines with
  | None => None
  | Some start_idx =>
      let end_idx :=
        match end_section with
        | Some e =>
            if truthy e
            then match index_of (is_heading e) (skipn (S start_idx) lines) with
                 | Some i => (S start_idx + i)%nat
                 | None => List.length lines
                 end
            else List.length lines
        | None => List.length lines
        end in
      Some (join nl (firstn (end_idx - start_idx) (skipn start_idx lines)))
  end.

(** ** [markdown_to_html] *)

Definition convert_headers (html : string) : string :=
  let html := replace (nl ++ "# ") (nl ++ "<h1>") (replace "# " "<h1>" html) in
  let html := replace (nl ++ "## ") (nl ++ "<h2>") (replace "## " "<h2>" html) in
  let html :=
    replace (nl ++ "### ") (nl ++ "<h3>") (replace "### " "<h3>" html) in
  replace (nl ++ "#### ") (nl ++ "<h4>") (replace "#### " "<h4>" html).

Definition close_headers (html : string) : string :=
  let html := replace (nl ++ "<h1>") ("</h1>" ++ nl ++ "<h1>") html in
  let html := replace (nl ++ "<h2>") ("</h2>" ++ nl ++ "<h2>") html in
  let html := replace (nl ++ "<h3>") ("</h3>" ++ nl ++ "<h3>") html in
  replace (nl ++ "<h4>") ("</h4>" ++ nl ++ "<h4>") html.

Definition close_last_headers (html : string) : string :=
  let html := if contains "<h1>" html then html ++ "</h1>" else html in
  let html := if contains "<h2>" html then html ++ "</h2>" else html in
  let html := if contains "<h3>" html then html ++ "</h3>" else html in
  if contains "<h4>" html then html ++ "</h4>" else html.

Definition convert_links (html : string) : string :=
  let html := replace "]" "</a>" (replace "[" ("<a href=" ++ dquote) html) in
  replace ")" "" (replace "(" (dquote ++ ">") html).

Definition convert_code_blocks (html : string) : string :=
  replace (nl ++ "```") "</code></pre>" (replace "```" "<pre><code>" html).

Definition convert_lists (html : string) : string :=
  let html :=
    replace (nl ++ "  - ") (nl ++ "  <li>")
      (replace (nl ++ "- ") (nl ++ "<li>") html) in
  replace (nl ++ "  1. ") (nl ++ "  <li>")
    (replace (nl ++ "1. ") (nl ++ "<li>") html).

Definition convert_paragraph (p : string) : string :=
  if negb (starts_with "<h" p) && negb (starts_with "<pre" p)
     && negb (starts_with "<li" p)
  then "<p>" ++ p ++ "</p>"
  else p.

Definition convert_paragraphs (html : string) : string :=
  join (nl ++ nl) (map convert_paragraph (split (nl ++ nl) html)).

Definition markdown_to_html (markdown_content : string) : string :=
  let html := convert_headers markdown_content in
  let html := close_headers html in
  let html := close_last_headers html in
  let html := convert_links html in
  let html := convert_code_blocks html in
  let html := convert_lists html in
  convert_paragraphs html.

End Report.

(* ===================================================================== *)
(** * Facts about the built-in operations                                 *)
(* ===================================================================== *)

Module PyFacts.
Import Py.

(** The value of a string of digits read after [acc]. *)
Fixpoint digits_value (acc : Z) (d : string) : Z :=
  match d with
  | EmptyString => acc
  | String c d' => digits_value (10 * acc + digit_value c) d'
  end.

(** Where a digit part ends: at the end of the text, or before a character
    that is neither a digit nor an underscore. *)
Definition stops (rest : string) : Prop :=
  match rest with
  | EmptyString => True
  | String c _ => is_digit c = false /\ Ascii.eqb c "_" = false
  end.

Lemma for_each_ok {A B : Type} (f : A -> result B) xs ys :
  for_each f xs = Ok ys -> Forall2 (fun x y => f x = Ok y) xs ys.
Proof.
  revert ys; induction xs as [|x xs IH]; simpl; intros ys H.
  - inversion H; constructor.
  - destruct (f x) as [y|e] eqn:Hx; simpl in H; [|discriminate].
    destruct (for_each f xs) as [ys'|e] eqn:Hxs; simpl in H; [|discriminate].
    inversion H; subst. constructor; auto.
Qed.

(** The converse: a loop whose every step returns, returns. *)
Lemma for_each_Forall2 {A B : Type} (f : A -> result B) xs ys :
  Forall2 (fun x y => f x = Ok y) xs ys -> for_each f xs = Ok ys.
Proof.
  induction 1 as [|x y xs ys Hx _ IH]; cbn [for_each]; [reflexivity|].
  rewrite Hx, IH. reflexivity.
Qed.

(** A loop one of whose steps raises, raises. *)
Lemma for_each_raises {A B : Type} (f : A -> result B) xs x :
  In x xs -> is_ok (f x) = false -> is_ok (for_each f xs) = false.
Proof.
  induction xs as [|y xs IH]; intros Hin Hx; [destruct Hin|].
  cbn [for_each]. destruct (f y) as [b|] eqn:E; [|reflexivity].
  cbn [bind]. destruct Hin as [->|Hin]; [rewrite E in Hx; discriminate|].
  specialize (IH Hin Hx). destruct (for_each f xs); [discriminate|reflexivity].
Qed.

(** [isinstance(v, dict)] and [isinstance(v, list)]. *)
Definition is_dict (v : pyval) : bool :=
  match v with PDict _ => true | _ => false end.

Definition is_list (v : pyval) : bool :=
  match v with PList _ => true | _ => false end.

Lemma py_get_not_dict item key default :
  is_dict item = false -> py_get item key default = Raise AttributeError.
Proof. destruct item; try reflexivity; discriminate. Qed.

Lemma dict_get_set k k' v d :
  dict_get k (dict_set k' v d) =
  if String.eqb k k' then Some v else dict_get k d.
Proof.
  induction d as [|[k0 v0] d IH]; simpl.
  - destruct (String.eqb k k'); reflexivity.
  - destruct (String.eqb k' k0) eqn:E0; simpl.
    + apply String.eqb_eq in E0; subst k0.
      destruct (String.eqb k k'); reflexivity.
    + destruct (String.eqb k k0) eqn:E1.
      * apply String.eqb_eq in E1; subst k0.
        rewrite String.eqb_sym, E0. reflexivity.
      * exact IH.
Qed.

Lemma starts_with_app l r : starts_with l (l ++ r) = true.
Proof.
  induction l as [|c l IH]; simpl; [reflexivity|].
  rewrite Ascii.eqb_refl; exact IH.
Qed.

Lemma drop_app l r : drop (String.length l) (l ++ r) = r.
Proof. induction l as [|c l IH]; simpl; auto. Qed.

Lemma starts_with_split l s :
  starts_with l s = true -> s = (l ++ drop (String.length l) s)%string.
Proof.
  revert s; induction l as [|c l IH]; intros [|b s]; simpl; try reflexivity;
    try discriminate.
  intros H. apply andb_true_iff in H as [Hc Hl].
  apply Ascii.eqb_eq in Hc; subst b. f_equal; auto.
Qed.

Lemma append_nil_r s : (s ++ "")%string = s.
Proof. induction s as [|c s IH]; simpl; congruence. Qed.

Lemma append_assoc a b c : ((a ++ b) ++ c)%string = (a ++ (b ++ c))%string.
Proof. induction a as [|x a IH]; simpl; congruence. Qed.

Lemma forall_chars_app p a b :
  forall_chars p (a ++ b) = forall_chars p a && forall_chars p b.
Proof.
  induction a as [|c a IH]; simpl; [reflexivity|].
  rewrite IH, andb_assoc; reflexivity.
Qed.

Lemma forall_chars_impl (p q : ascii -> bool) s :
  (forall c, p c = true -> q c = true) ->
  forall_chars p s = true -> forall_chars q s = true.
Proof.
  intros Hpq; induction s as [|c s IH]; simpl; [auto|].
  intros H; apply andb_true_iff in H as [Hc Hs].
  rewrite (Hpq c Hc); auto.
Qed.

(** Case analysis on a character, for facts about the classes. *)
Ltac by_cases_on c :=
  destruct c as [[] [] [] [] [] [] [] []]; try discriminate; try reflexivity;
  auto.

Lemma digit_not_space c : is_digit c = true -> is_space c = false.
Proof. by_cases_on c. Qed.

Lemma digit_value_nonneg c : is_digit c = true -> (0 <= digit_value c)%Z.
Proof.
  unfold is_digit, digit_value; intros H.
  apply andb_true_iff in H as [H _]. apply Nat.leb_le in H. lia.
Qed.

Lemma digit_lower c : is_digit c = true -> lower_char c = c.
Proof. by_cases_on c. Qed.

Lemma digit_not_letter c :
  is_digit c = true -> Ascii.eqb c "i" = false /\ Ascii.eqb c "n" = false.
Proof. by_cases_on c. Qed.

Lemma dot_stops r : stops (String "." r).
Proof. simpl; auto. Qed.

Lemma digits_value_nonneg d : forall acc,
  forall_chars is_digit d = true -> (0 <= acc)%Z -> (0 <= digits_value acc d)%Z.
Proof.
  induction d as [|c d IH]; cbn [digits_value forall_chars]; intros acc H Hacc;
    [exact Hacc|].
  apply andb_true_iff in H as [Hc Hd]. apply IH; auto.
  pose proof (digit_value_nonneg c Hc). lia.
Qed.

Lemma digitpart_go_digits d : forall acc n rest,
  forall_chars is_digit d = true -> stops rest ->
  digitpart_go acc n (d ++ rest) =
  (digits_value acc d, (n + String.length d)%nat, rest).
Proof.
  induction d as [|c d IH];
    cbn [digits_value forall_chars String.append String.length digitpart_go];
    intros acc n rest Hd Hrest.
  - rewrite Nat.add_0_r. destruct rest as [|c r];
      cbn [digitpart_go]; [reflexivity|].
    destruct Hrest as [H1 H2]. rewrite H1, H2. reflexivity.
  - apply andb_true_iff in Hd as [Hc Hd]. rewrite Hc.
    rewrite IH by assumption. f_equal. f_equal. lia.
Qed.

Lemma digitpart_digits d acc rest :
  d <> EmptyString -> forall_chars is_digit d = true -> stops rest ->
  digitpart acc (d ++ rest) =
  Some (digits_value acc d, String.length d, rest).
Proof.
  intros Hne Hd Hrest. destruct d as [|c d]; [congruence|].
  unfold digitpart. change ((String c d ++ rest)%string)
    with (String c (d ++ rest)).
  pose proof Hd as Hd'. simpl in Hd'. apply andb_true_iff in Hd' as [Hc _].
  rewrite Hc. change (String c (d ++ rest)) with ((String c d ++ rest)%string).
  rewrite digitpart_go_digits by assumption. reflexivity.
Qed.

Lemma lstrip_no_space c s : is_space c = false -> lstrip (String c s) = String c s.
Proof. simpl; intros ->; reflexivity. Qed.

Lemma rstrip_no_space s :
  forall_chars (fun c => negb (is_space c)) s = true -> rstrip s = s.
Proof.
  induction s as [|c s IH]; simpl; [reflexivity|].
  intros H; apply andb_true_iff in H as [Hc Hs]. rewrite (IH Hs).
  apply negb_true_iff in Hc. destruct s; [rewrite Hc|]; reflexivity.
Qed.

Lemma strip_no_space s :
  forall_chars (fun c => negb (is_space c)) s = true -> strip s = s.
Proof.
  intros H. unfold strip. destruct s as [|c s]; [reflexivity|].
  pose proof H as H'. simpl in H'. apply andb_true_iff in H' as [Hc _].
  apply negb_true_iff in Hc. rewrite lstrip_no_space by assumption.
  apply rstrip_no_space; assumption.
Qed.

Lemma digits_no_space d :
  forall_chars is_digit d = true ->
  forall_chars (fun c => negb (is_space c)) d = true.
Proof.
  apply forall_chars_impl. intros c Hc. rewrite (digit_not_space c Hc).
  reflexivity.
Qed.

Lemma sign_digit c s : is_digit c = true -> sign (String c s) = (false, String c s).
Proof. by_cases_on c. Qed.

(** A string that [int] converts without exceeding the limit on the
    number of digits. *)
Definition within_limit (d : string) : Prop :=
  (Z.of_nat (String.length d) <= int_max_str_digits)%Z.

Definition over_limit : exn :=
  ValueError "Exceeds the limit for integer string conversion".

(** [int] on a non-empty string of digits: its value, unless the string
    exceeds the limit. *)
Lemma py_int_digits_limit d :
  d <> EmptyString -> forall_chars is_digit d = true ->
  py_int d =
  if (int_max_str_digits <? Z.of_nat (String.length d))%Z
  then Raise over_limit else Ok (digits_value 0 d).
Proof.
  intros Hne Hd.
  unfold py_int. rewrite strip_no_space by (apply digits_no_space; assumption).
  destruct d as [|c d]; [congruence|].
  pose proof Hd as Hd'. simpl in Hd'. apply andb_true_iff in Hd' as [Hc _].
  rewrite sign_digit by assumption.
  pose proof (digitpart_digits (String c d) 0 EmptyString Hne Hd I) as Hp.
  rewrite append_nil_r in Hp. rewrite Hp. reflexivity.
Qed.

(** Whether [int] takes a string of digits: it has no more digits than
    the limit. *)
Definition fits (d : string) : bool :=
  negb (int_max_str_digits <? Z.of_nat (String.length d))%Z.

Lemma py_int_fits d :
  d <> EmptyString -> forall_chars is_digit d = true ->
  py_int d = if fits d then Ok (digits_value 0 d) else Raise over_limit.
Proof.
  intros Hne Hd. rewrite py_int_digits_limit by assumption. unfold fits.
  destruct (_ <? _)%Z; reflexivity.
Qed.

Lemma string_length_app a b :
  String.length (a ++ b) = (String.length a + String.length b)%nat.
Proof. induction a as [|c a IH]; cbn; [reflexivity|]. rewrite IH. reflexivity. Qed.

(** A piece of a text within the limit fits. *)
Lemma piece_fits pre d post :
  within_limit (pre ++ d ++ post) -> fits d = true.
Proof.
  unfold within_limit, fits. rewrite !string_length_app. intros H.
  apply negb_true_iff, Z.ltb_ge. lia.
Qed.

(** [int] succeeds on a non-empty string of digits within the limit, with
    a value that is not negative. *)
Lemma py_int_digits d :
  d <> EmptyString -> forall_chars is_digit d = true -> within_limit d ->
  py_int d = Ok (digits_value 0 d) /\ (0 <= digits_value 0 d)%Z.
Proof.
  intros Hne Hd Hlim. split; [|apply digits_value_nonneg; [assumption|lia]].
  rewrite py_int_digits_limit by assumption.
  destruct (Z.ltb_spec int_max_str_digits (Z.of_nat (String.length d)));
    [unfold within_limit in Hlim; lia|reflexivity].
Qed.

(** What [int] returns for a non-empty string of digits is its value, and
    the string is within the limit. *)
Lemma py_int_digits_ok d v :
  d <> EmptyString -> forall_chars is_digit d = true -> py_int d = Ok v ->
  v = digits_value 0 d /\ (0 <= v)%Z /\ within_limit d.
Proof.
  intros Hne Hd H. rewrite py_int_digits_limit in H by assumption.
  destruct (Z.ltb_spec int_max_str_digits (Z.of_nat (String.length d)));
    [discriminate|].
  inversion H; subst. split; [reflexivity|].
  split; [apply digits_value_nonneg; [assumption|lia]|assumption].
Qed.

(** Beyond the limit [int] raises. *)
Lemma py_int_digits_over d :
  d <> EmptyString -> forall_chars is_digit d = true -> ~ within_limit d ->
  py_int d = Raise over_limit.
Proof.
  intros Hne Hd Hlim. rewrite py_int_digits_limit by assumption.
  destruct (Z.ltb_spec int_max_str_digits (Z.of_nat (String.length d)));
    [reflexivity|contradiction].
Qed.

(** The texts on which the character classes of this file are those of
    the source: outside ASCII, [\d], [\w], [\s] and [str.strip] follow
    Unicode. *)
Definition is_ascii (c : ascii) : bool := (nat_of_ascii c <? 128)%nat.

Definition ascii_text (s : string) : Prop := forall_chars is_ascii s = true.

Lemma digit_not_inf_nan c r :
  is_digit c = true ->
  let name := lower (String c r) in
  String.eqb name "inf" || String.eqb name "infinity" = false /\
  String.eqb name "nan" = false.
Proof.
  intros Hc; cbn [lower]. rewrite (digit_lower c Hc).
  destruct (digit_not_letter c Hc) as [Hi Hn].
  cbn [String.eqb]. rewrite Hi, Hn. auto.
Qed.

(** [float] succeeds on [digits] and on [digits.digits]. *)
Lemma py_float_decimal i t :
  i <> EmptyString -> forall_chars is_digit i = true ->
  (t = EmptyString \/
   exists d, t = String "." d /\ d <> EmptyString /\
             forall_chars is_digit d = true) ->
  exists f, py_float (i ++ t) = Ok f.
Proof.
  intros Hne Hi Ht. unfold py_float.
  assert (Hsp : forall_chars (fun c => negb (is_space c)) (i ++ t) = true).
  { rewrite forall_chars_app, (digits_no_space i Hi).
    destruct Ht as [->|(d & -> & _ & Hd)]; [reflexivity|].
    cbn [forall_chars]. rewrite (digits_no_space d Hd). reflexivity. }
  rewrite (strip_no_space _ Hsp).
  destruct i as [|c i]; [congruence|].
  pose proof Hi as Hi'. cbn [forall_chars] in Hi'.
  apply andb_true_iff in Hi' as [Hc _].
  change ((String c i ++ t)%string) with (String c (i ++ t)).
  rewrite sign_digit by assumption.
  destruct (digit_not_inf_nan c (i ++ t) Hc) as [E1 E2].
  cbv zeta in E1, E2. rewrite E1, E2.
  change (String c (i ++ t)) with ((String c i ++ t)%string).
  unfold float_number.
  destruct Ht as [->|(d & -> & Hdne & Hd)].
  - rewrite (digitpart_digits (String c i) 0 EmptyString Hne Hi I).
    eexists; reflexivity.
  - rewrite (digitpart_digits (String c i) 0 (String "." d) Hne Hi (dot_stops d)).
    pose proof (digitpart_digits d (digits_value 0 (String c i)) EmptyString
                  Hdne Hd I) as Hp.
    rewrite append_nil_r in Hp. rewrite Hp.
    eexists; reflexivity.
Qed.

(** A text without the separator character is one piece. *)
Lemma split_go_no_sep c s : forall cur,
  forall_chars (fun x => negb (Ascii.eqb c x)) s = true ->
  split_go (String c EmptyString) O cur s = [(cur ++ s)%string].
Proof.
  induction s as [|x s IH]; intros cur H.
  - cbn [split_go]. rewrite append_nil_r. reflexivity.
  - cbn [forall_chars] in H. apply andb_true_iff in H as [Hx Hs].
    apply negb_true_iff in Hx.
    cbn [split_go starts_with]. rewrite Hx. cbn [andb].
    rewrite IH by assumption. rewrite append_assoc. reflexivity.
Qed.

Lemma split_no_sep c s :
  forall_chars (fun x => negb (Ascii.eqb c x)) s = true ->
  split (String c EmptyString) s = [s].
Proof. intros H. unfold split. rewrite split_go_no_sep by assumption. reflexivity. Qed.

End PyFacts.

(* ===================================================================== *)
(** * Facts about the matcher                                             *)
(* ===================================================================== *)

Module ReFacts.
Import Py PyFacts.

Lemma seq_In {A B : Type} (p : Re.parser A) (f : A -> Re.parser B) s b r :
  In (b, r) (Re.seq p f s) <->
  exists a r', In (a, r') (p s) /\ In (b, r) (f a r').
Proof.
  unfold Re.seq. rewrite in_flat_map. split.
  - intros [[a r'] [H1 H2]]. exists a, r'. auto.
  - intros (a & r' & H1 & H2). exists (a, r'). auto.
Qed.

Lemma ret_In {A : Type} (a b : A) s r :
  In (b, r) (Re.ret a s) <-> b = a /\ r = s.
Proof.
  unfold Re.ret; simpl. split.
  - intros [H|[]]. inversion H; auto.
  - intros [-> ->]; auto.
Qed.

Lemma lit_In l s a r :
  In (a, r) (Re.lit l s) <-> a = l /\ s = (l ++ r)%string.
Proof.
  unfold Re.lit. destruct (starts_with l s) eqn:E; simpl.
  - split.
    + intros [H|[]]. inversion H; subst. split; [reflexivity|].
      apply starts_with_split; assumption.
    + intros [-> ->]. left. rewrite drop_app. reflexivity.
  - split; [intros []|]. intros [-> ->].
    rewrite starts_with_app in E. discriminate.
Qed.

Lemma plus_In cls s : forall a r,
  In (a, r) (Re.plus cls s) ->
  a <> EmptyString /\ forall_chars cls a = true /\ s = (a ++ r)%string.
Proof.
  induction s as [|c s IH]; intros a r H; cbn [Re.plus] in H; [destruct H|].
  destruct (cls c) eqn:Hc; [|destruct H].
  apply in_app_or in H as [H|H].
  - apply in_map_iff in H as [[a' r'] [E H]]. inversion E; subst.
    destruct (IH _ _ H) as (_ & Ha & Hs). cbn [fst snd forall_chars].
    rewrite Hc, Ha. repeat split; [discriminate|]. cbn. congruence.
  - destruct H as [H|[]]. inversion H; subst. cbn [forall_chars].
    rewrite Hc. repeat split. discriminate.
Qed.

Lemma times_In cls n : forall s a r,
  In (a, r) (Re.times n cls s) ->
  String.length a = n /\ forall_chars cls a = true /\ s = (a ++ r)%string.
Proof.
  induction n as [|n IH]; intros s a r H; cbn [Re.times] in H.
  - destruct H as [H|[]]. inversion H; subst. auto.
  - destruct s as [|c s]; [destruct H|].
    destruct (cls c) eqn:Hc; [|destruct H].
    apply in_map_iff in H as [[a' r'] [E H]]. inversion E; subst.
    destruct (IH _ _ _ H) as (Hl & Ha & Hs). cbn [fst snd forall_chars String.length].
    rewrite Hc, Ha, Hl. repeat split. cbn. congruence.
Qed.

Lemma opt_In {A : Type} (p : Re.parser A) s o r :
  In (o, r) (Re.opt p s) <->
  (exists a, o = Some a /\ In (a, r) (p s)) \/ (o = None /\ r = s).
Proof.
  unfold Re.opt. rewrite in_app_iff, in_map_iff. split.
  - intros [[[a r'] [E H]]|[H|[]]].
    + inversion E; subst. left. exists a. auto.
    + inversion H; subst. right. auto.
  - intros [(a & -> & H)|[-> ->]].
    + left. exists (a, r). auto.
    + right. left. reflexivity.
Qed.

Lemma match_In {A : Type} (p : Re.parser A) s a :
  Re.match_ p s = Some a -> exists r, In (a, r) (p s).
Proof.
  unfold Re.match_. destruct (p s) as [|[a' r] l]; [discriminate|].
  intros H; inversion H; subst. exists r. left. reflexivity.
Qed.

(** A match found by [search] is a match at a suffix of the text. *)
Lemma search_In {A : Type} (p : Re.parser A) s : forall a,
  Re.search p s = Some a ->
  exists pre t r, s = (pre ++ t)%string /\ In (a, r) (p t).
Proof.
  induction s as [|c s IH]; intros a H; cbn [Re.search] in H.
  - destruct (p EmptyString) as [|[a' r] l] eqn:E; [discriminate|].
    inversion H; subst. exists EmptyString, EmptyString, r. rewrite E.
    split; [reflexivity|left; reflexivity].
  - destruct (p (String c s)) as [|[a' r] l] eqn:E.
    + destruct (IH _ H) as (pre & t & r & -> & Hin).
      exists (String c pre), t, r. auto.
    + inversion H; subst. exists EmptyString, (String c s), r. rewrite E.
      split; [reflexivity|left; reflexivity].
Qed.

(** The match that [search] reports is the first way to match at the
    leftmost position that has one. *)
Lemma search_first {A : Type} (p : Re.parser A) s : forall a,
  Re.search p s = Some a ->
  exists pre t r l,
    s = (pre ++ t)%string /\ p t = (a, r) :: l /\
    (forall pre' t',
       s = (pre' ++ t')%string ->
       (String.length pre' < String.length pre)%nat -> p t' = []).
Proof.
  induction s as [|c s IH]; intros a H; cbn [Re.search] in H.
  - destruct (p EmptyString) as [|[a' r] l] eqn:E; [discriminate|].
    inversion H; subst. exists EmptyString, EmptyString, r, l.
    split; [reflexivity|]. split; [exact E|]. cbn. intros; lia.
  - destruct (p (String c s)) as [|[a' r] l] eqn:E.
    + destruct (IH _ H) as (pre & t & r & l & -> & Hp & Hfirst).
      exists (String c pre), t, r, l. split; [reflexivity|].
      split; [exact Hp|]. intros pre' t' Hs Hlen.
      destruct pre' as [|c' pre']; cbn [String.append String.length] in *.
      * subst t'. exact E.
      * inversion Hs; subst. apply (Hfirst pre' t'); [assumption|lia].
    + inversion H; subst. exists EmptyString, (String c s), r, l.
      split; [reflexivity|]. split; [exact E|]. cbn. intros; lia.
Qed.

(** When [search] finds nothing, no position has a way to match. *)
Lemma search_none {A : Type} (p : Re.parser A) s :
  Re.search p s = None ->
  forall pre t, s = (pre ++ t)%string -> p t = [].
Proof.
  induction s as [|c s IH]; intros H pre t Hs; cbn [Re.search] in H.
  - destruct pre; [|discriminate]. cbn in Hs. subst t.
    destruct (p EmptyString) as [|[a r] l]; [reflexivity|discriminate].
  - destruct (p (String c s)) as [|[a r] l] eqn:E; [|discriminate].
    destruct pre as [|c' pre]; cbn [String.append] in Hs.
    + subst t. exact E.
    + inversion Hs; subst. apply (IH H pre t). reflexivity.
Qed.

(** Where a run of the class ends: at the end of the text, or before a
    character that is not of the class. *)
Definition run_ends (cls : ascii -> bool) (r : string) : Prop :=
  match r with
  | EmptyString => True
  | String c _ => cls c = false
  end.

(** The first way of [[cls]+] takes the whole run. *)
Lemma plus_head cls s : forall a r l,
  Re.plus cls s = (a, r) :: l ->
  s = (a ++ r)%string /\ a <> EmptyString /\ forall_chars cls a = true /\
  run_ends cls r.
Proof.
  induction s as [|c s IH]; intros a r l H; cbn [Re.plus] in H;
    [discriminate|].
  destruct (cls c) eqn:Hc; [|discriminate].
  destruct (Re.plus cls s) as [|[a' r'] l'] eqn:E; cbn [map app fst snd] in H.
  - inversion H; subst. cbn [forall_chars]. rewrite Hc.
    repeat split; [discriminate|].
    destruct r as [|c' r]; [exact I|]. cbn [Re.plus run_ends] in *.
    destruct (cls c'); [|reflexivity].
    destruct (map _ _); discriminate.
  - inversion H; subst.
    destruct (IH _ _ _ eq_refl) as (-> & _ & Ha & Hr).
    cbn [forall_chars]. rewrite Hc, Ha. repeat split; [discriminate|assumption].
Qed.

(** [[cls]+] has a way to match exactly when the text starts with a
    character of the class. *)
Lemma plus_nil cls c s : Re.plus cls (String c s) = [] <-> cls c = false.
Proof.
  cbn [Re.plus]. destruct (cls c); split; try reflexivity; try discriminate.
  destruct (map _ _); discriminate.
Qed.

Lemma eol_In u r s :
  In (u, r) (Re.eol s) <->
  r = s /\ (s = EmptyString \/ s = String "010" EmptyString).
Proof.
  unfold Re.eol. destruct u. destruct s as [|c [|c' s]].
  - split; [intros [H|[]]; inversion H; auto|intros [-> _]; left; reflexivity].
  - destruct (Ascii.eqb c "010") eqn:E.
    + apply Ascii.eqb_eq in E. subst c.
      split; [intros [H|[]]; inversion H; auto|intros [-> _]; left; reflexivity].
    + split; [intros []|]. intros [_ [H|H]]; inversion H; subst.
      discriminate.
  - split; [intros []|]. intros [_ [H|H]]; discriminate.
Qed.

(** Every non-empty prefix made of the class is one of the ways of
    [[cls]+]. *)
Lemma plus_complete cls a : forall r,
  a <> EmptyString -> forall_chars cls a = true ->
  In (a, r) (Re.plus cls (a ++ r)).
Proof.
  induction a as [|c a IH]; intros r Hne Ha; [congruence|].
  cbn [forall_chars] in Ha. apply andb_true_iff in Ha as [Hc Ha].
  cbn [String.append Re.plus]. rewrite Hc. apply in_or_app.
  destruct a as [|c' a].
  - right. left. reflexivity.
  - left. apply in_map_iff. exists (String c' a, r). split; [reflexivity|].
    apply IH; [discriminate|assumption].
Qed.

(** Takes apart the membership of a result in a composed pattern. *)
Ltac unfold_match :=
  repeat match goal with
    | H : In _ (Re.seq _ _ _) |- _ =>
        apply seq_In in H; destruct H as (? & ? & ? & H)
    | H : In _ (Re.ret _ _) |- _ => apply ret_In in H; destruct H as [? ?]
    | H : In _ (Re.opt _ _) |- _ =>
        apply opt_In in H; destruct H as [(? & ? & H)|[? ?]]
    | H : In _ (Re.lit _ _) |- _ => apply lit_In in H; destruct H as [? ?]
    | H : In _ (Re.plus _ _) |- _ =>
        apply plus_In in H; destruct H as (? & ? & ?)
    | H : In _ (Re.times _ _ _) |- _ =>
        apply times_In in H; destruct H as (? & ? & ?)
    end.

End ReFacts.

(* ===================================================================== *)
(** * The benchmark parser                                                *)
(* ===================================================================== *)

Module BenchmarkFacts.
Import Py PyFacts ReFacts Benchmark.

Definition newline : string := String "010" EmptyString.

(** Whether a line matches the benchmark-line pattern. *)
Definition matches (line : string) : bool :=
  match Re.match_ pattern line with
  | Some _ => true
  | None => false
  end.

(** A non-empty string of digits. *)
Definition digits (d : string) : Prop :=
  d <> EmptyString /\ forall_chars is_digit d = true.

Definition optional_digits (o : option string) : Prop :=
  match o with
  | Some d => digits d
  | None => True
  end.

(** The shape of the groups of a match. *)
Record well_formed (g : groups) : Prop := {
  wf_name : exists w, g_name g = ("Benchmark" ++ w)%string /\
                      w <> EmptyString /\ forall_chars is_word w = true;
  wf_procs : optional_digits (g_procs g);
  wf_iterations : digits (g_iterations g);
  wf_ns_per_op :
    exists i t, g_ns_per_op g = (i ++ t)%string /\ digits i /\
      (t = EmptyString \/ exists d, t = String "." d /\ digits d);
  wf_bytes_per_op : optional_digits (g_bytes_per_op g);
  wf_allocs_per_op : optional_digits (g_allocs_per_op g)
}.

(** A non-empty run of whitespace. *)
Definition blank (ws : string) : Prop :=
  ws <> EmptyString /\ forall_chars is_space ws = true.

(** The text of the optional parallelism suffix, and of an optional
    memory field with its unit. *)
Definition procs_text (o : option string) : string :=
  match o with
  | Some d => ("-" ++ d)%string
  | None => EmptyString
  end.

Definition field_text (unit : string) (o : option string) (text : string)
  : Prop :=
  match o with
  | Some d => exists ws, blank ws /\ text = (ws ++ d ++ unit)%string
  | None => text = EmptyString
  end.

(** The benchmark-line grammar: the line with the fields [g] is
    [Benchmark<word>], an optional [-<digits>], whitespace, the iteration
    count, whitespace, the nanoseconds [<digits>] or [<digits>.<digits>]
    followed by [ ns/op], then optionally whitespace and [<digits> B/op],
    then optionally whitespace and [<digits> allocs/op]; a newline may
    end it. *)
Record line_of (g : groups) (line : string) : Prop := {
  line_groups : well_formed g;
  line_text :
    exists ws1 ws2 bytes_text allocs_text ending,
      blank ws1 /\ blank ws2 /\
      field_text " B/op" (g_bytes_per_op g) bytes_text /\
      field_text " allocs/op" (g_allocs_per_op g) allocs_text /\
      (ending = EmptyString \/ ending = newline) /\
      line = (g_name g ++ procs_text (g_procs g) ++ ws1 ++ g_iterations g
              ++ ws2 ++ g_ns_per_op g ++ " ns/op" ++ bytes_text
              ++ allocs_text ++ ending)%string
}.

Lemma pattern_In g line r : In (g, r) (pattern line) -> well_formed g.
Proof.
  unfold pattern. intros H. unfold_match; subst.
  all: constructor;
    cbn [g_name g_procs g_iterations g_ns_per_op g_bytes_per_op
         g_allocs_per_op optional_digits];
    unfold digits; eauto 8.
  all: eexists _, _; split; [reflexivity|]; split; [split; eassumption|].
  all: right; eexists; split; [reflexivity|split; eassumption].
Qed.

Lemma match_well_formed line g :
  Re.match_ pattern line = Some g -> well_formed g.
Proof. intros H. apply match_In in H as [r H]. eapply pattern_In; eauto. Qed.

Lemma line_text_intro g line ws1 ws2 bytes_text allocs_text ending :
  field_text " B/op" (g_bytes_per_op g) bytes_text ->
  field_text " allocs/op" (g_allocs_per_op g) allocs_text ->
  line = (g_name g ++ procs_text (g_procs g) ++ ws1 ++ g_iterations g
          ++ ws2 ++ g_ns_per_op g ++ " ns/op" ++ bytes_text
          ++ allocs_text ++ ending)%string ->
  blank ws1 -> blank ws2 -> (ending = EmptyString \/ ending = newline) ->
  exists ws1 ws2 bytes_text allocs_text ending,
    blank ws1 /\ blank ws2 /\
    field_text " B/op" (g_bytes_per_op g) bytes_text /\
    field_text " allocs/op" (g_allocs_per_op g) allocs_text /\
    (ending = EmptyString \/ ending = newline) /\
    line = (g_name g ++ procs_text (g_procs g) ++ ws1 ++ g_iterations g
            ++ ws2 ++ g_ns_per_op g ++ " ns/op" ++ bytes_text
            ++ allocs_text ++ ending)%string.
Proof. intros. exists ws1, ws2, bytes_text, allocs_text, ending. auto 10. Qed.

Ltac right_nested :=
  repeat match goal with
    | |- context [((?a ++ ?b) ++ ?c)%string] => rewrite (append_assoc a b c)
    | |- context [(?a ++ "")%string] => rewrite (append_nil_r a)
    end.

Lemma pattern_text g line r : In (g, r) (pattern line) -> line_of g line.
Proof.
  intros H. split; [eapply pattern_In; eassumption|].
  unfold pattern in H. unfold_match.
  all: match goal with
       | H : In _ (Re.eol _) |- _ => apply eol_In in H; destruct H as [? Hend]
       end.
  all: subst.
  all: eapply line_text_intro;
    cbn [g_name g_procs g_iterations g_ns_per_op g_bytes_per_op
         g_allocs_per_op procs_text field_text].
  all: try (eexists; split; [shelve|reflexivity]).
  all: try reflexivity.
  all: try (right_nested; cbn [String.append]; reflexivity).
  all: try (split; assumption).
  all: try exact Hend.
  Unshelve.
  all: try (split; assumption).
Qed.

(** Builds a way to match, piece by piece, from the text of a line. *)
Ltac build_match :=
  repeat first
    [ apply seq_In; eexists _, _; split
    | apply lit_In; split; reflexivity
    | apply plus_complete; assumption
    | apply ret_In; split; [rewrite ?append_nil_r; reflexivity|reflexivity]
    | apply eol_In; split; [reflexivity|assumption]
    | apply opt_In; left; eexists; split; [reflexivity|solve [build_match]]
    | apply opt_In; right; split; reflexivity
    | progress cbn beta ].

Lemma text_pattern g line : line_of g line -> exists r, In (g, r) (pattern line).
Proof.
  intros [[(w & Hname & Hw1 & Hw2) Hprocs [Hi1 Hi2]
            (i & t & Hns & [Hn1 Hn2] & Ht) Hbytes Hallocs]
          (ws1 & ws2 & bt & at_ & ending & [B1 B1'] & [B2 B2'] & Hbt & Hat
           & Hend & ->)].
  destruct g as [name procs iterations ns bytes allocs].
  cbn [g_name g_procs g_iterations g_ns_per_op g_bytes_per_op g_allocs_per_op]
    in *.
  subst name ns. exists ending.
  destruct procs as [p|]; cbn [optional_digits procs_text] in *;
    [destruct Hprocs as [Hp1 Hp2]|];
  (destruct bytes as [b|]; cbn [optional_digits field_text] in *;
    [destruct Hbytes as [Hb1 Hb2]; destruct Hbt as (wsb & [Bb Bb'] & ->)
    |subst bt]);
  (destruct allocs as [a|]; cbn [optional_digits field_text] in *;
    [destruct Hallocs as [Ha1 Ha2]; destruct Hat as (wsa & [Ba Ba'] & ->)
    |subst at_]);
  (destruct Ht as [->|(d & -> & Hd1 & Hd2)]).
  all: right_nested; cbn [String.append]; unfold pattern.
  all: build_match.
  Unshelve. all: exact tt.
Qed.

Lemma match_line_of line g : Re.match_ pattern line = Some g -> line_of g line.
Proof. intros H. apply match_In in H as [r H]. eapply pattern_text; eauto. Qed.

(** The lines that the pattern matches are the lines of the grammar. *)
Lemma matches_grammar line : matches line = true <-> exists g, line_of g line.
Proof.
  unfold matches. split.
  - destruct (Re.match_ pattern line) as [g|] eqn:E; [|discriminate].
    intros _. exists g. apply match_line_of, E.
  - intros [g Hg]. apply text_pattern in Hg as [r Hin].
    unfold Re.match_. destruct (pattern line) as [|[g' r'] l];
      [destruct Hin|reflexivity].
Qed.

Lemma word_not_slash c : is_word c = true -> negb (Ascii.eqb "/" c) = true.
Proof. by_cases_on c. Qed.

(** A matched name holds no [/]: it is a single part, and no parameter is
    read from it. *)
Lemma name_is_one_part g :
  well_formed g -> split "/" (g_name g) = [g_name g].
Proof.
  intros [(w & -> & _ & Hw) _ _ _ _ _]. apply split_no_sep.
  rewrite forall_chars_app. rewrite (forall_chars_impl _ _ w word_not_slash Hw).
  reflexivity.
Qed.

Definition optional_fits (o : option string) : bool :=
  match o with
  | Some d => fits d
  | None => true
  end.

(** Whether every integer field of a match is within the limit. *)
Definition all_fit (g : groups) : bool :=
  optional_fits (g_procs g) && fits (g_iterations g) &&
  optional_fits (g_bytes_per_op g) && optional_fits (g_allocs_per_op g).

Definition line_fits (line : string) : bool :=
  match Re.match_ pattern line with
  | Some g => all_fit g
  | None => true
  end.

(** The record of a match, given its nanoseconds. *)
Definition row_of (g : groups) (ns_per_op : float) : dict :=
  [("name", PStr (g_name g));
   ("full_name", PStr (g_name g));
   ("procs",
    PInt (match g_procs g with Some d => digits_value 0 d | None => 1 end));
   ("iterations", PInt (digits_value 0 (g_iterations g)));
   ("ns_per_op", PFloat ns_per_op);
   ("bytes_per_op",
    PInt (match g_bytes_per_op g with
          | Some d => digits_value 0 d
          | None => 0
          end));
   ("allocs_per_op",
    PInt (match g_allocs_per_op g with
          | Some d => digits_value 0 d
          | None => 0
          end))].

Lemma int_or_digits default o :
  optional_digits o ->
  int_or default o =
  if optional_fits o
  then Ok (match o with Some d => digits_value 0 d | None => default end)
  else Raise over_limit.
Proof.
  destruct o as [d|]; [|reflexivity]. intros Hd. unfold int_or.
  destruct d as [|c d]; [destruct Hd; congruence|]. cbn [truthy].
  destruct Hd. apply py_int_fits; assumption.
Qed.

(** The record of a matching line, field by field: [float] takes the
    nanoseconds, and [int] every integer field unless one exceeds the
    limit. *)
Lemma record_of_well_formed g :
  well_formed g ->
  exists ns_per_op,
    py_float (g_ns_per_op g) = Ok ns_per_op /\
    record_of g =
    if all_fit g then Ok (row_of g ns_per_op) else Raise over_limit.
Proof.
  intros Hwf. pose proof (name_is_one_part g Hwf) as Hname.
  destruct Hwf as [_ Hp Hi (i & t & Hns & [Hne Hd] & Ht) Hb Ha].
  assert (Hf : exists f, py_float (g_ns_per_op g) = Ok f).
  { rewrite Hns. apply py_float_decimal; auto. }
  destruct Hf as [f Hf]. exists f. split; [assumption|].
  unfold record_of, all_fit, row_of. rewrite Hname.
  rewrite (int_or_digits 1 _ Hp), (int_or_digits 0 _ Hb),
    (int_or_digits 0 _ Ha), (py_int_fits _ (proj1 Hi) (proj2 Hi)), Hf.
  destruct (optional_fits (g_procs g)), (fits (g_iterations g)),
    (optional_fits (g_bytes_per_op g)), (optional_fits (g_allocs_per_op g));
    reflexivity.
Qed.

(** The rows of the lines that match, in order. *)
Definition rows_of (lines : list string) (df : DataFrame) : Prop :=
  Forall2 (fun line row =>
             exists g ns_per_op,
               Re.match_ pattern line = Some g /\
               py_float (g_ns_per_op g) = Ok ns_per_op /\
               row = row_of g ns_per_op)
          (filter matches lines) df.

(** The loop returns the rows of the matching lines, unless an integer
    field of one of them exceeds the limit of [int]. *)
Lemma parse_lines_spec lines :
  if forallb line_fits lines
  then exists df, parse_lines lines = Ok df /\ rows_of lines df
  else parse_lines lines = Raise over_limit.
Proof.
  unfold rows_of.
  induction lines as [|line lines IH]; cbn [parse_lines filter forallb].
  - exists []. split; [reflexivity|constructor].
  - unfold matches at 1, line_fits at 1.
    destruct (Re.match_ pattern line) as [g|] eqn:E; [|exact IH].
    destruct (record_of_well_formed g (match_well_formed _ _ E))
      as (f & Hf & Hr).
    rewrite Hr. destruct (all_fit g); [|reflexivity]. cbn [andb bind].
    destruct (forallb line_fits lines).
    + destruct IH as (df & -> & Hall). cbn [bind]. eexists.
      split; [reflexivity|]. constructor; [|assumption]. exists g, f. auto.
    + rewrite IH. reflexivity.
Qed.

(** What the loop returns are the rows of the matching lines. *)
Lemma parse_lines_ok lines df :
  parse_lines lines = Ok df ->
  forallb line_fits lines = true /\ rows_of lines df.
Proof.
  intros H. pose proof (parse_lines_spec lines) as Hspec.
  destruct (forallb line_fits lines); [|congruence].
  destruct Hspec as (df' & Hdf & Hrows). split; [reflexivity|]. congruence.
Qed.

(** A file of five lines, the third cut short in the middle of its
    nanoseconds field. *)
Definition five_lines : string :=
  ("BenchmarkGet-8      5000000       250 ns/op      16 B/op     1 allocs/op"
   ++ newline ++
   "BenchmarkSet-8      3000000       410.5 ns/op    32 B/op     2 allocs/op"
   ++ newline ++
   "BenchmarkDelete-8   8000000       15"
   ++ newline ++
   "BenchmarkGetParallel-8   20000000    61.2 ns/op"
   ++ newline ++
   "BenchmarkMixed      1000000      1032 ns/op      48 B/op     3 allocs/op")%string.

(** A file system holding one file. *)
Definition one_file (path content : string) : filesystem :=
  {| listdir := fun _ => Ok [basename path];
     read := fun p => if String.eqb p path then Ok content else Raise OSError |}.

Definition bench_path : string := "results/cache_20240101.txt".

(** A sub-benchmark line as [go test -bench] prints it, and the same line
    without the parameter segment. *)
Definition sub_benchmark_line : string :=
  "BenchmarkGet/size=100-8     1000000     250 ns/op".

Definition plain_benchmark_line : string :=
  "BenchmarkGet-8     1000000     250 ns/op".

(** A well-formed line whose iteration count has 4301 digits, in a file
    after a line of the usual kind. *)
Definition ones (n : nat) : string := Nat.iter n (String "1") EmptyString.

Definition long_count_line : string :=
  ("BenchmarkGet-8     " ++ ones 4301 ++ "     250 ns/op")%string.

Definition long_count_file : string :=
  (plain_benchmark_line ++ newline ++ long_count_line)%string.

(** The optional fields of a record are 0 when the line does not give
    them, and its [name] is the whole matched name. *)
Lemma optional_fields_default_to_zero line g row :
  Re.match_ pattern line = Some g ->
  record_of g = Ok row ->
  dict_get "name" row = Some (PStr (g_name g)) /\
  (g_bytes_per_op g = None -> dict_get "bytes_per_op" row = Some (PInt 0)) /\
  (g_allocs_per_op g = None -> dict_get "allocs_per_op" row = Some (PInt 0)).
Proof.
  intros H Hrow. apply match_well_formed in H.
  destruct (record_of_well_formed g H) as (f & _ & Hr). rewrite Hr in Hrow.
  destruct (all_fit g); [|discriminate]. inversion Hrow; subst row.
  unfold row_of. cbn. repeat split; intros ->; reflexivity.
Qed.




(** C4. A benchmark name with a [/key=value] segment does not match the
    pattern, whose name group is [Benchmark\w+]: the line of a
    sub-benchmark gives no record at all, although the same line without
    the segment gives one; and for every line that does match, no
    parameter is read from the name. *)
Theorem slash_parameters_never_extracted :
  parse_lines [sub_benchmark_line] = Ok [] /\
  (exists row, parse_lines [plain_benchmark_line] = Ok [row]) /\
  (forall line,
     match Re.match_ pattern line with
     | Some g => extract_params (split "/" (g_name g)) = []
     | None => True
     end).
Proof.
  split; [vm_compute; reflexivity|]. split.
  - eexists. vm_compute. reflexivity.
  - intros line. destruct (Re.match_ pattern line) as [g|] eqn:E; [|exact I].
    rewrite (name_is_one_part g (match_well_formed _ _ E)). reflexivity.
Qed.

End BenchmarkFacts.

(* ===================================================================== *)
(** * The hit-ratio parser                                                *)
(* ===================================================================== *)

Module HitRatioFacts.
Import Py PyFacts ReFacts HitRatio.

Definition newline : string := String "010" EmptyString.

(** ** Durations *)

Lemma contains_skip a sub n u :
  forall_chars (fun c => negb (Ascii.eqb a c)) n = true ->
  contains (String a sub) (n ++ u) = contains (String a sub) u.
Proof.
  induction n as [|c n IH]; intros H; [reflexivity|].
  cbn [forall_chars] in H. apply andb_true_iff in H as [Hc Hn].
  apply negb_true_iff in Hc.
  change ((String c n ++ u)%string) with (String c (n ++ u)).
  cbn [contains starts_with]. rewrite Hc. cbn [andb orb]. auto.
Qed.

Lemma remove_skip a sub n u :
  forall_chars (fun c => negb (Ascii.eqb a c)) n = true ->
  remove_all (String a sub) (n ++ u) = (n ++ remove_all (String a sub) u)%string.
Proof.
  unfold remove_all. induction n as [|c n IH]; intros H; [reflexivity|].
  cbn [forall_chars] in H. apply andb_true_iff in H as [Hc Hn].
  apply negb_true_iff in Hc.
  change ((String c n ++ u)%string) with (String c (n ++ u)).
  cbn [remove_go starts_with]. rewrite Hc. cbn [andb].
  rewrite IH by assumption. reflexivity.
Qed.

(** The first character of each unit is not a digit or a dot. *)
Lemma number_has_no_unit_char n :
  forall_chars is_digit_or_dot n = true ->
  forall_chars (fun c => negb (Ascii.eqb "194" c)) n = true /\
  forall_chars (fun c => negb (Ascii.eqb "n" c)) n = true /\
  forall_chars (fun c => negb (Ascii.eqb "m" c)) n = true /\
  forall_chars (fun c => negb (Ascii.eqb "s" c)) n = true.
Proof.
  intros H. repeat split; revert H; apply forall_chars_impl; intros c;
    by_cases_on c.
Qed.

Definition micro : string := "µs".

(** The units a duration can end with. *)
Definition is_unit (u : string) : Prop :=
  u = "µs" \/ u = "ns" \/ u = "ms" \/ u = "s".

(** Every duration that the statistics pattern captures is a non-empty
    number part followed by a unit. *)
Lemma duration_pattern_In s d r :
  In (d, r) (duration_pattern s) ->
  exists n u, d = (n ++ u)%string /\ n <> EmptyString /\
              forall_chars is_digit_or_dot n = true /\ is_unit u.
Proof.
  unfold duration_pattern, is_unit. intros H. ReFacts.unfold_match; subst.
  - match goal with
    | H : In _ (_ ++ _) |- _ =>
        apply in_app_or in H as [H|H]; [|apply in_app_or in H as [H|H]]
    end; ReFacts.unfold_match; subst; eexists _, _;
      (split; [reflexivity|]); repeat split; auto.
  - eexists _, _. split; [reflexivity|]. repeat split; auto.
Qed.

Lemma micro_bytes : micro = String "194" (String "181" "s").
Proof. reflexivity. Qed.

(** C6. A duration is a number followed by a unit.  The unit is looked for
    in the order [µs], [ns], [ms], [s], and the number, read by [float],
    is scaled to milliseconds: divided by 1000, divided by 1000000, kept,
    or multiplied by 1000 (when [float] rejects the number, so does the
    conversion).  Every duration of a statistics block has this form.  In
    particular 500µs is 0.5, 2s is 2000.0, 10ns is 0.00001 and 123.4ms is
    123.4. *)
Theorem duration_normalised_to_ms :
  (forall s d r,
     In (d, r) (duration_pattern s) ->
     exists n u, d = (n ++ u)%string /\ n <> EmptyString /\
                 forall_chars is_digit_or_dot n = true /\ is_unit u) /\
  (forall n,
     forall_chars is_digit_or_dot n = true ->
     duration_ms_of (n ++ "µs") =
       (f <- py_float n ;; Ok (PFloat (PrimFloat.div f 1000)))%py /\
     duration_ms_of (n ++ "ns") =
       (f <- py_float n ;; Ok (PFloat (PrimFloat.div f 1000000)))%py /\
     duration_ms_of (n ++ "ms") =
       (f <- py_float n ;; Ok (PFloat f))%py /\
     duration_ms_of (n ++ "s") =
       (f <- py_float n ;; Ok (PFloat (PrimFloat.mul f 1000)))%py) /\
  (duration_ms_of "500µs" = Ok (PFloat 0.5%float) /\
   duration_ms_of "2s" = Ok (PFloat 2000%float) /\
   duration_ms_of "10ns" = Ok (PFloat 0.00001%float) /\
   duration_ms_of "123.4ms" = Ok (PFloat 123.4%float)).
Proof.
  split; [exact duration_pattern_In|].
  split; [|repeat split; vm_compute; reflexivity].
  intros n Hn.
  destruct (number_has_no_unit_char n Hn) as (Hu & Hns & Hms & Hs).
  unfold duration_ms_of. fold micro. rewrite micro_bytes.
  repeat split.
  - rewrite contains_skip by assumption.
    rewrite remove_skip by assumption.
    change (contains (String "194" (String "181" "s"))
              (String "194" (String "181" "s"))) with true.
    change (remove_all (String "194" (String "181" "s"))
              (String "194" (String "181" "s"))) with EmptyString.
    rewrite append_nil_r. reflexivity.
  - rewrite !contains_skip by assumption.
    rewrite !remove_skip by assumption.
    change (contains (String "194" (String "181" "s")) "ns") with false.
    change (contains "ns" "ns") with true.
    change (remove_all "ns" "ns") with EmptyString.
    rewrite append_nil_r. reflexivity.
  - rewrite !contains_skip by assumption.
    rewrite !remove_skip by assumption.
    change (contains (String "194" (String "181" "s")) "ms") with false.
    change (contains "ns" "ms") with false.
    change (contains "ms" "ms") with true.
    change (remove_all "ms" "ms") with EmptyString.
    rewrite append_nil_r. reflexivity.
  - rewrite !contains_skip by assumption.
    rewrite !remove_skip by assumption.
    change (contains (String "194" (String "181" "s")) "s") with false.
    change (contains "ns" "s") with false.
    change (contains "ms" "s") with false.
    change (contains "s" "s") with true.
    change (remove_all "s" "s") with EmptyString.
    rewrite append_nil_r. reflexivity.
Qed.

Lemma duration_normalised_to_ms_witness :
  duration_ms_of "123.4ms" = Ok (PFloat 123.4%float) /\
  duration_ms_of "0.25s" = Ok (PFloat 250%float).
Proof.
  destruct (proj1 (proj2 duration_normalised_to_ms) "123.4" eq_refl)
    as (_ & _ & Hms & _).
  destruct (proj1 (proj2 duration_normalised_to_ms) "0.25" eq_refl)
    as (_ & _ & _ & Hs).
  split.
  - exact Hms.
  - exact Hs.
Defined.

(** ** Cache size *)

(** A [Size<digits>] token of a context: [Size], then a run of digits
    that ends where the token ends. *)
Record size_token (ctx before digits behind : string) : Prop := {
  token_text : ctx = (before ++ "Size" ++ digits ++ behind)%string;
  token_digits : digits <> EmptyString /\ forall_chars is_digit digits = true;
  token_end : run_ends is_digit behind
}.

(** No [Size] that a digit follows starts before the position [k]. *)
Definition no_token_before (ctx : string) (k : nat) : Prop :=
  forall p c q,
    ctx = (p ++ "Size" ++ String c q)%string -> is_digit c = true ->
    (k <= String.length p)%nat.

(** No [Size] of the context is followed by a digit. *)
Definition no_token (ctx : string) : Prop :=
  forall p c q,
    ctx = (p ++ "Size" ++ String c q)%string -> is_digit c = false.

(** How the cache size follows from the context of a block: the number of
    the first [Size<digits>] token; without a token, 1000 for a context
    that holds [small] in any letter case, else 100000 for one that holds
    [large], else 10000. *)
Inductive cache_size_rule (ctx : string) : Z -> Prop :=
| size_from_token before digits behind :
    size_token ctx before digits behind ->
    no_token_before ctx (String.length before) ->
    within_limit digits ->
    cache_size_rule ctx (digits_value 0 digits)
| size_small :
    no_token ctx -> contains "small" (lower ctx) = true ->
    cache_size_rule ctx 1000
| size_large :
    no_token ctx -> contains "small" (lower ctx) = false ->
    contains "large" (lower ctx) = true ->
    cache_size_rule ctx 100000
| size_fallback :
    no_token ctx -> contains "small" (lower ctx) = false ->
    contains "large" (lower ctx) = false ->
    cache_size_rule ctx 10000.

(** What [Size(\d+)] matches at a position. *)
Lemma size_pattern_head t digits r l :
  size_pattern t = (digits, r) :: l ->
  t = ("Size" ++ digits ++ r)%string /\
  digits <> EmptyString /\ forall_chars is_digit digits = true /\
  run_ends is_digit r.
Proof.
  unfold size_pattern, Re.seq, Re.lit. intros H.
  destruct (starts_with "Size" t) eqn:E; [|discriminate].
  apply starts_with_split in E. cbn [flat_map fst snd] in H.
  rewrite app_nil_r in H. apply plus_head in H as (Ht & Hd).
  split; [|exact Hd]. rewrite E at 1. rewrite Ht. reflexivity.
Qed.

Lemma size_pattern_nil c q :
  size_pattern ("Size" ++ String c q)%string = [] -> is_digit c = false.
Proof.
  unfold size_pattern, Re.seq, Re.lit.
  change (starts_with "Size" ("Size" ++ String c q)) with true.
  cbn [flat_map fst snd String.length drop String.append].
  rewrite app_nil_r. apply plus_nil.
Qed.

(** A number written in digits is zero exactly when every digit is. *)
Lemma digits_value_zero d : forall acc,
  forall_chars is_digit d = true -> (0 <= acc)%Z ->
  (digits_value acc d = 0%Z <->
   acc = 0%Z /\ forall_chars (Ascii.eqb "0") d = true).
Proof.
  induction d as [|c d IH]; intros acc Hd Hacc; cbn [digits_value forall_chars].
  - tauto.
  - cbn [forall_chars] in Hd. apply andb_true_iff in Hd as [Hc Hd].
    pose proof (digit_value_nonneg c Hc) as Hv.
    rewrite (IH _ Hd) by lia. rewrite andb_true_iff.
    assert (Hzero : digit_value c = 0%Z <-> Ascii.eqb "0" c = true).
    { clear - Hc. revert Hc. by_cases_on c; intros _; split; intros H;
        try reflexivity; try discriminate; vm_compute in H; discriminate. }
    split.
    + intros [H0 Hz]. assert (acc = 0%Z) by lia. subst acc.
      repeat split; try assumption. apply Hzero. lia.
    + intros (-> & Hz & Hrest). apply Hzero in Hz. split; [lia|assumption].
Qed.

(** The cache size of a context, when [int] takes the digits of the
    token: never [None], and as the rule says. *)
Lemma cache_size_of_spec test_context v :
  cache_size_of test_context = Ok v ->
  exists n, v = PInt n /\ (0 <= n)%Z /\ cache_size_rule test_context n.
Proof.
  unfold cache_size_of. intros H.
  destruct (Re.search size_pattern test_context) as [digits|] eqn:E.
  - apply search_first in E as (before & t & behind & l & Hctx & Hp & Hfirst).
    apply size_pattern_head in Hp as (-> & Hne & Hd & Hend).
    destruct (py_int digits) as [n|] eqn:Hint; [|discriminate].
    cbn [bind] in H. inversion H; subst v.
    destruct (py_int_digits_ok digits n Hne Hd Hint) as (-> & Hpos & Hlim).
    eexists. split; [reflexivity|]. split; [assumption|].
    apply (size_from_token _ before digits behind); [| |assumption].
    + split; auto.
    + intros p c q Hq Hc.
      destruct (Nat.le_gt_cases (String.length before) (String.length p))
        as [Hle|Hlt]; [assumption|].
      pose proof (Hfirst _ _ Hq Hlt) as Hnil.
      apply size_pattern_nil in Hnil. congruence.
  - assert (Hnone : no_token test_context).
    { intros p c q Hq. pose proof (search_none _ _ E p _ Hq) as Hnil.
      apply size_pattern_nil in Hnil. assumption. }
    destruct (contains "small" (lower test_context)) eqn:Es;
      [|destruct (contains "large" (lower test_context)) eqn:El];
      inversion H; subst v; eexists; (split; [reflexivity|]);
      (split; [lia|]).
    + apply size_small; assumption.
    + apply size_large; assumption.
    + apply size_fallback; assumption.
Qed.

(** One statistics block of a transcript. *)
Definition block (total duration : string) : string :=
  ("    hitratio_test.go:57: 测试结果:" ++ newline ++
   "        总操作数: " ++ total ++ newline ++
   "        命中数: 800" ++ newline ++
   "        未命中数: 200" ++ newline ++
   "        命中率: 80.0%" ++ newline ++
   "        淘汰数: 50" ++ newline ++
   "        淘汰比率: 5.0%" ++ newline ++
   "        持续时间: " ++ duration ++ newline)%string.

(** The transcript of one test. *)
Definition test_run (name total duration : string) : string :=
  ("=== RUN   " ++ name ++ newline ++ block total duration ++
   "--- PASS: " ++ name ++ " (0.12s)" ++ newline)%string.

Definition size0_log : string := test_run "TestLRU_Size0" "1000" "123.4ms".

Definition plain_log : string := test_run "TestBasicHitRatio" "1000" "2s".


(** The cache size of a record and the context of its block. *)
Definition cache_size_follows (content : string) (row : dict) : Prop :=
  exists n total_ops,
    dict_get "cache_size" row = Some (PInt n) /\
    dict_get "total_operations" row = Some (PInt total_ops) /\
    (0 <= n)%Z /\
    cache_size_rule (test_context_of content total_ops) n.



(** ** The context of a block *)

(** Two tests that both run 1000 operations. *)
Definition two_tests_log : string :=
  (test_run "TestZipfLow_LRU_Size5000" "1000" "123.4ms" ++
   test_run "TestUniform_FIFO_Size100" "1000" "500µs")%string.

(** The fields of a record that the context decides. *)
Definition parameters (row : dict) : list (option pyval) :=
  [dict_get "distribution" row; dict_get "policy" row;
   dict_get "cache_size" row].

(** C2.  For a transcript with one block the parameters come from the
    test that precedes the block: [TestZipfLow_LRU_Size5000] gives
    zipf-1.07, lru, 5000 and the duration 123.4.  But the context is cut at
    the first [总操作数: 1000] of the whole transcript, so the block of a
    second test with the same number of operations, run as
    [TestUniform_FIFO_Size100], is given the parameters of the first test
    again. *)
Theorem second_block_takes_first_context :
  (exists row,
     parse_content (test_run "TestZipfLow_LRU_Size5000" "1000" "123.4ms")
       = Ok [row] /\
     parameters row =
       [Some (PStr "zipf-1.07"); Some (PStr "lru"); Some (PInt 5000)] /\
     dict_get "duration_ms" row = Some (PFloat 123.4)) /\
  (exists row,
     parse_content (test_run "TestUniform_FIFO_Size100" "1000" "500µs")
       = Ok [row] /\
     parameters row =
       [Some (PStr "uniform"); Some (PStr "fifo"); Some (PInt 100)]) /\
  (exists row1 row2,
     parse_content two_tests_log = Ok [row1; row2] /\
     parameters row1 =
       [Some (PStr "zipf-1.07"); Some (PStr "lru"); Some (PInt 5000)] /\
     parameters row2 =
       [Some (PStr "zipf-1.07"); Some (PStr "lru"); Some (PInt 5000)] /\
     dict_get "duration_ms" row2 = Some (PFloat 0.5)).
Proof.
  split; [|split].
  - eexists. repeat split; vm_compute; reflexivity.
  - eexists. repeat split; vm_compute; reflexivity.
  - eexists _, _. repeat split; vm_compute; reflexivity.
Qed.

End HitRatioFacts.

(* ===================================================================== *)
(** * The load-test parser                                                *)
(* ===================================================================== *)

Module ConcurrencyFacts.
Import Py PyFacts Concurrency.

Definition newline : string := String "010" EmptyString.

(** Splits a successful sequence of steps into its steps. *)
Ltac steps H :=
  repeat match type of H with
    | context [bind ?e _] =>
        let E := fresh "E" in
        destruct e eqn:E; cbn [bind] in H; [|discriminate H]
    end.

(** The [success_rate] of a record is computed from the [success] field of
    its object, whatever the file name contributes. *)
Lemma record_of_success_rate filename item row :
  record_of filename item = Ok row ->
  exists success failed rate,
    py_get item "success" (PInt 0) = Ok success /\
    py_sub (PInt 1) success = Ok failed /\
    py_mul (PInt 100) failed = Ok rate /\
    dict_get "success_rate" row = Some rate.
Proof.
  unfold record_of. intros H.
  destruct (extract_test_params filename item) as [test_params|];
    [|discriminate]. cbn [bind] in H.
  destruct (metrics_of item) as [metrics|] eqn:Hm; [|discriminate].
  cbn [bind] in H. inversion H; subst row; clear H.
  unfold metrics_of in Hm. steps Hm. inversion Hm; subst metrics; clear Hm.
  eexists _, _, _. repeat split; try eassumption.
  unfold dict_update. cbn [fold_left fst snd].
  rewrite !dict_get_set. reflexivity.
Qed.

(** A record is built from an object only. *)
Lemma record_of_needs_object filename item :
  is_dict item = false -> is_ok (record_of filename item) = false.
Proof.
  intros H. unfold record_of.
  destruct (extract_test_params filename item); [|reflexivity].
  cbn [bind]. unfold metrics_of, latency.
  rewrite (py_get_not_dict item) by assumption. reflexivity.
Qed.

(** Whether [json.loads] rejects a text as not being JSON. *)
Definition not_json (json_loads : string -> result pyval) (line : string)
  : bool :=
  match json_loads line with
  | Raise JSONDecodeError => true
  | _ => false
  end.

(** Whether a line stops the line-by-line reading: it is not blank and
    [json.loads] raises on it something else than a [JSONDecodeError]. *)
Definition fatal (json_loads : string -> result pyval) (line : string)
  : bool :=
  truthy (strip line) &&
  match json_loads line with
  | Ok _ => false
  | Raise JSONDecodeError => false
  | Raise _ => true
  end.

(** The non-blank lines of a text that [json_loads] rejects. *)
Definition dropped_lines (json_loads : string -> result pyval)
  (content : string) : nat :=
  List.length
    (filter (fun line => truthy (strip line) && not_json json_loads line)
            (split newline (strip content))).

(** The values of the non-blank lines that decode, in order. *)
Definition decoded (json_loads : string -> result pyval)
  (lines : list string) : list pyval :=
  flat_map (fun line =>
              if truthy (strip line)
              then match json_loads line with
                   | Ok v => [v]
                   | Raise _ => []
                   end
              else []) lines.

(** Without a fatal line the reading returns the decoded values. *)
Lemma decode_lines_spec json_loads lines : forall data,
  forallb (fun line => negb (fatal json_loads line)) lines = true ->
  decode_lines json_loads lines data = Ok (data ++ decoded json_loads lines).
Proof.
  unfold decoded.
  induction lines as [|line lines IH]; intros data H;
    cbn [decode_lines flat_map forallb] in *.
  - rewrite app_nil_r. reflexivity.
  - apply andb_true_iff in H as [Hline H]. unfold fatal in Hline.
    destruct (truthy (strip line)); [|apply IH, H].
    destruct (json_loads line) as [v|e]; [|destruct e; try discriminate];
      rewrite IH by exact H; [|reflexivity].
    rewrite <- app_assoc. reflexivity.
Qed.

(** The first fatal line decides: the reading raises what [json.loads]
    raises on it. *)
Lemma decode_lines_fatal json_loads before line behind e : forall data,
  forallb (fun line => negb (fatal json_loads line)) before = true ->
  truthy (strip line) = true -> json_loads line = Raise e ->
  e <> JSONDecodeError ->
  decode_lines json_loads (before ++ line :: behind) data = Raise e.
Proof.
  intros data Hbefore Hline He Hne. revert data.
  induction before as [|l before IH]; intros data;
    cbn [app decode_lines forallb] in *.
  - rewrite Hline, He. destruct e; congruence.
  - apply andb_true_iff in Hbefore as [Hl Hbefore]. unfold fatal in Hl.
    specialize (IH Hbefore).
    destruct (truthy (strip l)); [|apply IH].
    destruct (json_loads l) as [v|e']; [apply IH|].
    destruct e'; try discriminate. apply IH.
Qed.

(** A line that is not JSON leaves no trace in the reading. *)
Lemma decode_lines_drop json_loads before bad behind : forall data,
  json_loads bad = Raise JSONDecodeError ->
  decode_lines json_loads (before ++ bad :: behind) data =
  decode_lines json_loads (before ++ behind) data.
Proof.
  intros data Hbad. revert data.
  induction before as [|l before IH]; intros data; cbn [app decode_lines].
  - rewrite Hbad. destruct (truthy (strip bad)); reflexivity.
  - destruct (truthy (strip l)); [|apply IH].
    destruct (json_loads l) as [v|e]; [apply IH|].
    destruct e; try reflexivity. apply IH.
Qed.

(** ** Sample documents *)

Definition quote : string := String "034" EmptyString.

(** [{"success": 0.95}] and [{"success": 1.0, "requests": 300}] *)
Definition success_095 : string :=
  ("{" ++ quote ++ "success" ++ quote ++ ": 0.95}")%string.

Definition success_1 : string :=
  ("{" ++ quote ++ "success" ++ quote ++ ": 1.0, " ++
   quote ++ "requests" ++ quote ++ ": 300}")%string.

(** [json.loads] on the documents of the examples below; any other text
    used there is not JSON, but for [huge_count]. *)
Definition sample_documents : list (string * pyval) :=
  [(success_095, PDict [("success", PFloat 0.95)]);
   (success_1, PDict [("success", PFloat 1); ("requests", PInt 300)]);
   ("{}", PDict []);
   ("null", PNone);
   (("[" ++ success_095 ++ ", {}]")%string,
    PList [PDict [("success", PFloat 0.95)]; PDict []])].

(** A result object whose request count has 4301 digits: [json.loads]
    raises the [ValueError] of [int] on it. *)
Definition huge_count : string :=
  ("{" ++ quote ++ "requests" ++ quote ++ ": "
   ++ Nat.iter 4301 (String "1") EmptyString ++ "}")%string.

Definition sample_loads (s : string) : result pyval :=
  match find (fun doc => String.eqb s (fst doc)) sample_documents with
  | Some doc => Ok (snd doc)
  | None =>
      if String.eqb s huge_count then Raise over_limit
      else Raise JSONDecodeError
  end.

(** [pandas.to_datetime] with the format [%Y%m%d] on the dates of the
    examples: eight digits with a month from 01 to 12 and a day from 01 to
    31 convert, anything else (so the 00000000 of a file without a date)
    is rejected. *)
Definition sample_to_datetime (s : string) : result pyval :=
  match py_int (substring 4 2 s), py_int (substring 6 2 s) with
  | Ok m, Ok d =>
      if (String.length s =? 8)%nat && forall_chars is_digit s &&
         (1 <=? m)%Z && (m <=? 12)%Z && (1 <=? d)%Z && (d <=? 31)%Z
      then Ok (PStr s)
      else Raise (ValueError "time data does not match format")
  | _, _ => Raise (ValueError "time data does not match format")
  end.

Definition results_path : string := "results/load_c16_r100_d30s_20240101.json".

(** Two result objects on two lines, then one and then two lines that are
    not JSON. *)
Definition ndjson_one_bad : string :=
  (success_095 ++ newline ++ success_1 ++ newline ++ "vegeta: interrupted"
   ++ newline)%string.

Definition ndjson_two_bad : string :=
  (success_095 ++ newline ++ "{" ++ quote ++ "succ" ++ newline ++ success_1
   ++ newline ++ "vegeta: interrupted" ++ newline)%string.

(** Two result objects with a line between them on which [json.loads]
    raises a [ValueError], and two result objects followed by [null]. *)
Definition ndjson_huge : string :=
  (success_095 ++ newline ++ huge_count ++ newline ++ success_1)%string.

Definition ndjson_null : string :=
  (success_095 ++ newline ++ success_1 ++ newline ++ "null")%string.

(** The number that [json.loads] reads from [0.95]. *)
Example float_of_095 : py_float "0.95" = Ok 0.95%float.
Proof. vm_compute. reflexivity. Qed.

(** C1, as the claim states it, at the object [{"success": 0.95}]: the
    [success_rate] of its record is the binary64 number
    5.000000000000004, which does not compare equal to 5.0. *)
Lemma success_095_is_not_5 :
  exists row rate,
    parse_content sample_loads results_path success_095 = Ok [row] /\
    dict_get "success_rate" row = Some (PFloat rate) /\
    rate = 5.000000000000004%float /\
    PrimFloat.eqb rate 5 = false.
Proof. eexists _, _. repeat split; vm_compute; reflexivity. Qed.

(** C1.  For every result object that [parse_vegeta_results] turns into a
    record, the [success_rate] of the record is 100 * (1 - success), where
    [success] is the field of the object, 0 when it is absent, and the
    arithmetic is Python's: exact on [int], binary64 on [float].  So
    [success] = 0.95 gives 100 * (1 - 0.95) in binary64, which is
    5.000000000000004, [success] = 0.5 gives 50.0, and an object without
    the field gives 100. *)
Theorem success_rate_is_failure_percentage :
  (forall json_loads filename content df,
     parse_content json_loads filename content = Ok df ->
     exists data,
       load_data json_loads content = Ok data /\
       Forall2
         (fun item row =>
            exists success failed rate,
              py_get item "success" (PInt 0) = Ok success /\
              py_sub (PInt 1) success = Ok failed /\
              py_mul (PInt 100) failed = Ok rate /\
              dict_get "success_rate" row = Some rate)
         data df) /\
  (forall f failed,
     py_sub (PInt 1) (PFloat f) = Ok failed ->
     py_mul (PInt 100) failed =
     Ok (PFloat (PrimFloat.mul 100 (PrimFloat.sub 1 f)))) /\
  (exists row,
     record_of results_path (PDict [("success", PFloat 0.95)]) = Ok row /\
     dict_get "success_rate" row = Some (PFloat 5.000000000000004)) /\
  (exists row,
     record_of results_path (PDict [("success", PFloat 0.5)]) = Ok row /\
     dict_get "success_rate" row = Some (PFloat 50)) /\
  (exists row,
     record_of results_path (PDict []) = Ok row /\
     dict_get "success_rate" row = Some (PInt 100)).
Proof.
  split; [|split; [|repeat split; eexists; split; vm_compute; reflexivity]].
  - intros json_loads filename content df H. unfold parse_content in H.
    destruct (load_data json_loads content) as [data|]; [|discriminate].
    cbn [bind] in H. exists data. split; [reflexivity|].
    apply for_each_ok in H.
    induction H as [|item row items rows Hrow _ IH]; constructor; [|exact IH].
    eapply record_of_success_rate; eassumption.
  - intros f failed H. unfold py_sub, arith in H. cbn in H.
    inversion H; subst failed. reflexivity.
Qed.

Lemma success_rate_is_failure_percentage_witness :
  exists data,
    load_data sample_loads ndjson_one_bad = Ok data /\
  Forall2
    (fun item row =>
       exists success failed rate,
         py_get item "success" (PInt 0) = Ok success /\
         py_sub (PInt 1) success = Ok failed /\
         py_mul (PInt 100) failed = Ok rate /\
         dict_get "success_rate" row = Some rate)
    data
    [[("concurrency", PInt 16); ("target_rate", PInt 100);
      ("target_duration", PInt 30); ("cache_config", PStr "default");
      ("test_date", PStr "20240101"); ("latency_mean", PFloat 0);
      ("latency_p50", PFloat 0); ("latency_p90", PFloat 0);
      ("latency_p95", PFloat 0); ("latency_p99", PFloat 0);
      ("latency_max", PFloat 0); ("throughput", PInt 0);
      ("success_rate", PFloat 5.000000000000004); ("requests", PInt 0);
      ("duration", PFloat 0); ("errors", PInt 0); ("rate", PInt 0)];
     [("concurrency", PInt 16); ("target_rate", PInt 100);
      ("target_duration", PInt 30); ("cache_config", PStr "default");
      ("test_date", PStr "20240101"); ("latency_mean", PFloat 0);
      ("latency_p50", PFloat 0); ("latency_p90", PFloat 0);
      ("latency_p95", PFloat 0); ("latency_p99", PFloat 0);
      ("latency_max", PFloat 0); ("throughput", PInt 0);
      ("success_rate", PFloat 0); ("requests", PInt 300);
      ("duration", PFloat 0); ("errors", PInt 0); ("rate", PInt 0)]].
Proof.
  apply (proj1 success_rate_is_failure_percentage sample_loads results_path).
  vm_compute. reflexivity.
Defined.

(** C7, as the claim states it, at two files: one has one line that is
    not JSON, the other has two, and [parse_vegeta_results] returns the
    same two records for both.  What it returns is all it produces, so the
    number of dropped lines is kept nowhere. *)
Lemma dropped_lines_leave_no_count :
  dropped_lines sample_loads ndjson_one_bad = 1%nat /\
  dropped_lines sample_loads ndjson_two_bad = 2%nat /\
  (exists row1 row2,
     parse_content sample_loads results_path ndjson_one_bad = Ok [row1; row2] /\
     parse_content sample_loads results_path ndjson_two_bad = Ok [row1; row2]).
Proof.
  split; [vm_compute; reflexivity|]. split; [vm_compute; reflexivity|].
  eexists _, _. split; vm_compute; reflexivity.
Qed.

(** C7 (as amended).  The load-test parser reads three encodings: a
    document that is one object gives the record of that object; a
    document that is an array gives one record per element; a text that is
    not JSON is read line by line.  There, a non-blank line that is not
    JSON raises nothing and is dropped without a trace (the reading is the
    same with and without it), and the lines that decode give one record
    each, in order, exactly when a record can be built from each of them.
    But the parse raises when [json.loads] raises something else than a
    [JSONDecodeError], on a line or on the whole text, and when a decoded
    value is not an object. *)
Theorem three_encodings_and_silent_drop :
  forall (json_loads : string -> result pyval) (filename content : string),
    let lines := split newline (strip content) in
    (forall d,
       json_loads content = Ok (PDict d) ->
       parse_content json_loads filename content =
       for_each (record_of filename) [PDict d]) /\
    (forall l,
       json_loads content = Ok (PList l) ->
       parse_content json_loads filename content =
       for_each (record_of filename) l) /\
    (json_loads content = Raise JSONDecodeError ->
     forallb (fun line => negb (fatal json_loads line)) lines = true ->
     load_data json_loads content = Ok (decoded json_loads lines) /\
     forall df,
       parse_content json_loads filename content = Ok df <->
       Forall2 (fun item row => record_of filename item = Ok row)
               (decoded json_loads lines) df) /\
    (forall before line behind e,
       json_loads content = Raise JSONDecodeError ->
       lines = before ++ line :: behind ->
       forallb (fun line => negb (fatal json_loads line)) before = true ->
       truthy (strip line) = true -> json_loads line = Raise e ->
       e <> JSONDecodeError ->
       parse_content json_loads filename content = Raise e) /\
    (forall before bad behind data,
       json_loads bad = Raise JSONDecodeError ->
       decode_lines json_loads (before ++ bad :: behind) data =
       decode_lines json_loads (before ++ behind) data) /\
    (forall data item,
       load_data json_loads content = Ok data ->
       In item data -> is_dict item = false ->
       is_ok (parse_content json_loads filename content) = false) /\
    (forall e,
       json_loads content = Raise e -> e <> JSONDecodeError ->
       parse_content json_loads filename content = Raise e).
Proof.
  intros json_loads filename content lines. unfold parse_content.
  split; [|split; [|split; [|split; [|split; [|split]]]]].
  - intros d H. unfold load_data. rewrite H. reflexivity.
  - intros l H. unfold load_data. rewrite H. reflexivity.
  - intros H Hlines. unfold load_data. rewrite H. fold newline lines.
    rewrite (decode_lines_spec _ _ [] Hlines). cbn [app bind].
    split; [reflexivity|]. intros df. split.
    + apply for_each_ok.
    + apply for_each_Forall2.
  - intros before line behind e H Hsplit Hbefore Hline He Hne.
    unfold load_data. rewrite H. fold newline lines. rewrite Hsplit.
    rewrite (decode_lines_fatal _ _ _ _ e [] Hbefore Hline He Hne).
    reflexivity.
  - intros before bad behind data. apply decode_lines_drop.
  - intros data item Hdata Hin Hitem. rewrite Hdata. cbn [bind].
    apply (for_each_raises _ _ item Hin).
    apply record_of_needs_object, Hitem.
  - intros e H Hne. unfold load_data. rewrite H.
    destruct e; try reflexivity. congruence.
Qed.

Lemma three_encodings_and_silent_drop_witness :
  (exists row,
     parse_content sample_loads results_path success_095 = Ok [row]) /\
  (exists row1 row2,
     parse_content sample_loads results_path
       ("[" ++ success_095 ++ ", {}]") = Ok [row1; row2]) /\
  (exists row1 row2,
     Forall2 (fun item row => record_of results_path item = Ok row)
       (decoded sample_loads (split newline (strip ndjson_two_bad)))
       [row1; row2] /\
     parse_content sample_loads results_path ndjson_two_bad =
       Ok [row1; row2]) /\
  parse_content sample_loads results_path ndjson_huge = Raise over_limit /\
  decode_lines sample_loads [success_095; "vegeta: interrupted"; success_1] [] =
  decode_lines sample_loads [success_095; success_1] [] /\
  is_ok (parse_content sample_loads results_path ndjson_null) = false /\
  parse_content sample_loads results_path huge_count = Raise over_limit.
Proof.
  destruct (three_encodings_and_silent_drop sample_loads results_path
              success_095) as (Hobject & _).
  destruct (three_encodings_and_silent_drop sample_loads results_path
              ("[" ++ success_095 ++ ", {}]")) as (_ & Harray & _).
  destruct (three_encodings_and_silent_drop sample_loads results_path
              ndjson_two_bad) as (_ & _ & Hlines & _ & Hdrop & _).
  destruct (three_encodings_and_silent_drop sample_loads results_path
              ndjson_huge) as (_ & _ & _ & Hfatal & _).
  destruct (three_encodings_and_silent_drop sample_loads results_path
              ndjson_null) as (_ & _ & _ & _ & _ & Hnull & _).
  destruct (three_encodings_and_silent_drop sample_loads results_path
              huge_count) as (_ & _ & _ & _ & _ & _ & Hwhole).
  split; [|split; [|split; [|split; [|split; [|split]]]]].
  - rewrite (Hobject _ eq_refl). eexists. vm_compute. reflexivity.
  - rewrite (Harray _ eq_refl). eexists _, _. vm_compute. reflexivity.
  - assert (Hdoc : sample_loads ndjson_two_bad = Raise JSONDecodeError)
      by (vm_compute; reflexivity).
    assert (Hnone : forallb (fun line => negb (fatal sample_loads line))
                      (split newline (strip ndjson_two_bad)) = true)
      by (vm_compute; reflexivity).
    destruct (Hlines Hdoc Hnone) as [_ Hrows].
    eexists _, _. split; [apply Hrows|]; vm_compute; reflexivity.
  - apply (Hfatal [success_095] huge_count [success_1] over_limit);
      try (vm_compute; reflexivity). discriminate.
  - exact (Hdrop [success_095] "vegeta: interrupted" [success_1] [] eq_refl).
  - apply (Hnull [PDict [("success", PFloat 0.95)];
                   PDict [("success", PFloat 1); ("requests", PInt 300)];
                   PNone] PNone);
      [vm_compute; reflexivity|cbn; auto|reflexivity].
  - apply (Hwhole over_limit); [vm_compute; reflexivity|discriminate].
Defined.

End ConcurrencyFacts.

(* ===================================================================== *)
(** * The loaders                                                         *)
(* ===================================================================== *)

Module LoadFacts.
Import Py PyFacts.

(** The tables of the files that load, in the order of the listing, and
    the failures of the others. *)
Definition loaded (load : string -> result DataFrame) (files : list string)
  : list DataFrame :=
  flat_map (fun f => match load f with Ok df => [df] | Raise _ => [] end) files.

Definition failed (load : string -> result DataFrame) (files : list string)
  : list (string * exn) :=
  flat_map (fun f => match load f with Ok _ => [] | Raise e => [(f, e)] end)
           files.

(** The files of a listing that each loader takes up. *)
Definition benchmark_file (pattern : file_filter) (filename : string) : bool :=
  ends_with ".txt" filename && negb (filtered_out pattern filename).

Definition hitratio_file (pattern : file_filter) (filename : string) : bool :=
  (ends_with ".txt" filename || ends_with ".log" filename)
  && negb (filtered_out pattern filename).

Definition concurrency_file (pattern : file_filter) (filename : string) : bool :=
  (ends_with ".json" filename || ends_with ".vegeta" filename)
  && negb (filtered_out pattern filename).

(** What a loader returns for the tables of the files that loaded. *)
Definition result_of (message : string) (tables : list DataFrame)
  : result DataFrame :=
  match tables with
  | [] => Raise (ValueError message)
  | _ => Ok (List.concat tables)
  end.

Section Loaders.

Variable to_datetime : string -> result pyval.
Variable json_loads : string -> result pyval.
Variable self : analyzer.
Variable fs : filesystem.
Variable pattern : file_filter.

Lemma hitratio_loop names : forall all_results out,
  HitRatio.load_loop to_datetime self fs pattern names all_results out =
  (all_results ++ loaded (HitRatio.load_file to_datetime self fs)
                         (filter (hitratio_file pattern) names),
   out ++ failed (HitRatio.load_file to_datetime self fs)
                 (filter (hitratio_file pattern) names)).
Proof.
  induction names as [|f names IH]; intros all_results out;
    cbn [HitRatio.load_loop filter].
  - cbn. rewrite !app_nil_r. reflexivity.
  - assert (Hf : hitratio_file pattern f =
                 (ends_with ".txt" f || ends_with ".log" f)
                 && negb (filtered_out pattern f)) by reflexivity.
    destruct (ends_with ".txt" f || ends_with ".log" f);
      [destruct (filtered_out pattern f)|];
      cbn [negb andb] in Hf |- *; rewrite Hf; try apply IH.
    cbn [loaded failed flat_map].
    destruct (HitRatio.load_file to_datetime self fs f) as [df|e];
      rewrite IH; cbn [app]; rewrite <- ?app_assoc; reflexivity.
Qed.

Lemma concurrency_loop names : forall all_results out,
  Concurrency.load_loop json_loads to_datetime self fs pattern names
    all_results out =
  (all_results ++ loaded (Concurrency.load_file json_loads to_datetime self fs)
                         (filter (concurrency_file pattern) names),
   out ++ failed (Concurrency.load_file json_loads to_datetime self fs)
                 (filter (concurrency_file pattern) names)).
Proof.
  induction names as [|f names IH]; intros all_results out;
    cbn [Concurrency.load_loop filter].
  - cbn. rewrite !app_nil_r. reflexivity.
  - assert (Hf : concurrency_file pattern f =
                 (ends_with ".json" f || ends_with ".vegeta" f)
                 && negb (filtered_out pattern f)) by reflexivity.
    destruct (ends_with ".json" f || ends_with ".vegeta" f);
      [destruct (filtered_out pattern f)|];
      cbn [negb andb] in Hf |- *; rewrite Hf; try apply IH.
    cbn [loaded failed flat_map].
    destruct (Concurrency.load_file json_loads to_datetime self fs f) as [df|e];
      rewrite IH; cbn [app]; rewrite <- ?app_assoc; reflexivity.
Qed.

(** The benchmark loop, when every file it takes up loads. *)
Lemma benchmark_loop names : forall all_results,
  Forall (fun f => is_ok (Benchmark.load_file to_datetime self fs f) = true)
         (filter (benchmark_file pattern) names) ->
  Benchmark.load_loop to_datetime self fs pattern names all_results =
  Ok (all_results ++ loaded (Benchmark.load_file to_datetime self fs)
                            (filter (benchmark_file pattern) names)).
Proof.
  induction names as [|f names IH]; intros all_results;
    cbn [Benchmark.load_loop filter].
  - intros _. cbn. rewrite app_nil_r. reflexivity.
  - assert (Hf : benchmark_file pattern f =
                 ends_with ".txt" f && negb (filtered_out pattern f))
      by reflexivity.
    destruct (ends_with ".txt" f); [destruct (filtered_out pattern f)|];
      cbn [negb andb] in Hf |- *; rewrite Hf; try apply IH.
    intros H. inversion H as [|? ? Hok Hrest]; subst.
    cbn [loaded flat_map].
    destruct (Benchmark.load_file to_datetime self fs f) as [df|e];
      [|discriminate].
    cbn [bind]. rewrite IH by assumption. cbn [app].
    rewrite <- app_assoc. reflexivity.
Qed.

Lemma hitratio_outcome names :
  listdir fs (input_dir self) = Ok names ->
  let tables := loaded (HitRatio.load_file to_datetime self fs)
                       (filter (hitratio_file pattern) names) in
  HitRatio.load_test_results to_datetime self fs pattern =
  {| returned := result_of "No hit ratio test results found" tables;
     after := match tables with
              | [] => self
              | _ => set_results self (List.concat tables)
              end;
     printed := failed (HitRatio.load_file to_datetime self fs)
                       (filter (hitratio_file pattern) names) |}.
Proof.
  intros Hdir tables. unfold HitRatio.load_test_results.
  rewrite Hdir, hitratio_loop. cbn [app]. fold tables.
  destruct tables; reflexivity.
Qed.

Lemma concurrency_outcome names :
  listdir fs (input_dir self) = Ok names ->
  let tables := loaded (Concurrency.load_file json_loads to_datetime self fs)
                       (filter (concurrency_file pattern) names) in
  Concurrency.load_concurrency_results json_loads to_datetime self fs pattern =
  {| returned := result_of "No concurrency test results found" tables;
     after := match tables with
              | [] => self
              | _ => set_results self (List.concat tables)
              end;
     printed := failed (Concurrency.load_file json_loads to_datetime self fs)
                       (filter (concurrency_file pattern) names) |}.
Proof.
  intros Hdir tables. unfold Concurrency.load_concurrency_results.
  rewrite Hdir, concurrency_loop. cbn [app]. fold tables.
  destruct tables; reflexivity.
Qed.

Lemma benchmark_outcome names :
  listdir fs (input_dir self) = Ok names ->
  Forall (fun f => is_ok (Benchmark.load_file to_datetime self fs f) = true)
         (filter (benchmark_file pattern) names) ->
  returned (Benchmark.load_benchmark_results to_datetime self fs pattern) =
  result_of "No benchmark results found"
    (loaded (Benchmark.load_file to_datetime self fs)
            (filter (benchmark_file pattern) names)).
Proof.
  intros Hdir Hall. unfold Benchmark.load_benchmark_results.
  rewrite Hdir. cbn [bind]. rewrite benchmark_loop by assumption.
  cbn [app].
  destruct (loaded (Benchmark.load_file to_datetime self fs)
                   (filter (benchmark_file pattern) names)); reflexivity.
Qed.

End Loaders.

(** ** Sample directories *)

(** A file system with one directory [dir] holding [files], each a name
    and the text of the file. *)
Definition directory (dir : string) (files : list (string * string))
  : filesystem :=
  {| listdir := fun d =>
       if String.eqb d dir then Ok (map fst files) else Raise OSError;
     read := fun p =>
       match find (fun f => String.eqb p (path_join dir (fst f))) files with
       | Some f => Ok (snd f)
       | None => Raise OSError
       end |}.

Definition fresh_analyzer : analyzer :=
  {| input_dir := "results"; output_dir := "analysis"; results := None |}.

(** A result file that is empty, and a transcript in which no test
    printed statistics. *)
Definition empty_results : filesystem :=
  directory "results" [("load_c16_r100_d30s_20240101.json", "")].

Definition quiet_transcript : filesystem :=
  directory "results"
    [("hitratio_20240101.txt",
      ("=== RUN   TestBasic" ++ HitRatioFacts.newline ++
       "--- PASS: TestBasic (0.00s)" ++ HitRatioFacts.newline ++ "PASS")%string)].

(** Three transcripts: one with a block, one whose block has a duration
    that is not a number, and one whose name carries no date. *)
Definition three_transcripts : filesystem :=
  directory "results"
    [("hitratio_20240101.txt",
      HitRatioFacts.test_run "TestZipfLow_LRU_Size5000" "1000" "123.4ms");
     ("hitratio_20240102.log",
      HitRatioFacts.test_run "TestUniform_FIFO_Size100" "1000" "1.2.3ms");
     ("README.md", "notes");
     ("latest.txt",
      HitRatioFacts.test_run "TestUniform_FIFO_Size100" "1000" "2s")].

(** C3, as the claim states it, at a directory whose only result file is
    empty and at a directory whose only transcript holds no statistics
    block: no record is read, and the loaders return an empty table
    without raising. *)
Lemma no_records_and_no_error :
  returned (Concurrency.load_concurrency_results
              ConcurrencyFacts.sample_loads ConcurrencyFacts.sample_to_datetime
              fresh_analyzer empty_results None) = Ok [] /\
  returned (HitRatio.load_test_results ConcurrencyFacts.sample_to_datetime
              fresh_analyzer quiet_transcript None) = Ok [].
Proof. split; vm_compute; reflexivity. Qed.

(** C3.  [load_test_results] and [load_concurrency_results] raise their
    error if and only if no file of the directory loads, that is, when for
    every file they take up the [try] block raises; a file that loads
    counts even when it holds no record.  Otherwise they return the rows
    of the files that load, in order; every file whose [try] block raises
    is printed and passed over.  [load_benchmark_results], as long as
    every file it takes up loads, raises its error if and only if it takes
    up no file and otherwise returns the rows of all of them. *)
Theorem load_raises_iff_no_file_loads :
  forall (to_datetime : string -> result pyval)
         (json_loads : string -> result pyval)
         (self : analyzer) (fs : filesystem) (pattern : file_filter)
         (names : list string),
    listdir fs (input_dir self) = Ok names ->
    let hitratio_files := filter (hitratio_file pattern) names in
    let hitratio_load := HitRatio.load_file to_datetime self fs in
    let hitratio := HitRatio.load_test_results to_datetime self fs pattern in
    let concurrency_files := filter (concurrency_file pattern) names in
    let concurrency_load :=
      Concurrency.load_file json_loads to_datetime self fs in
    let concurrency :=
      Concurrency.load_concurrency_results json_loads to_datetime self fs
        pattern in
    let benchmark_files := filter (benchmark_file pattern) names in
    let benchmark_load := Benchmark.load_file to_datetime self fs in
    let benchmark :=
      Benchmark.load_benchmark_results to_datetime self fs pattern in
    (returned hitratio =
       result_of "No hit ratio test results found"
         (loaded hitratio_load hitratio_files) /\
     printed hitratio = failed hitratio_load hitratio_files /\
     (is_ok (returned hitratio) = false <->
      Forall (fun f => is_ok (hitratio_load f) = false) hitratio_files)) /\
    (returned concurrency =
       result_of "No concurrency test results found"
         (loaded concurrency_load concurrency_files) /\
     printed concurrency = failed concurrency_load concurrency_files /\
     (is_ok (returned concurrency) = false <->
      Forall (fun f => is_ok (concurrency_load f) = false) concurrency_files)) /\
    (Forall (fun f => is_ok (benchmark_load f) = true) benchmark_files ->
     returned benchmark =
       result_of "No benchmark results found"
         (loaded benchmark_load benchmark_files) /\
     (is_ok (returned benchmark) = false <-> benchmark_files = [])).
Proof.
  intros to_datetime json_loads self fs pattern names Hdir.
  assert (Hnone : forall load files,
            is_ok (result_of "" (loaded load files)) = false <->
            Forall (fun f => is_ok (load f) = false) files).
  { intros load files. induction files as [|f files IH]; cbn [loaded flat_map].
    - split; [constructor|reflexivity].
    - destruct (load f) as [df|e] eqn:E; cbn [app].
      + split; [discriminate|]. intros H. inversion H; subst.
        rewrite E in *. discriminate.
      + rewrite IH. split; intros H; [constructor|inversion H]; auto.
        rewrite E. reflexivity. }
  assert (Hmsg : forall m tables,
            is_ok (result_of m tables) = is_ok (result_of "" tables)).
  { intros m [|t tables]; reflexivity. }
  cbv zeta. split; [|split].
  - rewrite (hitratio_outcome to_datetime self fs pattern names Hdir).
    cbn [returned printed]. repeat split; try rewrite Hmsg; apply Hnone.
  - rewrite (concurrency_outcome to_datetime json_loads self fs pattern names
               Hdir).
    cbn [returned printed]. repeat split; try rewrite Hmsg; apply Hnone.
  - intros Hall.
    rewrite (benchmark_outcome to_datetime self fs pattern names Hdir Hall).
    split; [reflexivity|].
    destruct (filter (benchmark_file pattern) names) as [|f files].
    + split; reflexivity.
    + inversion Hall as [|? ? Hf _]; subst. cbn [loaded flat_map].
      destruct (Benchmark.load_file to_datetime self fs f); [|discriminate].
      split; discriminate.
Qed.

Lemma load_raises_iff_no_file_loads_witness :
  (exists row,
     returned (HitRatio.load_test_results ConcurrencyFacts.sample_to_datetime
                 fresh_analyzer three_transcripts None) = Ok [row]) /\
  map fst (printed (HitRatio.load_test_results
                      ConcurrencyFacts.sample_to_datetime
                      fresh_analyzer three_transcripts None)) =
  ["hitratio_20240102.log"; "latest.txt"].
Proof.
  destruct (load_raises_iff_no_file_loads
              ConcurrencyFacts.sample_to_datetime ConcurrencyFacts.sample_loads
              fresh_analyzer three_transcripts None _ eq_refl)
    as ((Hreturned & Hprinted & _) & _ & _).
  split.
  - rewrite Hreturned. eexists. vm_compute. reflexivity.
  - rewrite Hprinted. vm_compute. reflexivity.
Defined.

(** ** What a loader stores *)

Section Stores.

Variable to_datetime : string -> result pyval.
Variable fs : filesystem.
Variable pattern : file_filter.

(** What a loader does to the analyzer: nothing when it raises, and
    otherwise [self.results] is the table it returns. *)
Definition stores_result (self : analyzer) (o : outcome) : Prop :=
  after o = match returned o with
            | Ok df => set_results self df
            | Raise _ => self
            end.

Lemma benchmark_stores self :
  stores_result self
    (Benchmark.load_benchmark_results to_datetime self fs pattern).
Proof.
  unfold stores_result, Benchmark.load_benchmark_results.
  destruct (bind (listdir fs (input_dir self)) _) as [[|t tables]|e];
    reflexivity.
Qed.

Lemma hitratio_stores self :
  stores_result self (HitRatio.load_test_results to_datetime self fs pattern).
Proof.
  unfold stores_result, HitRatio.load_test_results.
  destruct (listdir fs (input_dir self)) as [names|e]; [|reflexivity].
  destruct (HitRatio.load_loop _ _ _ _ _ _ _) as [[|t tables] out];
    reflexivity.
Qed.

End Stores.

End LoadFacts.

(* ===================================================================== *)
(** * The profile table parser                                            *)
(* ===================================================================== *)

Module PprofFacts.
Import Py PyFacts Pprof.

Definition newline : string := String "010" EmptyString.

(** ** The table as the specification describes it *)

(** The lines that follow the header line, if there is one. *)
Fixpoint after_header (lines : list string) : option (list string) :=
  match lines with
  | [] => None
  | line :: rest => if is_header line then Some rest else after_header rest
  end.

Definition data_lines (stdout : string) : list string :=
  match after_header (split newline (strip stdout)) with
  | Some rows => rows
  | None => []
  end.

(** A row has at least five whitespace-separated tokens. *)
Definition enough_tokens (line : string) : bool :=
  (5 <=? List.length (words line))%nat.

(** The record of a row: the four fixed columns, then every further token
    joined by a space as the function symbol. *)
Definition row_of (line : string) : result dict :=
  match words line with
  | flat_pct :: flat_val :: cum_pct :: cum_val :: symbol =>
      (flat <- py_float (remove_all "%" flat_pct) ;;
       cum <- py_float (remove_all "%" cum_pct) ;;
       Ok [("flat_pct", PFloat flat);
           ("flat_val", PStr flat_val);
           ("cum_pct", PFloat cum);
           ("cum_val", PStr cum_val);
           ("function", PStr (join " " symbol))])%py
  | _ => Raise (ValueError "too few columns")
  end.

(** ** Whitespace at the ends of a line does not change its tokens *)

Lemma words_go_spaces s : forall cur,
  forall_chars is_space s = true ->
  words_go cur s = match cur with EmptyString => [] | _ => [cur] end.
Proof.
  induction s as [|c s IH]; intros cur H; cbn [words_go]; [reflexivity|].
  cbn [forall_chars] in H. apply andb_true_iff in H as [Hc Hs].
  rewrite Hc. destruct cur; rewrite IH by assumption; reflexivity.
Qed.

Lemma rstrip_empty s : rstrip s = EmptyString -> forall_chars is_space s = true.
Proof.
  induction s as [|c s IH]; cbn [rstrip forall_chars]; [reflexivity|].
  destruct (rstrip s) eqn:E; [|discriminate].
  destruct (is_space c); [|discriminate]. intros _. apply IH. reflexivity.
Qed.

Lemma append_not_empty cur c : (cur ++ String c EmptyString)%string <> EmptyString.
Proof. destruct cur; discriminate. Qed.

Lemma words_go_rstrip s : forall cur, words_go cur (rstrip s) = words_go cur s.
Proof.
  induction s as [|c s IH]; intros cur; [reflexivity|].
  cbn [rstrip]. destruct (rstrip s) as [|c' t] eqn:E.
  - pose proof (rstrip_empty s E) as Hs.
    destruct (is_space c) eqn:Hc; cbn [words_go]; rewrite Hc.
    + destruct cur; rewrite words_go_spaces by assumption; reflexivity.
    + rewrite (words_go_spaces s) by assumption.
      destruct (cur ++ String c EmptyString)%string eqn:Ecur;
        [exfalso; eapply append_not_empty; eassumption|reflexivity].
  - cbn [words_go]. rewrite <- !IH. reflexivity.
Qed.

Lemma words_lstrip s : words (lstrip s) = words s.
Proof.
  unfold words. induction s as [|c s IH]; [reflexivity|].
  cbn [lstrip words_go]. destruct (is_space c) eqn:Hc; [exact IH|].
  cbn [words_go]. rewrite Hc. reflexivity.
Qed.

Lemma words_strip s : words (strip s) = words s.
Proof.
  unfold strip. unfold words at 1. rewrite words_go_rstrip.
  apply words_lstrip.
Qed.

(** ** The loops of the code against the description *)

Lemma parse_rows_spec rows :
  parse_rows rows = for_each row_of (filter enough_tokens rows).
Proof.
  induction rows as [|line rows IH]; cbn [parse_rows filter]; [reflexivity|].
  pose proof (words_strip line) as Hw. unfold enough_tokens at 1.
  destruct (truthy (strip line)) eqn:Et; cbn [negb].
  - rewrite Hw.
    destruct (words line) as [|a [|b [|c [|d [|e parts]]]]] eqn:Ew;
      cbn [List.length Nat.ltb Nat.leb]; try exact IH.
    cbn [for_each nth skipn]. unfold row_of at 1. rewrite Ew, IH.
    destruct (py_float (remove_all "%" a)); cbn [bind]; [|reflexivity].
    destruct (py_float (remove_all "%" c)); cbn [bind]; reflexivity.
  - rewrite <- Hw. destruct (strip line); [|discriminate]. exact IH.
Qed.

Lemma find_header_spec lines : forall i,
  match find_header i lines with
  | Some j =>
      (i <= j)%nat /\ (j - i < List.length lines)%nat /\
      after_header lines = Some (skipn (S (j - i)) lines)
  | None => after_header lines = None
  end.
Proof.
  induction lines as [|line lines IH]; intros i;
    cbn [find_header after_header]; [reflexivity|].
  destruct (is_header line).
  - rewrite Nat.sub_diag. cbn. repeat split; lia.
  - specialize (IH (S i)). destruct (find_header (S i) lines) as [j|];
      [|assumption].
    destruct IH as (Hle & Hlt & Hafter). repeat split; [lia|cbn; lia|].
    rewrite Hafter. replace (j - i)%nat with (S (j - S i)) by lia.
    reflexivity.
Qed.

Lemma parse_top_spec stdout :
  parse_top stdout = for_each row_of (filter enough_tokens (data_lines stdout)).
Proof.
  unfold parse_top, data_lines.
  pose proof (find_header_spec (split newline (strip stdout)) O) as H.
  fold newline.
  destruct (find_header O (split newline (strip stdout))) as [j|].
  - destruct H as (_ & Hlt & ->). rewrite Nat.sub_0_r in *.
    rewrite Nat.add_1_r.
    destruct (List.length (split newline (strip stdout)) <=? S j)%nat eqn:E.
    + apply Nat.leb_le in E.
      rewrite skipn_all2 by assumption. reflexivity.
    + apply parse_rows_spec.
  - rewrite H. reflexivity.
Qed.

(** The output of [go tool pprof -top] with the columns in the order the
    parser reads them; the second row is short, the third names a
    function whose symbol has blanks in it. *)
Definition top_output : string :=
  ("File: hcache.test" ++ newline ++
   "Type: cpu" ++ newline ++
   "Showing nodes accounting for 1.20s, 80% of 1.50s total" ++ newline ++
   "      flat%   flat   cum%   cum" ++ newline ++
   "     33.33%  0.50s  40.00%  0.60s  runtime.mallocgc" ++ newline ++
   "     12.5%   0.19s  total" ++ newline ++
   "     10.00%  0.15s  20.00%  0.30s  hcache.(*Cache).Get (inline)   [2 frames]"
   ++ newline)%string.

(** The same table with the columns as [go tool pprof -top] orders them
    (flat, flat%, sum%, cum, cum%): the first token of a row is then a
    duration, which [float] rejects, and the [ValueError] leaves
    [extract_top_functions], whose [except] clause is for
    [SubprocessError]. *)
Definition standard_top_output : string :=
  ("      flat  flat%   sum%        cum   cum%" ++ newline ++
   "     0.50s 33.33% 33.33%      0.60s 40.00%  runtime.mallocgc" ++ newline)%string.

(** ** The values that the tool prints *)

Definition is_alpha (c : ascii) : bool := is_upper c || is_lower c.

(** A non-empty string of digits. *)
Definition digits (d : string) : Prop :=
  d <> EmptyString /\ forall_chars is_digit d = true.

(** A value of the [flat] and [cum] columns of the tool: a decimal number
    followed by its unit ([0.50s], [190ms], [512.01kB]); no unit starts
    with [e] or [E]. *)
Record with_unit (token : string) : Prop := {
  unit_parts :
    exists i t c u,
      token = (i ++ t ++ String c u)%string /\ digits i /\
      (t = EmptyString \/ exists d, t = String "." d /\ digits d) /\
      is_alpha c = true /\ Ascii.eqb c "e" = false /\ Ascii.eqb c "E" = false /\
      forall_chars is_alpha u = true
}.

Lemma alpha_plain c :
  is_alpha c = true ->
  is_space c = false /\ is_digit c = false /\ Ascii.eqb c "_" = false /\
  Ascii.eqb "%" c = false.
Proof. by_cases_on c. Qed.

Lemma digit_not_percent c : is_digit c = true -> negb (Ascii.eqb "%" c) = true.
Proof. by_cases_on c. Qed.

Definition not_a_float : exn := ValueError "could not convert string to float".

(** What is left after the number of a value with a unit is no exponent,
    so the value is no float literal. *)
Lemma unit_is_no_exponent m k c u :
  is_alpha c = true -> Ascii.eqb c "e" = false -> Ascii.eqb c "E" = false ->
  match exponent (String c u) with
  | Some (e, EmptyString) => Some (float_of_decimal m (e - Z.of_nat k))
  | _ => None
  end = None.
Proof.
  intros _ He HE. cbn [exponent]. rewrite He, HE. reflexivity.
Qed.

(** [float] rejects a value with a unit, also after its [%] are taken
    out (it has none). *)
Lemma py_float_unit token :
  with_unit token -> py_float (remove_all "%" token) = Raise not_a_float.
Proof.
  intros [(i & t & c & u & -> & [Hne Hi] & Ht & Hc & He & HE & Hu)].
  destruct (alpha_plain c Hc) as (Hsp & Hdig & Hund & Hpct).
  assert (Hstops : stops (String c u)) by (split; assumption).
  assert (Hiu : forall_chars (fun x => negb (Ascii.eqb "%" x)) (String c u)
                = true).
  { cbn [forall_chars]. rewrite Hpct. cbn [negb andb].
    revert Hu. apply forall_chars_impl. intros x Hx.
    destruct (alpha_plain x Hx) as (_ & _ & _ & ->). reflexivity. }
  assert (Hpercent : forall_chars (fun x => negb (Ascii.eqb "%" x))
                       (i ++ t ++ String c u) = true).
  { rewrite !forall_chars_app, Hiu.
    rewrite (forall_chars_impl _ _ i digit_not_percent Hi).
    destruct Ht as [->|(d & -> & _ & Hd)]; [reflexivity|].
    cbn [forall_chars].
    rewrite (forall_chars_impl _ _ d digit_not_percent Hd). reflexivity. }
  pose proof (HitRatioFacts.remove_skip "%" EmptyString _ EmptyString Hpercent)
    as Hremove.
  rewrite !append_nil_r in Hremove. rewrite Hremove. clear Hremove Hpercent Hiu.
  assert (Hspace : forall_chars (fun x => negb (is_space x))
                     (i ++ t ++ String c u) = true).
  { rewrite !forall_chars_app, (digits_no_space i Hi).
    assert (Hcu : forall_chars (fun x => negb (is_space x)) (String c u)
                  = true).
    { cbn [forall_chars]. rewrite Hsp. cbn [negb andb].
      revert Hu. apply forall_chars_impl. intros x Hx.
      destruct (alpha_plain x Hx) as (-> & _). reflexivity. }
    rewrite Hcu.
    destruct Ht as [->|(d & -> & _ & Hd)]; [reflexivity|].
    cbn [forall_chars]. rewrite (digits_no_space d Hd). reflexivity. }
  unfold py_float. rewrite (strip_no_space _ Hspace).
  destruct i as [|a i]; [congruence|].
  pose proof Hi as Hi'. cbn [forall_chars] in Hi'.
  apply andb_true_iff in Hi' as [Ha _].
  change ((String a i ++ t ++ String c u)%string)
    with (String a (i ++ t ++ String c u)).
  rewrite sign_digit by assumption.
  destruct (digit_not_inf_nan a (i ++ t ++ String c u) Ha) as [E1 E2].
  cbv zeta in E1, E2. rewrite E1, E2.
  change (String a (i ++ t ++ String c u))
    with ((String a i ++ t ++ String c u)%string).
  unfold float_number.
  destruct Ht as [->|(d & -> & Hdne & Hd)].
  - change ((String a i ++ "" ++ String c u)%string)
      with ((String a i ++ String c u)%string).
    rewrite (digitpart_digits (String a i) 0 (String c u) Hne Hi Hstops).
    rewrite (unit_is_no_exponent _ 0 c u Hc He HE).
    clear - Hc. revert Hc. by_cases_on c.
  - change ((String "." d ++ String c u)%string)
      with (String "." (d ++ String c u)).
    rewrite (digitpart_digits (String a i) 0 (String "." (d ++ String c u))
               Hne Hi (dot_stops _)).
    rewrite (digitpart_digits d _ (String c u) Hdne Hd Hstops).
    rewrite (unit_is_no_exponent _ _ c u Hc He HE). reflexivity.
Qed.

(** The rows of a table in the format of the tool: the first row that has
    five tokens starts with a value with a unit. *)
Record tool_table (stdout : string) (short : list string) (row : string)
  (rest : list string) : Prop := {
  table_rows : data_lines stdout = short ++ row :: rest;
  table_short : Forall (fun line => enough_tokens line = false) short;
  table_row : enough_tokens row = true;
  table_flat : with_unit (nth 0 (words row) EmptyString)
}.

(** C8.  The profile parser does not read the table that the tool prints.
    The columns of [go tool pprof -top] are flat, flat%, sum%, cum and
    cum%: the first token of a row is a value with its unit, the parser
    gives it to [float] as [flat_pct], and the [ValueError] leaves
    [extract_top_functions] (its [except] clause is for
    [SubprocessError]): for every such table no row is returned, so
    neither the rows with five tokens nor their function symbols.  Only
    the part of the claim about a text without a header line holds: the
    result is the empty table. *)
Theorem standard_table_is_not_parsed :
  (forall stdout short row rest,
     tool_table stdout short row rest ->
     extract_top_functions (ToolOutput stdout) = Raise not_a_float) /\
  tool_table standard_top_output []
    "     0.50s 33.33% 33.33%      0.60s 40.00%  runtime.mallocgc" [] /\
  extract_top_functions (ToolOutput standard_top_output) = Raise not_a_float /\
  (forall stdout,
     after_header (split newline (strip stdout)) = None ->
     extract_top_functions (ToolOutput stdout) = Ok []).
Proof.
  assert (Hgeneral : forall stdout short row rest,
            tool_table stdout short row rest ->
            extract_top_functions (ToolOutput stdout) = Raise not_a_float).
  { intros stdout short row rest [Hrows Hshort Hrow Hflat].
    cbn [extract_top_functions]. rewrite parse_top_spec, Hrows, filter_app.
    assert (Hnone : filter enough_tokens short = []).
    { clear - Hshort. induction Hshort as [|l ls Hl _ IH]; [reflexivity|].
      cbn [filter]. rewrite Hl. exact IH. }
    rewrite Hnone. cbn [app filter]. rewrite Hrow. cbn [for_each].
    unfold row_of at 1. unfold enough_tokens in Hrow.
    destruct (words row) as [|a [|b [|c [|d symbol]]]]; try discriminate.
    cbn [nth] in Hflat. rewrite (py_float_unit a Hflat). reflexivity. }
  assert (Hstandard : tool_table standard_top_output []
            "     0.50s 33.33% 33.33%      0.60s 40.00%  runtime.mallocgc" []).
  { split; [vm_compute; reflexivity|constructor|vm_compute; reflexivity|].
    split. exists "0", ".50", "s"%char, EmptyString.
    split; [vm_compute; reflexivity|]. split; [split; [discriminate|reflexivity]|].
    split; [right; exists "50"; split; [reflexivity|split; [discriminate|reflexivity]]|].
    repeat split; reflexivity. }
  split; [exact Hgeneral|]. split; [exact Hstandard|].
  split; [exact (Hgeneral _ _ _ _ Hstandard)|].
  intros stdout Hnone. cbn [extract_top_functions]. rewrite parse_top_spec.
  unfold data_lines. rewrite Hnone. reflexivity.
Qed.

End PprofFacts.

(* ===================================================================== *)
(** * The test parameters and the records of a load test                  *)
(* ===================================================================== *)

Module ConcurrencyRecords.
Import Py PyFacts ReFacts Concurrency.

(** A non-empty string of digits. *)
Definition digits (d : string) : Prop :=
  d <> EmptyString /\ forall_chars is_digit d = true.

(** A number: an [int] or a [float]. *)
Definition is_number (v : pyval) : Prop :=
  (exists z, v = PInt z) \/ (exists f, v = PFloat f).

Definition is_float (v : pyval) : Prop := exists f, v = PFloat f.

Lemma search_digits_after (l : string) s g :
  Re.search (fun t => Re.seq (Re.lit l) (fun _ => Re.plus is_digit) t) s = Some g ->
  digits g.
Proof.
  intros H. apply search_In in H as (pre & t & r & _ & H).
  unfold_match. split; assumption.
Qed.

Lemma smh_unit u :
  String.length u = 1%nat -> forall_chars is_smh u = true ->
  u = "s" \/ u = "m" \/ u = "h".
Proof.
  destruct u as [|c [|c' u]]; try discriminate. intros _ H.
  cbn [forall_chars] in H. rewrite andb_true_r in H. unfold is_smh in H.
  apply orb_true_iff in H as [H|H]; [apply orb_true_iff in H as [H|H]|];
    apply Ascii.eqb_eq in H; subst; auto.
Qed.

Lemma search_duration s g u :
  Re.search duration_pattern s = Some (g, u) ->
  digits g /\ (u = "s" \/ u = "m" \/ u = "h").
Proof.
  intros H. apply search_In in H as (pre & t & r & _ & H).
  unfold duration_pattern, Re.one in H. unfold_match.
  match goal with H : (_, _) = (_, _) |- _ => inversion H; subst end.
  split; [split; assumption|]. apply smh_unit; assumption.
Qed.

Lemma search_cache s g :
  Re.search cache_pattern s = Some g ->
  g <> EmptyString /\ forall_chars is_word g = true.
Proof.
  intros H. apply search_In in H as (pre & t & r & _ & H).
  unfold cache_pattern in H. unfold_match. split; assumption.
Qed.

Lemma search_date s g :
  Re.search date_pattern s = Some g ->
  String.length g = 8%nat /\ forall_chars is_digit g = true.
Proof.
  intros H. apply search_In in H as (pre & t & r & _ & H).
  unfold date_pattern in H. unfold_match. split; assumption.
Qed.

(** The value of the [target_duration] read from the file name. *)
Definition seconds (value : Z) (unit : string) : Z :=
  if String.eqb unit "s" then value
  else if String.eqb unit "m" then (value * 60)%Z
  else (value * 3600)%Z.

(** [int] on the digits of a token of the file name. *)
Definition int_of (g : string) : result Z :=
  if fits g then Ok (digits_value 0 g) else Raise over_limit.

(** The parameters, entry by entry, in terms of what the patterns find in
    the base name and of the two fields read from the payload. *)
Lemma extract_test_params_spec filename data :
  let name := basename filename in
  extract_test_params filename data =
  (concurrency <-
     match Re.search concurrency_pattern name with
     | Some g => int_of g
     | None => Ok 1%Z
     end ;;
   target_rate <-
     match Re.search rate_pattern name with
     | Some g => (n <- int_of g ;; Ok (PInt n))
     | None => py_get data "rate" (PInt 0)
     end ;;
   target_duration <-
     match Re.search duration_pattern name with
     | Some (g, unit) => (n <- int_of g ;; Ok (PInt (seconds n unit)))
     | None =>
         d <- py_get data "duration" (PInt 0) ;; py_div_const d 1000000000
     end ;;
   Ok [("concurrency", PInt concurrency);
       ("target_rate", target_rate);
       ("target_duration", target_duration);
       ("cache_config",
        PStr match Re.search cache_pattern name with
             | Some g => g
             | None => "default"
             end);
       ("test_date",
        PStr match Re.search date_pattern name with
             | Some g => g
             | None => "00000000"
             end)])%py.
Proof.
  cbv zeta. unfold extract_test_params, int_of.
  destruct (Re.search cache_pattern (basename filename));
  destruct (Re.search date_pattern (basename filename));
  (destruct (Re.search concurrency_pattern (basename filename)) as [c|] eqn:Ec;
    [destruct (search_digits_after "c" _ _ Ec) as [Hne Hd];
     rewrite (py_int_fits c Hne Hd); destruct (fits c); [|reflexivity]|]);
    cbn [bind];
    (destruct (Re.search rate_pattern (basename filename)) as [r|] eqn:Er;
     [destruct (search_digits_after "r" _ _ Er) as [Hrne Hrd];
      rewrite (py_int_fits r Hrne Hrd); destruct (fits r); [|reflexivity]
     |destruct (py_get data "rate" (PInt 0)) as [rate|]];
     cbn [bind]; try reflexivity);
    (destruct (Re.search duration_pattern (basename filename))
       as [[g u]|] eqn:Ed;
     [destruct (search_duration _ _ _ Ed) as ([Hgne Hgd] & Hu);
      rewrite (py_int_fits g Hgne Hgd); destruct (fits g); [|reflexivity];
      destruct Hu as [-> | [-> | ->]]
     |destruct (py_get data "duration" (PInt 0)) as [d|]; cbn [bind];
      [destruct (py_div_const d 1000000000)|]];
     reflexivity).
Qed.

(** The digits of the tokens of a base name within the limit fit. *)
Lemma token_fits (l : string) s g :
  within_limit s ->
  Re.search (fun t => Re.seq (Re.lit l) (fun _ => Re.plus is_digit) t) s = Some g ->
  fits g = true.
Proof.
  intros Hlim H. apply search_In in H as (pre & t & r & -> & H).
  unfold_match. subst. rewrite <- append_assoc in Hlim.
  apply (piece_fits _ _ _ Hlim).
Qed.

Lemma duration_fits s g u :
  within_limit s -> Re.search duration_pattern s = Some (g, u) ->
  fits g = true.
Proof.
  intros Hlim H. apply search_In in H as (pre & t & r & -> & H).
  unfold duration_pattern, Re.one in H. unfold_match.
  match goal with H : (_, _) = (_, _) |- _ => inversion H; subst end.
  rewrite <- append_assoc in Hlim. apply (piece_fits _ _ _ Hlim).
Qed.

Lemma seconds_nonneg value unit : (0 <= value)%Z -> (0 <= seconds value unit)%Z.
Proof.
  unfold seconds. intros H.
  destruct (String.eqb unit "s"); [assumption|].
  destruct (String.eqb unit "m"); lia.
Qed.

Lemma py_div_const_float a d v : py_div_const a d = Ok v -> is_float v.
Proof.
  unfold py_div_const. intros H.
  destruct (as_num a) as [x|]; [|discriminate]. cbn [bind] in H.
  destruct (to_float x) as [p|]; [|discriminate]. cbn [bind] in H.
  inversion H. eexists. reflexivity.
Qed.

Lemma latency_float item key v : latency item key = Ok v -> is_float v.
Proof.
  unfold latency. intros H.
  destruct (py_get item "latencies" (PDict [])) as [l|]; [|discriminate].
  cbn [bind] in H.
  destruct (py_get l key (PInt 0)) as [x|]; [|discriminate].
  cbn [bind] in H. eapply py_div_const_float; eassumption.
Qed.

Lemma arith_number fz ff a b v : arith fz ff a b = Ok v -> is_number v.
Proof.
  unfold arith. intros H.
  destruct (as_num a) as [x|]; [|discriminate]. cbn [bind] in H.
  destruct (as_num b) as [y|]; [|discriminate]. cbn [bind] in H.
  destruct x as [p|p], y as [q|q];
    try (inversion H; left; eexists; reflexivity);
    (destruct (to_float _) in H; [|discriminate]; cbn [bind] in H;
     destruct (to_float _) in H; [|discriminate]; cbn [bind] in H;
     inversion H; right; eexists; reflexivity).
Qed.

Lemma test_params_shape filename data params :
  extract_test_params filename data = Ok params ->
  exists concurrency target_rate target_duration cache_config test_date,
    params = [("concurrency", PInt concurrency);
              ("target_rate", target_rate);
              ("target_duration", target_duration);
              ("cache_config", PStr cache_config);
              ("test_date", PStr test_date)].
Proof.
  intros H. rewrite extract_test_params_spec in H. cbv zeta in H.
  do 3 (match type of H with
        | bind ?e _ = _ => destruct e; [|discriminate]
        end; cbn [bind] in H).
  inversion H. eexists _, _, _, _, _. reflexivity.
Qed.

(** The columns of a record, in order. *)
Definition parameter_columns : list string :=
  ["concurrency"; "target_rate"; "target_duration"; "cache_config";
   "test_date"].

Definition metric_columns : list string :=
  ["latency_mean"; "latency_p50"; "latency_p90"; "latency_p95";
   "latency_p99"; "latency_max"; "throughput"; "success_rate"; "requests";
   "duration"; "errors"; "rate"].

Definition sample_path : string := "results/load_c16_r100_d2m_cache-lru.json".

(** X1.  Whenever [extract_test_params] returns, the parameters are
    exactly the five entries concurrency, target_rate, target_duration,
    cache_config and test_date, in this order: concurrency is an integer
    that is not negative, target_duration is a number, cache_config is a
    non-empty word and test_date is a string of eight digits (the date of
    the file name or 00000000).  target_rate alone is unconstrained: read
    from the payload, it is whatever the payload holds. *)
Theorem test_params_are_complete :
  forall filename data params,
    extract_test_params filename data = Ok params ->
    exists concurrency target_rate target_duration cache_config test_date,
      params = [("concurrency", PInt concurrency);
                ("target_rate", target_rate);
                ("target_duration", target_duration);
                ("cache_config", PStr cache_config);
                ("test_date", PStr test_date)] /\
      (0 <= concurrency)%Z /\
      is_number target_duration /\
      cache_config <> EmptyString /\
      forall_chars is_word cache_config = true /\
      String.length test_date = 8%nat /\
      forall_chars is_digit test_date = true.
Proof.
  intros filename data params H.
  rewrite extract_test_params_spec in H. cbv zeta in H.
  match type of H with
  | bind ?e _ = _ => destruct e as [concurrency|] eqn:Ec; [|discriminate]
  end. cbn [bind] in H.
  match type of H with
  | bind ?e _ = _ => destruct e as [target_rate|] eqn:Er; [|discriminate]
  end. cbn [bind] in H.
  match type of H with
  | bind ?e _ = _ => destruct e as [target_duration|] eqn:Ed; [|discriminate]
  end. cbn [bind] in H. inversion H; subst params; clear H.
  eexists _, _, _, _, _. split; [reflexivity|].
  split; [|split; [|split; [|split; [|split]]]].
  - destruct (Re.search concurrency_pattern (basename filename)) as [c|] eqn:E;
      [|inversion Ec; lia].
    destruct (search_digits_after "c" _ _ E) as [Hne Hd].
    unfold int_of in Ec. destruct (fits c); [|discriminate]. inversion Ec.
    apply digits_value_nonneg; [assumption|lia].
  - destruct (Re.search duration_pattern (basename filename)) as [[g u]|].
    + unfold int_of in Ed. destruct (fits g); [|discriminate].
      inversion Ed. left. eexists. reflexivity.
    + destruct (py_get data "duration" (PInt 0)) as [d|]; [|discriminate].
      cbn [bind] in Ed. right. eapply py_div_const_float; eassumption.
  - destruct (Re.search cache_pattern (basename filename)) as [g|] eqn:E;
      [|discriminate].
    apply (search_cache _ _ E).
  - destruct (Re.search cache_pattern (basename filename)) as [g|] eqn:E;
      [|reflexivity].
    apply (search_cache _ _ E).
  - destruct (Re.search date_pattern (basename filename)) as [g|] eqn:E;
      [|reflexivity].
    apply (search_date _ _ E).
  - destruct (Re.search date_pattern (basename filename)) as [g|] eqn:E;
      [|reflexivity].
    apply (search_date _ _ E).
Qed.

Lemma test_params_are_complete_witness :
  exists concurrency target_rate target_duration cache_config test_date,
    [("concurrency", PInt 1); ("target_rate", PStr "fast");
     ("target_duration", PFloat 2.5); ("cache_config", PStr "default");
     ("test_date", PStr "00000000")] =
    [("concurrency", PInt concurrency);
     ("target_rate", target_rate);
     ("target_duration", target_duration);
     ("cache_config", PStr cache_config);
     ("test_date", PStr test_date)] /\
    (0 <= concurrency)%Z /\
    is_number target_duration /\
    cache_config <> EmptyString /\
    forall_chars is_word cache_config = true /\
    String.length test_date = 8%nat /\
    forall_chars is_digit test_date = true.
Proof.
  apply (test_params_are_complete "out.json"
           (PDict [("rate", PStr "fast"); ("duration", PInt 2500000000)])).
  vm_compute. reflexivity.
Defined.

(** X2.  The file name overrides the payload: when the base name holds a
    rate token [r<digits>] and a duration token [d<digits>] followed by s,
    m or h, [extract_test_params] never reads the payload, so it returns
    the same for every payload, even one that is not an object.  When the
    base name has at most 4300 characters, so that [int] takes its
    tokens, it does not raise; the rate is the number of the token and the
    duration is its number in seconds (times 60 for m, times 3600 for
    h). *)
Theorem file_name_overrides_payload :
  forall filename rate value unit,
    Re.search rate_pattern (basename filename) = Some rate ->
    Re.search duration_pattern (basename filename) = Some (value, unit) ->
    (forall data,
       extract_test_params filename data = extract_test_params filename PNone) /\
    (unit = "s" \/ unit = "m" \/ unit = "h") /\
    (within_limit (basename filename) ->
     exists params,
       extract_test_params filename PNone = Ok params /\
       dict_get "target_rate" params = Some (PInt (digits_value 0 rate)) /\
       dict_get "target_duration" params =
         Some (PInt (seconds (digits_value 0 value) unit))).
Proof.
  intros filename rate value unit Hr Hd.
  split; [|split; [apply (search_duration _ _ _ Hd)|]].
  - intros data. rewrite !extract_test_params_spec. cbv zeta.
    rewrite Hr, Hd. reflexivity.
  - intros Hlim. rewrite extract_test_params_spec. cbv zeta. rewrite Hr, Hd.
    unfold int_of.
    rewrite (token_fits "r" _ _ Hlim Hr), (duration_fits _ _ _ Hlim Hd).
    destruct (Re.search concurrency_pattern (basename filename)) as [c|] eqn:Ec;
      [rewrite (token_fits "c" _ _ Hlim Ec)|];
      cbn [bind]; eexists; repeat split.
Qed.

Lemma file_name_overrides_payload_witness :
  exists params,
    extract_test_params sample_path (PDict [("rate", PInt 7)]) = Ok params /\
    extract_test_params sample_path PNone = Ok params /\
    dict_get "target_rate" params = Some (PInt 100) /\
    dict_get "target_duration" params = Some (PInt 120).
Proof.
  destruct (file_name_overrides_payload sample_path "100" "2" "m"
              eq_refl eq_refl) as (Hsame & _ & Hparams).
  destruct (Hparams ltac:(vm_compute; discriminate))
    as (params & H1 & H2 & H3).
  exists params. rewrite Hsame. repeat split; assumption.
Defined.

(** A value that is not an object gives no record: [item.get] raises
    [AttributeError], unless [int] has raised on a token of the file name
    before. *)
Lemma record_of_not_dict filename item :
  is_dict item = false ->
  exists e,
    record_of filename item = Raise e /\
    (e = AttributeError \/ e = over_limit) /\
    (within_limit (basename filename) -> e = AttributeError).
Proof.
  intros Hitem. unfold record_of. rewrite extract_test_params_spec. cbv zeta.
  rewrite !(py_get_not_dict item) by assumption. unfold int_of.
  destruct (Re.search concurrency_pattern (basename filename)) as [c|] eqn:Ec;
    [destruct (fits c) eqn:Fc|]; cbn [bind];
    try (destruct (Re.search rate_pattern (basename filename)) as [r|] eqn:Er;
         [destruct (fits r) eqn:Fr|]; cbn [bind]);
    try (destruct (Re.search duration_pattern (basename filename))
           as [[g u]|] eqn:Ed;
         [destruct (fits g) eqn:Fg|]; cbn [bind]);
    unfold metrics_of, latency;
    rewrite ?(py_get_not_dict item) by assumption; cbn [bind];
    eexists; (split; [reflexivity|]); (split; [auto|]);
    intros Hlim; try reflexivity; exfalso;
    try (rewrite (token_fits "c" _ _ Hlim Ec) in Fc; discriminate);
    try (rewrite (token_fits "r" _ _ Hlim Er) in Fr; discriminate);
    rewrite (duration_fits _ _ _ Hlim Ed) in Fg; discriminate.
Qed.

(** X3.  A result that is not an object cannot become a record: for every
    file name the record raises an exception [e], either while the
    parameters are read or, when the file name supplies them, at the
    first metric.  A document that decodes to a number, a string, a
    boolean or null, and an array whose first element is not an object,
    make [parse_vegeta_results] raise the same [e].  It is the
    [AttributeError] of [item.get] when the base name has at most 4300
    characters; otherwise it can also be the [ValueError] of [int] on a
    token of the file name. *)
Theorem non_object_raises_attribute_error :
  forall filename item,
    is_dict item = false ->
    exists e,
      record_of filename item = Raise e /\
      (e = AttributeError \/ e = over_limit) /\
      (within_limit (basename filename) -> e = AttributeError) /\
      (forall json_loads content,
         json_loads content = Ok item -> is_list item = false ->
         parse_content json_loads filename content = Raise e) /\
      (forall json_loads content rest,
         json_loads content = Ok (PList (item :: rest)) ->
         parse_content json_loads filename content = Raise e).
Proof.
  intros filename item Hitem.
  destruct (record_of_not_dict filename item Hitem)
    as (e & Hrecord & Hcases & Hlim).
  exists e. split; [exact Hrecord|]. split; [exact Hcases|].
  split; [exact Hlim|]. split.
  - intros json_loads content Hdoc Hlist. unfold parse_content, load_data.
    rewrite Hdoc. destruct item; try discriminate; cbn [bind for_each];
      rewrite Hrecord; reflexivity.
  - intros json_loads content rest Hdoc. unfold parse_content, load_data.
    rewrite Hdoc. cbn [bind for_each]. rewrite Hrecord. reflexivity.
Qed.

Lemma non_object_raises_attribute_error_witness :
  record_of sample_path (PInt 5) = Raise AttributeError /\
  record_of "out.json" (PStr "text") = Raise AttributeError /\
  parse_content ConcurrencyFacts.sample_loads "out.json" "null" =
    Raise AttributeError.
Proof.
  destruct (non_object_raises_attribute_error sample_path (PInt 5) eq_refl)
    as (e1 & H1 & _ & L1 & _).
  destruct (non_object_raises_attribute_error "out.json" (PStr "text") eq_refl)
    as (e2 & H2 & _ & L2 & _).
  destruct (non_object_raises_attribute_error "out.json" PNone eq_refl)
    as (e3 & _ & _ & L3 & H3 & _).
  split; [|split].
  - rewrite H1, (L1 ltac:(vm_compute; discriminate)). reflexivity.
  - rewrite H2, (L2 ltac:(vm_compute; discriminate)). reflexivity.
  - rewrite (H3 ConcurrencyFacts.sample_loads "null" eq_refl eq_refl),
      (L3 ltac:(vm_compute; discriminate)). reflexivity.
Defined.

(** X4.  Every record of [parse_vegeta_results] has the same seventeen
    columns: the five test parameters, exactly as [extract_test_params]
    returned them (no metric overwrites one), followed by the twelve
    metrics; the six latencies and the duration are floats and the success
    rate is a number.  There is one record per result object. *)
Theorem records_have_seventeen_columns :
  forall json_loads filename content df,
    parse_content json_loads filename content = Ok df ->
    exists data,
      load_data json_loads content = Ok data /\
      List.length df = List.length data /\
      Forall2
        (fun item row =>
           map fst row = parameter_columns ++ metric_columns /\
           extract_test_params filename item = Ok (firstn 5 row) /\
           (forall key,
              In key ["latency_mean"; "latency_p50"; "latency_p90";
                      "latency_p95"; "latency_p99"; "latency_max"; "duration"] ->
              exists f, dict_get key row = Some (PFloat f)) /\
           (exists rate, dict_get "success_rate" row = Some rate /\
                         is_number rate))
        data df.
Proof.
  intros json_loads filename content df H. unfold parse_content in H.
  destruct (load_data json_loads content) as [data|]; [|discriminate].
  cbn [bind] in H. exists data. split; [reflexivity|].
  apply for_each_ok in H. split; [symmetry; eapply Forall2_length; eassumption|].
  induction H as [|item row items rows Hrow _ IH]; constructor; [|exact IH].
  clear IH. unfold record_of in Hrow.
  destruct (extract_test_params filename item) as [params|] eqn:Hp;
    [|discriminate].
  destruct (test_params_shape filename item params Hp)
    as (c & r & d & cc & td & ->).
  cbn [bind] in Hrow.
  destruct (metrics_of item) as [metrics|] eqn:Hm; [|discriminate].
  cbn [bind] in Hrow. inversion Hrow; subst row; clear Hrow.
  unfold metrics_of in Hm. ConcurrencyFacts.steps Hm.
  inversion Hm; subst metrics; clear Hm.
  repeat match goal with
    | H : latency _ _ = Ok _ |- _ => apply latency_float in H; destruct H as [? ->]
    | H : py_div_const _ _ = Ok _ |- _ =>
        apply py_div_const_float in H; destruct H as [? ->]
    end.
  split; [reflexivity|]. split; [reflexivity|]. split.
  - intros key Hkey. cbn [In] in Hkey.
    repeat (destruct Hkey as [<-|Hkey]; [eexists; reflexivity|]).
    destruct Hkey.
  - eexists. split; [reflexivity|].
    match goal with
    | H : py_mul _ _ = Ok ?v |- is_number ?v =>
        exact (arith_number _ _ _ _ _ H)
    end.
Qed.

Lemma records_have_seventeen_columns_witness :
  exists df,
    parse_content ConcurrencyFacts.sample_loads ConcurrencyFacts.results_path
      ConcurrencyFacts.ndjson_one_bad = Ok df /\
    List.length df = 2%nat /\
    Forall (fun row => map fst row = parameter_columns ++ metric_columns) df.
Proof.
  eexists. split; [vm_compute; reflexivity|].
  match goal with
  | |- List.length ?df = _ /\ _ =>
      destruct (records_have_seventeen_columns
                  ConcurrencyFacts.sample_loads ConcurrencyFacts.results_path
                  ConcurrencyFacts.ndjson_one_bad df)
        as (data & Hdata & Hlen & Hrows)
  end.
  - vm_compute. reflexivity.
  - vm_compute in Hdata. inversion Hdata; subst data. split; [exact Hlen|].
    inversion Hrows as [|? ? ? ? (H1 & _) Hrest]; subst.
    inversion Hrest as [|? ? ? ? (H2 & _) _]; subst.
    repeat constructor; assumption.
Defined.

End ConcurrencyRecords.

(* ===================================================================== *)
(** * The records of a hit-ratio transcript                               *)
(* ===================================================================== *)

Module HitRatioRecords.
Import Py PyFacts ReFacts HitRatio.

Definition digits (d : string) : Prop :=
  d <> EmptyString /\ forall_chars is_digit d = true.

Definition marker : string := "测试结果:".

(** Every element of [findall] is the first match at some position. *)
Lemma findall_go_In {A : Type} (p : Re.parser A) fuel : forall s a,
  In a (Re.findall_go fuel p s) -> exists t r, In (a, r) (p t).
Proof.
  induction fuel as [|fuel IH]; intros s a H; cbn [Re.findall_go] in H;
    [destruct H|].
  assert (Hstep : In a match s with
                       | String _ s' => Re.findall_go fuel p s'
                       | EmptyString => []
                       end -> exists t r, In (a, r) (p t)).
  { destruct s; [intros []|apply IH]. }
  destruct (p s) as [|[a' r] l] eqn:E; [auto|].
  destruct H as [H|H].
  - subst. exists s, r. rewrite E. left. reflexivity.
  - destruct (String.length r <? String.length s)%nat; eauto.
Qed.

(** Nothing is found where the pattern matches at no position. *)
Lemma findall_go_none {A : Type} (p : Re.parser A) (l : string) fuel :
  (forall t, starts_with l t = false -> p t = []) ->
  forall s, contains l s = false -> Re.findall_go fuel p s = [].
Proof.
  intros Hp. induction fuel as [|fuel IH]; intros s Hs; [reflexivity|].
  cbn [Re.findall_go].
  assert (Hhere : starts_with l s = false).
  { destruct s; cbn [contains] in Hs; apply orb_false_iff in Hs; tauto. }
  rewrite (Hp s Hhere). destruct s as [|c s]; [reflexivity|].
  apply IH. cbn [contains] in Hs. apply orb_false_iff in Hs. tauto.
Qed.

Lemma contains_app_r sub a b :
  contains sub b = true -> contains sub (a ++ b) = true.
Proof.
  intros H. induction a as [|c a IH]; [exact H|].
  change ((String c a ++ b)%string) with (String c (a ++ b)).
  cbn [contains]. rewrite IH. apply orb_true_r.
Qed.

(** The groups of a match of the statistics pattern. *)
Lemma hitratio_pattern_In m t r :
  In (m, r) (hitratio_pattern t) ->
  digits (g_total m) /\ digits (g_hits m) /\ digits (g_misses m) /\
  digits (g_evictions m) /\
  exists n u, g_duration m = (n ++ u)%string /\ HitRatioFacts.is_unit u.
Proof.
  unfold hitratio_pattern, field. intros H. unfold_match. subst.
  match goal with
  | H : In _ (duration_pattern _) |- _ =>
      apply HitRatioFacts.duration_pattern_In in H;
      destruct H as (n & u & -> & _ & _ & Hu)
  end.
  cbn [g_total g_hits g_misses g_evictions g_duration]. unfold digits.
  repeat split; try assumption. exists n, u. auto.
Qed.

(** A duration that ends with a unit is converted by one of the four
    branches, each of which gives a float. *)
Lemma duration_is_float n u v :
  HitRatioFacts.is_unit u ->
  duration_ms_of (n ++ u) = Ok v -> exists f, v = PFloat f.
Proof.
  intros Hu. unfold duration_ms_of.
  assert (Hs : contains "s" (n ++ u) = true).
  { apply contains_app_r. destruct Hu as [-> | [-> | [-> | ->]]]; reflexivity. }
  rewrite Hs.
  repeat match goal with
    | |- (if ?c then _ else _) = _ -> _ => destruct c
    end;
    intros H;
    match type of H with
    | bind ?e _ = _ => destruct e; [|discriminate]
    end; cbn [bind] in H; inversion H; eexists; reflexivity.
Qed.

Definition is_distribution (v : pyval) : Prop :=
  v = PNone \/ v = PStr "zipf-1.07" \/ v = PStr "zipf-1.2" \/ v = PStr "uniform".

Definition is_policy (v : pyval) : Prop :=
  v = PNone \/ v = PStr "lru" \/ v = PStr "lfu" \/ v = PStr "fifo" \/
  v = PStr "random".

Lemma distribution_of_cases c : is_distribution (distribution_of c).
Proof.
  unfold distribution_of, is_distribution.
  repeat match goal with |- context [if ?b then _ else _] => destruct b end;
    auto.
Qed.

Lemma policy_of_cases c : is_policy (policy_of c).
Proof.
  unfold policy_of, is_policy.
  repeat match goal with |- context [if ?b then _ else _] => destruct b end;
    auto 6.
Qed.

(** The shape of a record. *)
Record well_formed (row : dict) : Prop := {
  wf_columns :
    map fst row =
    ["test_name"; "cache_size"; "distribution"; "policy"; "total_operations";
     "hits"; "misses"; "hit_ratio"; "evictions"; "eviction_ratio";
     "duration_ms"];
  wf_counts :
    forall key, In key ["cache_size"; "total_operations"; "hits"; "misses";
                        "evictions"] ->
    exists n, dict_get key row = Some (PInt n) /\ (0 <= n)%Z;
  wf_floats :
    forall key, In key ["hit_ratio"; "eviction_ratio"; "duration_ms"] ->
    exists f, dict_get key row = Some (PFloat f);
  wf_distribution :
    exists v, dict_get "distribution" row = Some v /\ is_distribution v;
  wf_policy : exists v, dict_get "policy" row = Some v /\ is_policy v
}.

Lemma hitratio_record_well_formed content m t r row :
  In (m, r) (hitratio_pattern t) ->
  record_of content m = Ok row -> well_formed row.
Proof.
  intros Hm Hrow.
  destruct (hitratio_pattern_In m t r Hm)
    as ([Ht1 Ht2] & [Hh1 Hh2] & [Hm1 Hm2] & [He1 He2] & n & u & Hd & Hu).
  unfold record_of in Hrow.
  destruct (py_int (g_total m)) as [total|] eqn:Et; [|discriminate].
  destruct (py_int_digits_ok _ _ Ht1 Ht2 Et) as (_ & Pt & _).
  cbn [bind] in Hrow.
  destruct (py_int (g_hits m)) as [hits|] eqn:Eh; [|discriminate].
  destruct (py_int_digits_ok _ _ Hh1 Hh2 Eh) as (_ & Ph & _).
  cbn [bind] in Hrow.
  destruct (py_int (g_misses m)) as [misses|] eqn:Em; [|discriminate].
  destruct (py_int_digits_ok _ _ Hm1 Hm2 Em) as (_ & Pm & _).
  cbn [bind] in Hrow.
  destruct (py_float (g_hit_ratio m)) as [hit_ratio|]; [|discriminate].
  cbn [bind] in Hrow.
  destruct (py_int (g_evictions m)) as [evictions|] eqn:Ee; [|discriminate].
  destruct (py_int_digits_ok _ _ He1 He2 Ee) as (_ & Pe & _).
  cbn [bind] in Hrow.
  destruct (py_float (g_eviction_ratio m)) as [eviction_ratio|];
    [|discriminate].
  cbn [bind] in Hrow.
  destruct (cache_size_of (test_context_of content total)) as [size|] eqn:Es;
    [|discriminate].
  destruct (HitRatioFacts.cache_size_of_spec _ _ Es) as (k & -> & Psize & _).
  cbn [bind] in Hrow.
  destruct (duration_ms_of (g_duration m)) as [duration_ms|] eqn:Edur;
    [|discriminate].
  cbn [bind] in Hrow. rewrite Hd in Edur.
  destruct (duration_is_float n u _ Hu Edur) as [f ->].
  inversion Hrow; subst row; clear Hrow.
  constructor.
  - reflexivity.
  - intros key Hkey. cbn [In] in Hkey.
    repeat (destruct Hkey as [<-|Hkey];
            [eexists; split; [reflexivity|assumption]|]).
    destruct Hkey.
  - intros key Hkey. cbn [In] in Hkey.
    repeat (destruct Hkey as [<-|Hkey]; [eexists; reflexivity|]).
    destruct Hkey.
  - eexists. split; [reflexivity|apply distribution_of_cases].
  - eexists. split; [reflexivity|apply policy_of_cases].
Qed.

(** X5.  A transcript that holds no [测试结果:] marker gives the empty
    table: [parse_test_output] finds no block and does not raise, whatever
    else the text holds. *)
Theorem no_marker_no_records :
  forall content,
    contains marker content = false ->
    parse_content content = Ok [].
Proof.
  intros content H. unfold parse_content, Re.findall.
  rewrite (findall_go_none hitratio_pattern marker); [reflexivity| |exact H].
  intros t Ht. unfold hitratio_pattern, Re.seq, Re.lit. fold marker.
  rewrite Ht. reflexivity.
Qed.

Lemma no_marker_no_records_witness :
  parse_content "=== RUN   TestBasic" = Ok [] /\ parse_content "" = Ok [].
Proof.
  split.
  - exact (no_marker_no_records "=== RUN   TestBasic" eq_refl).
  - exact (no_marker_no_records "" eq_refl).
Defined.

(** X6.  When [parse_test_output] returns, there is one record per
    statistics block found, and every record has the same eleven columns;
    cache_size, total_operations, hits, misses and evictions are integers
    that are not negative; hit_ratio, eviction_ratio and duration_ms are
    floats (the initial [duration_ms = 0] never survives, since every
    captured duration ends in a unit); distribution is [None] or one of
    zipf-1.07, zipf-1.2, uniform, and policy is [None] or one of lru, lfu,
    fifo, random. *)
Theorem hitratio_records_are_well_formed :
  forall content df,
    parse_content content = Ok df ->
    List.length df = List.length (Re.findall hitratio_pattern content) /\
    Forall well_formed df.
Proof.
  intros content df H. unfold parse_content in H. apply for_each_ok in H.
  split; [symmetry; eapply Forall2_length; eassumption|].
  assert (Hin : Forall (fun m => exists t r, In (m, r) (hitratio_pattern t))
                       (Re.findall hitratio_pattern content)).
  { apply Forall_forall. intros m Hm. eapply findall_go_In. exact Hm. }
  induction H as [|m row ms rows Hrow _ IH]; constructor.
  - inversion Hin as [|? ? (t & r & Hm) _]; subst.
    eapply hitratio_record_well_formed; eassumption.
  - apply IH. inversion Hin; assumption.
Qed.

Lemma hitratio_records_are_well_formed_witness :
  exists df,
    parse_content HitRatioFacts.two_tests_log = Ok df /\
    List.length df = 2%nat /\ Forall well_formed df.
Proof.
  eexists. split; [vm_compute; reflexivity|].
  match goal with
  | |- List.length ?df = _ /\ _ =>
      destruct (hitratio_records_are_well_formed HitRatioFacts.two_tests_log df)
        as [Hlen Hrows]
  end.
  - vm_compute. reflexivity.
  - split; [reflexivity|exact Hrows].
Defined.

End HitRatioRecords.

(* ===================================================================== *)
(** * The tables of the benchmark loader                                  *)
(* ===================================================================== *)

Module BenchmarkTables.
Import Py PyFacts ReFacts Benchmark LoadFacts.

(** The columns of a row of a loaded table, in order. *)
Definition columns : list string :=
  ["name"; "full_name"; "procs"; "iterations"; "ns_per_op"; "bytes_per_op";
   "allocs_per_op"; "test_type"; "date"; "source_file"].

Definition has_columns (filename : string) (row : dict) : Prop :=
  map fst row = columns /\
  dict_get "source_file" row = Some (PStr filename) /\
  dict_get "name" row = dict_get "full_name" row /\
  dict_get "ValueSize" row = None.

Lemma parse_lines_rows lines df :
  parse_lines lines = Ok df ->
  Forall (fun row =>
            exists name procs iterations ns bytes allocs,
              row = [("name", PStr name); ("full_name", PStr name);
                     ("procs", PInt procs); ("iterations", PInt iterations);
                     ("ns_per_op", PFloat ns); ("bytes_per_op", PInt bytes);
                     ("allocs_per_op", PInt allocs)]) df.
Proof.
  intros H. apply BenchmarkFacts.parse_lines_ok in H as [_ Hall].
  unfold BenchmarkFacts.rows_of in Hall.
  induction Hall as [|line row ls rows (g & f & _ & _ & ->) _ IH];
    constructor; [|exact IH].
  eexists _, _, _, _, _, _. reflexivity.
Qed.

Section Tables.

Variable to_datetime : string -> result pyval.
Variable self : analyzer.
Variable fs : filesystem.
Variable pattern : file_filter.

Lemma load_file_rows filename df :
  load_file to_datetime self fs filename = Ok df ->
  Forall (has_columns filename) df.
Proof.
  unfold load_file. intros H.
  destruct (match Re.search filename_pattern filename with
            | Some m => m
            | None => ("unknown", "00000000")
            end) as [test_type date_str].
  unfold parse_benchmark_file in H.
  destruct (read fs (path_join (input_dir self) filename)) as [content|];
    [|discriminate]. cbn [bind] in H.
  destruct (parse_lines _) as [rows|] eqn:Hrows; [|discriminate].
  cbn [bind] in H.
  destruct (to_datetime date_str) as [date|]; [|discriminate].
  cbn [bind] in H. inversion H; subst df; clear H.
  apply parse_lines_rows in Hrows. unfold assign.
  induction Hrows as [|row rows (n & p & i & ns & b & a & ->) _ IH];
    cbn [map]; constructor; [|exact IH].
  repeat split.
Qed.

(** The loop returns only when every file it takes up loads, and then with
    the tables of all of them. *)
Lemma load_loop_ok names : forall all_results tables,
  load_loop to_datetime self fs pattern names all_results = Ok tables ->
  Forall (fun f => is_ok (load_file to_datetime self fs f) = true)
         (filter (benchmark_file pattern) names) /\
  tables = all_results ++ loaded (load_file to_datetime self fs)
                                 (filter (benchmark_file pattern) names).
Proof.
  induction names as [|f names IH]; intros all_results tables;
    cbn [load_loop filter].
  - intros H. inversion H. cbn. rewrite app_nil_r. auto.
  - assert (Hf : benchmark_file pattern f =
                 ends_with ".txt" f && negb (filtered_out pattern f))
      by reflexivity.
    destruct (ends_with ".txt" f); [destruct (filtered_out pattern f)|];
      cbn [negb andb] in Hf |- *; rewrite Hf; try apply IH.
    destruct (load_file to_datetime self fs f) as [df|e] eqn:E;
      cbn [bind]; [|discriminate].
    intros H. destruct (IH _ _ H) as [Hall ->]. split.
    + constructor; [rewrite E; reflexivity|assumption].
    + cbn [loaded flat_map]. rewrite E. cbn [app].
      rewrite <- app_assoc. reflexivity.
Qed.

Lemma loaded_rows (P : string -> dict -> Prop) files :
  (forall f df, load_file to_datetime self fs f = Ok df -> Forall (P f) df) ->
  Forall (fun row => exists f, In f files /\ P f row)
         (List.concat (loaded (load_file to_datetime self fs) files)).
Proof.
  intros HP. induction files as [|f files IH]; cbn [loaded flat_map];
    [constructor|].
  destruct (load_file to_datetime self fs f) as [df|] eqn:E; cbn [app].
  - cbn [List.concat]. apply Forall_app. split.
    + eapply Forall_impl; [|exact (HP f df E)].
      intros row Hrow. exists f. split; [left; reflexivity|assumption].
    + eapply Forall_impl; [|exact IH].
      intros row (f' & Hin & Hrow). exists f'. split; [right|]; assumption.
  - eapply Forall_impl; [|exact IH].
    intros row (f' & Hin & Hrow). exists f'. split; [right|]; assumption.
Qed.

End Tables.

(** Two benchmark files, the second under a name without a date. *)
Definition two_files : filesystem :=
  directory "results"
    [("cache_20240101.txt", BenchmarkFacts.five_lines);
     ("latest.txt", BenchmarkFacts.plain_benchmark_line)].

Definition dated_file : filesystem :=
  directory "results" [("cache_20240101.txt", BenchmarkFacts.five_lines)].

(** X7.  [load_benchmark_results] is all or nothing: if one file that it
    takes up does not load (it cannot be read, or [to_datetime] rejects its
    date), the call raises, returns no table and leaves [self.results] as
    it was, although other files of the directory would load. *)
Theorem benchmark_load_is_all_or_nothing :
  forall to_datetime self fs pattern names filename,
    listdir fs (input_dir self) = Ok names ->
    In filename (filter (benchmark_file pattern) names) ->
    is_ok (load_file to_datetime self fs filename) = false ->
    is_ok (returned (load_benchmark_results to_datetime self fs pattern))
      = false /\
    after (load_benchmark_results to_datetime self fs pattern) = self.
Proof.
  intros to_datetime self fs pattern names filename Hdir Hin Hfail.
  assert (Hraise : is_ok (returned (load_benchmark_results to_datetime self fs
                                      pattern)) = false).
  { unfold load_benchmark_results. rewrite Hdir. cbn [bind].
    destruct (load_loop to_datetime self fs pattern names []) as [tables|e]
      eqn:E; [|reflexivity].
    destruct (load_loop_ok _ _ _ _ _ _ _ E) as [Hall _].
    rewrite Forall_forall in Hall. rewrite (Hall _ Hin) in Hfail.
    discriminate. }
  split; [exact Hraise|].
  pose proof (benchmark_stores to_datetime fs pattern self) as Hs.
  unfold stores_result in Hs. rewrite Hs.
  destruct (returned _); [discriminate|reflexivity].
Qed.

Lemma benchmark_load_is_all_or_nothing_witness :
  is_ok (returned (load_benchmark_results ConcurrencyFacts.sample_to_datetime
                     fresh_analyzer two_files None)) = false /\
  after (load_benchmark_results ConcurrencyFacts.sample_to_datetime
           fresh_analyzer two_files None) = fresh_analyzer.
Proof.
  apply (benchmark_load_is_all_or_nothing ConcurrencyFacts.sample_to_datetime
           fresh_analyzer two_files None
           ["cache_20240101.txt"; "latest.txt"] "latest.txt").
  - reflexivity.
  - vm_compute. auto.
  - vm_compute. reflexivity.
Defined.

(** X8.  Every row of a table that [load_benchmark_results] returns has
    exactly the ten columns name, full_name, procs, iterations, ns_per_op,
    bytes_per_op, allocs_per_op, test_type, date and source_file; its
    name equals its full_name, its source_file is a file of the listing
    that the loader takes up, and it has no ValueSize column (the column
    that [generate_descriptive_stats] groups by and that
    [plot_performance_comparison] looks for). *)
Theorem benchmark_rows_have_ten_columns :
  forall to_datetime self fs pattern names df,
    listdir fs (input_dir self) = Ok names ->
    returned (load_benchmark_results to_datetime self fs pattern) = Ok df ->
    Forall (fun row =>
              exists filename,
                In filename (filter (benchmark_file pattern) names) /\
                has_columns filename row) df.
Proof.
  intros to_datetime self fs pattern names df Hdir H.
  unfold load_benchmark_results in H. rewrite Hdir in H. cbn [bind] in H.
  destruct (load_loop to_datetime self fs pattern names []) as [tables|e]
    eqn:E; [|discriminate].
  destruct (load_loop_ok _ _ _ _ _ _ _ E) as [_ ->]. cbn [app] in H.
  assert (Hdf : df = List.concat
                       (loaded (load_file to_datetime self fs)
                               (filter (benchmark_file pattern) names))).
  { destruct (loaded _ _); cbn in H; [discriminate|].
    inversion H. reflexivity. }
  rewrite Hdf. apply loaded_rows. apply load_file_rows.
Qed.

Lemma benchmark_rows_have_ten_columns_witness :
  exists df,
    returned (load_benchmark_results ConcurrencyFacts.sample_to_datetime
                fresh_analyzer dated_file None) = Ok df /\
    List.length df = 4%nat /\
    Forall (fun row =>
              exists filename,
                In filename (filter (benchmark_file None)
                               ["cache_20240101.txt"]) /\
                has_columns filename row) df.
Proof.
  eexists. split; [vm_compute; reflexivity|]. split; [reflexivity|].
  apply (benchmark_rows_have_ten_columns ConcurrencyFacts.sample_to_datetime
           fresh_analyzer dated_file None).
  - reflexivity.
  - vm_compute. reflexivity.
Defined.

End BenchmarkTables.

(* ===================================================================== *)
(** * The names of the transcripts                                        *)
(* ===================================================================== *)

Module HitRatioTables.
Import Py PyFacts LoadFacts.

(** Whether a file name holds [hitratio_<8 digits>.txt] or [.log]. *)
Definition dated (filename : string) : bool :=
  match Re.search HitRatio.filename_pattern filename with
  | Some _ => true
  | None => false
  end.

Lemma loaded_only_dated (load : string -> result DataFrame)
  (keep : string -> bool) files :
  (forall f, dated f = false -> is_ok (load f) = false) ->
  loaded load (filter keep files) =
  loaded load (filter (fun f => keep f && dated f) files).
Proof.
  intros Hload. unfold loaded.
  induction files as [|f files IH]; [reflexivity|].
  cbn [filter]. destruct (keep f); cbn [andb]; [|exact IH].
  destruct (dated f) eqn:Ed; cbn [flat_map].
  - rewrite IH. reflexivity.
  - specialize (Hload f Ed). destruct (load f); [discriminate|].
    cbn [app]. exact IH.
Qed.

(** X9.  [load_test_results] dates a file whose name does not hold
    [hitratio_<8 digits>.txt] or [.log] with the sentinel 00000000; when
    [to_datetime] rejects the sentinel, such a file never loads, however
    well its content parses: what is returned is decided by the dated
    files alone. *)
Theorem only_dated_transcripts_load :
  forall to_datetime e self fs pattern names,
    to_datetime "00000000" = Raise e ->
    listdir fs (input_dir self) = Ok names ->
    (forall filename,
       dated filename = false ->
       is_ok (HitRatio.load_file to_datetime self fs filename) = false) /\
    returned (HitRatio.load_test_results to_datetime self fs pattern) =
    result_of "No hit ratio test results found"
      (loaded (HitRatio.load_file to_datetime self fs)
              (filter (fun f => hitratio_file pattern f && dated f) names)).
Proof.
  intros to_datetime e self fs pattern names Hsentinel Hdir.
  assert (Hload : forall filename,
            dated filename = false ->
            is_ok (HitRatio.load_file to_datetime self fs filename) = false).
  { intros filename Hd. unfold dated in Hd. unfold HitRatio.load_file.
    destruct (Re.search HitRatio.filename_pattern filename); [discriminate|].
    destruct (HitRatio.parse_test_output fs _); [|reflexivity].
    cbn [bind]. rewrite Hsentinel. reflexivity. }
  split; [exact Hload|].
  rewrite (hitratio_outcome to_datetime self fs pattern names Hdir).
  cbn [returned]. rewrite (loaded_only_dated _ _ _ Hload). reflexivity.
Qed.

Lemma only_dated_transcripts_load_witness :
  is_ok (HitRatio.load_file ConcurrencyFacts.sample_to_datetime fresh_analyzer
           three_transcripts "latest.txt") = false /\
  filter (fun f => hitratio_file None f && dated f)
         ["hitratio_20240101.txt"; "hitratio_20240102.log"; "README.md";
          "latest.txt"] =
  ["hitratio_20240101.txt"; "hitratio_20240102.log"].
Proof.
  destruct (only_dated_transcripts_load ConcurrencyFacts.sample_to_datetime
              (ValueError "time data does not match format")
              fresh_analyzer three_transcripts None _ eq_refl eq_refl)
    as [Hload _].
  split; [apply Hload|]; vm_compute; reflexivity.
Defined.

End HitRatioTables.

(* ===================================================================== *)
(** * Facts about the comparison data                                    *)
(* ===================================================================== *)

Module ComparisonFacts.
Import Py PyFacts Comparison.

Lemma get_set_library k k' df libs :
  get_library k (set_library k' df libs) =
  if String.eqb k k' then Some df else get_library k libs.
Proof.
  induction libs as [|[k0 v0] libs IH]; simpl.
  - destruct (String.eqb k k'); reflexivity.
  - destruct (String.eqb k' k0) eqn:E0; simpl.
    + apply String.eqb_eq in E0; subst k0.
      destruct (String.eqb k k'); reflexivity.
    + destruct (String.eqb k k0) eqn:E1.
      * apply String.eqb_eq in E1; subst k0.
        rewrite String.eqb_sym, E0. reflexivity.
      * exact IH.
Qed.

(** Every row of the table is tagged with the library [k]. *)
Definition tagged (k : string) (df : DataFrame) : Prop :=
  Forall (fun row => dict_get "cache_lib" row = Some (PStr k)) df.

Section Load.

Variable to_datetime : string -> result pyval.

Lemma comparison_file_tagged fs cache_dir subdir filename df :
  comparison_file to_datetime fs cache_dir subdir filename = Ok df ->
  tagged subdir df.
Proof.
  unfold comparison_file. intros H.
  destruct (Benchmark.parse_benchmark_file fs _) as [rows|]; [|discriminate].
  cbn [bind] in H.
  destruct (match Re.search Benchmark.filename_pattern filename with
            | Some m => m
            | None => ("unknown", "00000000")
            end) as [test_type date_str].
  destruct (to_datetime date_str) as [date|]; [|discriminate].
  cbn [bind] in H. inversion H; subst df; clear H.
  unfold tagged, assign. apply Forall_forall. intros row Hrow.
  apply in_map_iff in Hrow as (row' & <- & _).
  rewrite dict_get_set. reflexivity.
Qed.

Lemma file_loop_tagged fs cache_dir subdir names : forall all_results tables,
  tagged subdir (List.concat all_results) ->
  file_loop to_datetime fs cache_dir subdir names all_results = Ok tables ->
  tagged subdir (List.concat tables).
Proof.
  induction names as [|f names IH]; intros all_results tables Hacc;
    cbn [file_loop].
  - intros H. inversion H; subst. exact Hacc.
  - destruct (ends_with ".txt" f); [|apply IH; exact Hacc].
    destruct (comparison_file to_datetime fs cache_dir subdir f) as [df|]
      eqn:E; cbn [bind]; [|discriminate].
    apply IH. unfold tagged in *. rewrite concat_app. apply Forall_app.
    split; [exact Hacc|]. cbn [List.concat]. rewrite app_nil_r.
    exact (comparison_file_tagged _ _ _ _ _ E).
Qed.

(** The body of the [try] statement for one library: the tables of its
    files, or the exception that ends it. *)
Definition try_body (fs : filesystem) (cache_dir subdir : string)
  : result (list DataFrame) :=
  (names <- listdir fs cache_dir ;;
   file_loop to_datetime fs cache_dir subdir names [])%py.

(** The library [k] loads with the table [df]: it is a directory, every
    file of it that is taken up loads, and there is at least one. *)
Definition loads (t : tree) (other_cache_dir k : string) (df : DataFrame)
  : Prop :=
  isdir t (path_join other_cache_dir k) = true /\
  exists table tables,
    try_body (files t) (path_join other_cache_dir k) k = Ok (table :: tables) /\
    df = List.concat (table :: tables).

(** The library [k] fails with [e]: it is a directory, and its listing or
    one of its files raises [e]. *)
Definition fails (t : tree) (other_cache_dir k : string) (e : exn) : Prop :=
  isdir t (path_join other_cache_dir k) = true /\
  try_body (files t) (path_join other_cache_dir k) k = Raise e.

(** The same, as functions of the library. *)
Definition outcome (t : tree) (other_cache_dir k : string)
  : option DataFrame :=
  if isdir t (path_join other_cache_dir k)
  then match try_body (files t) (path_join other_cache_dir k) k with
       | Ok (table :: tables) => Some (List.concat (table :: tables))
       | _ => None
       end
  else None.

Definition failure (t : tree) (other_cache_dir k : string)
  : list (string * exn) :=
  if isdir t (path_join other_cache_dir k)
  then match try_body (files t) (path_join other_cache_dir k) k with
       | Raise e => [(k, e)]
       | _ => []
       end
  else [].

Lemma loads_outcome t other k df :
  loads t other k df <-> outcome t other k = Some df.
Proof.
  unfold loads, outcome. split.
  - intros (-> & table & tables & -> & ->). reflexivity.
  - destruct (isdir t (path_join other k)); [|discriminate].
    destruct (try_body _ _ _) as [[|table tables]|e]; try discriminate.
    intros H. inversion H. split; [reflexivity|]. eauto.
Qed.

Lemma fails_failure t other k k' e :
  In (k', e) (failure t other k) <-> k' = k /\ fails t other k e.
Proof.
  unfold fails, failure. split.
  - destruct (isdir t (path_join other k)); [|intros []].
    destruct (try_body _ _ _) as [tables|e']; [intros []|].
    intros [H|[]]. inversion H. auto.
  - intros (-> & -> & ->). left. reflexivity.
Qed.

Lemma failure_length t other k : (List.length (failure t other k) <= 1)%nat.
Proof.
  unfold failure. destruct (isdir t _); [|cbn; lia].
  destruct (try_body _ _ _); cbn; lia.
Qed.

Lemma loads_tagged t other k df : loads t other k df -> tagged k df.
Proof.
  intros (_ & table & tables & H & ->). unfold try_body in H.
  destruct (listdir (files t) (path_join other k)) as [names|]; [|discriminate].
  cbn [bind] in H. eapply file_loop_tagged; [|exact H]. constructor.
Qed.

(** One round of the outer loop. *)
Lemma subdir_loop_step t other k rest libs out :
  subdir_loop to_datetime t other (k :: rest) libs out =
  subdir_loop to_datetime t other rest
    match outcome t other k with
    | Some df => set_library k df libs
    | None => libs
    end
    (out ++ failure t other k).
Proof.
  cbn [subdir_loop]. unfold outcome, failure, load_library.
  fold (try_body (files t) (path_join other k) k).
  destruct (isdir t (path_join other k)); [|rewrite app_nil_r; reflexivity].
  destruct (try_body _ _ _) as [[|table tables]|e]; rewrite ?app_nil_r;
    reflexivity.
Qed.

(** How the dict after the call relates to the dict before it. *)
Record extends (t : tree) (other_cache_dir : string) (subdirs : list string)
  (libs libs' : libraries) (out : list (string * exn)) : Prop := {
  loaded_now :
    forall k df, In k subdirs -> loads t other_cache_dir k df ->
                 get_library k libs' = Some df;
  kept :
    forall k, (forall df, In k subdirs -> ~ loads t other_cache_dir k df) ->
              get_library k libs' = get_library k libs;
  grows :
    forall k df, get_library k libs = Some df ->
                 exists df', get_library k libs' = Some df';
  new_rows_tagged :
    forall k df, loads t other_cache_dir k df -> tagged k df;
  printed :
    forall k e, In (k, e) out <-> In k subdirs /\ fails t other_cache_dir k e;
  printed_once : (List.length out <= List.length subdirs)%nat
}.

Lemma subdir_loop_spec t other subdirs : forall libs out0,
  exists libs',
    subdir_loop to_datetime t other subdirs libs out0 =
      (libs', out0 ++ flat_map (failure t other) subdirs) /\
    forall k,
      (In k subdirs -> forall df, outcome t other k = Some df ->
         get_library k libs' = Some df) /\
      (~ In k subdirs \/ outcome t other k = None ->
         get_library k libs' = get_library k libs).
Proof.
  induction subdirs as [|s subdirs IH]; intros libs out0.
  - exists libs. cbn [subdir_loop flat_map]. rewrite app_nil_r.
    split; [reflexivity|]. intros k. split; [intros []|reflexivity].
  - rewrite subdir_loop_step.
    destruct (IH match outcome t other s with
                 | Some df => set_library s df libs
                 | None => libs
                 end (out0 ++ failure t other s)) as (libs' & Hrun & Hget).
    exists libs'. cbn [flat_map]. rewrite Hrun, <- app_assoc.
    split; [reflexivity|]. intros k. destruct (Hget k) as [Hnow Hkept].
    split.
    + intros Hin df Hdf.
      destruct (in_dec string_dec k subdirs) as [Hrest|Hrest];
        [exact (Hnow Hrest df Hdf)|].
      destruct Hin as [->|Hin]; [|contradiction].
      rewrite (Hkept (or_introl Hrest)), Hdf, get_set_library, String.eqb_refl.
      reflexivity.
    + intros Hk.
      assert (Hrest : ~ In k subdirs \/ outcome t other k = None).
      { destruct Hk as [Hk|Hk]; [left; intros Hin; apply Hk; right|right];
          assumption. }
      rewrite (Hkept Hrest).
      destruct (outcome t other s) as [df|] eqn:Es; [|reflexivity].
      rewrite get_set_library.
      destruct (String.eqb k s) eqn:Eks; [|reflexivity].
      apply String.eqb_eq in Eks; subst k.
      destruct Hk as [Hk|Hk]; [destruct Hk; left; reflexivity|congruence].
Qed.

Lemma subdir_loop_extends t other subdirs libs :
  exists libs' out,
    subdir_loop to_datetime t other subdirs libs [] = (libs', out) /\
    extends t other subdirs libs libs' out.
Proof.
  destruct (subdir_loop_spec t other subdirs libs []) as (libs' & Hrun & Hget).
  exists libs', (flat_map (failure t other) subdirs).
  split; [exact Hrun|]. constructor.
  - intros k df Hin Hload. apply loads_outcome in Hload.
    exact (proj1 (Hget k) Hin df Hload).
  - intros k Hk. apply (proj2 (Hget k)).
    destruct (in_dec string_dec k subdirs) as [Hin|Hin]; [|left; exact Hin].
    right. destruct (outcome t other k) as [df|] eqn:E; [|reflexivity].
    destruct (Hk df Hin). apply loads_outcome. exact E.
  - intros k df Hk.
    destruct (in_dec string_dec k subdirs) as [Hin|Hin].
    + destruct (outcome t other k) as [df'|] eqn:E.
      * exists df'. exact (proj1 (Hget k) Hin df' E).
      * exists df. rewrite (proj2 (Hget k) (or_intror E)). exact Hk.
    + exists df. rewrite (proj2 (Hget k) (or_introl Hin)). exact Hk.
  - intros k df. apply loads_tagged.
  - intros k e. rewrite in_flat_map. split.
    + intros (s & Hin & H). apply fails_failure in H as [-> H]. auto.
    + intros [Hin H]. exists k. split; [exact Hin|].
      apply fails_failure. auto.
  - clear. induction subdirs as [|s subdirs IH]; cbn [flat_map];
      [cbn; lia|].
    rewrite List.length_app. pose proof (failure_length t other s).
    cbn [List.length]. lia.
Qed.

End Load.

(** The directory [others] with a library that loads, a library whose
    only file has no date in its name, and a plain file. *)
Definition others : tree :=
  {| files :=
       {| listdir := fun d =>
            if String.eqb d "others"
            then Ok ["bigcache"; "freecache"; "notes.txt"]
            else if String.eqb d "others/bigcache"
            then Ok ["get_20240101.txt"]
            else if String.eqb d "others/freecache" then Ok ["latest.txt"]
            else Raise OSError;
          read := fun p =>
            if String.eqb p "others/bigcache/get_20240101.txt"
               || String.eqb p "others/freecache/latest.txt"
            then Ok BenchmarkFacts.plain_benchmark_line
            else Raise OSError |};
     isdir := fun p =>
       String.eqb p "others/bigcache" || String.eqb p "others/freecache" |}.

(** A table stored for [freecache] by an earlier call. *)
Definition earlier : libraries :=
  [("freecache", [[("name", PStr "BenchmarkSet")]])].

(** X10.  Once the listing of [other_cache_dir] succeeds,
    [load_comparison_data] does not raise, and a failure while a library
    is loaded is confined to that library.  A library of the listing loads
    when it is a directory, each of its [.txt] files loads and there is at
    least one; it fails when it is a directory and its listing or one of
    its files raises.  After the call the dict holds, for every library of
    the listing that loads, the concatenation of the tables of its files,
    each row tagged with the library in cache_lib, whatever happened to
    the other libraries; every other key (a library that fails, that has
    no [.txt] file, an entry that is no directory, a key that is not in
    the listing) has exactly what it had before the call; so the dict only
    grows.  What is printed is one line for each library of the listing
    that fails, with its exception, and nothing else. *)
Theorem comparison_failures_are_confined :
  forall to_datetime libs t other_cache_dir subdirs,
    listdir (files t) other_cache_dir = Ok subdirs ->
    exists libs' out,
      load_comparison_data to_datetime libs t other_cache_dir =
        (Ok libs', libs', out) /\
      extends to_datetime t other_cache_dir subdirs libs libs' out.
Proof.
  intros to_datetime libs t other subdirs Hdir. unfold load_comparison_data.
  rewrite Hdir.
  destruct (subdir_loop_extends to_datetime t other subdirs libs)
    as (libs' & out & Hrun & Hext).
  rewrite Hrun. exists libs', out. split; [reflexivity|exact Hext].
Qed.

Lemma comparison_failures_are_confined_witness :
  exists libs' out,
    load_comparison_data ConcurrencyFacts.sample_to_datetime earlier others
      "others" = (Ok libs', libs', out) /\
    map fst libs' = ["freecache"; "bigcache"] /\
    get_library "freecache" libs' = get_library "freecache" earlier /\
    (exists df, get_library "bigcache" libs' = Some df /\
                List.length df = 1%nat) /\
    map fst out = ["freecache"] /\
    extends ConcurrencyFacts.sample_to_datetime others "others"
      ["bigcache"; "freecache"; "notes.txt"] earlier libs' out.
Proof.
  destruct (comparison_failures_are_confined
              ConcurrencyFacts.sample_to_datetime earlier others "others"
              _ eq_refl) as (libs' & out & Hrun & Hext).
  exists libs', out. split; [exact Hrun|].
  assert (Hval : load_comparison_data ConcurrencyFacts.sample_to_datetime
                   earlier others "others" =
                 (Ok libs', libs', out)) by exact Hrun.
  vm_compute in Hval. inversion Hval; subst libs' out.
  split; [reflexivity|]. split; [reflexivity|].
  split; [eexists; split; reflexivity|]. split; [reflexivity|].
  exact Hext.
Defined.

End ComparisonFacts.

(* ===================================================================== *)
(** * Facts about profile metadata and the analysis of a directory       *)
(* ===================================================================== *)

Module ProfilesFacts.
Import Py PyFacts ReFacts Profiles.

(** A pattern that matches at some position is found by [search]. *)
Lemma search_complete {A : Type} (p : Re.parser A) pre : forall t,
  p t <> [] -> exists a, Re.search p (pre ++ t) = Some a.
Proof.
  induction pre as [|c pre IH]; intros t Ht.
  - cbn [String.append]. destruct t as [|c t]; cbn [Re.search];
      destruct (p _) as [|[a r] l]; try congruence; eauto.
  - change ((String c pre ++ t)%string) with (String c (pre ++ t)).
    cbn [Re.search]. destruct (p (String c (pre ++ t))) as [|[a r] l];
      [apply IH; assumption|eauto].
Qed.

Lemma times_complete cls a : forall r,
  forall_chars cls a = true ->
  In (a, r) (Re.times (String.length a) cls (a ++ r)).
Proof.
  induction a as [|c a IH]; intros r H.
  - left. reflexivity.
  - cbn [forall_chars] in H. apply andb_true_iff in H as [Hc Ha].
    change ((String c a ++ r)%string) with (String c (a ++ r)).
    cbn [String.length Re.times]. rewrite Hc. apply in_map_iff. exists (a, r). split; [reflexivity|].
    apply IH. assumption.
Qed.

(** The types that [extract_profile_metadata] can report. *)
Definition is_profile_type (s : string) : Prop :=
  s = "unknown" \/ s = "cpu" \/ s = "heap" \/ s = "block" \/ s = "mutex" \/
  s = "goroutine".

Lemma letters_not_empty_default :
  forall_chars is_letter "unknown" = true.
Proof. reflexivity. Qed.

Lemma test_pattern_In name t r :
  In (name, r) (test_pattern t) ->
  name <> EmptyString /\ forall_chars is_letter name = true /\
  exists date, String.length date = 8%nat /\
               forall_chars is_digit date = true /\
               t = (name ++ "_" ++ date ++ r)%string.
Proof.
  unfold test_pattern. intros H. unfold_match. subst.
  repeat split; try assumption. eexists. repeat split; eassumption.
Qed.

Lemma date_pattern_In date time t r :
  In ((date, time), r) (date_pattern t) ->
  String.length date = 8%nat /\ forall_chars is_digit date = true /\
  match time with
  | Some s => String.length s = 6%nat /\ forall_chars is_digit s = true
  | None => True
  end.
Proof.
  unfold date_pattern. intros H. unfold_match;
    match goal with H : (_, _) = (_, _) |- _ => inversion H; subst end;
    repeat split; assumption.
Qed.

Lemma date_pattern_matches date r :
  String.length date = 8%nat -> forall_chars is_digit date = true ->
  date_pattern (date ++ r)%string <> [].
Proof.
  intros Hlen Hd.
  assert (Hin : In ((date, None), r) (date_pattern (date ++ r)%string)).
  { unfold date_pattern. apply seq_In. exists date, r. split.
    - rewrite <- Hlen. apply times_complete. assumption.
    - apply seq_In. exists None, r. split; [apply opt_In; auto|].
      apply seq_In. exists None, r. split; [apply opt_In; auto|].
      apply ret_In. auto. }
  intros E. rewrite E in Hin. destruct Hin.
Qed.

(** X11.  For every file name, [extract_profile_metadata] returns the
    four entries profile_type, test_name, date and time, in this order.
    The type is one of unknown, cpu, heap, block, mutex, goroutine; the
    test name is a non-empty string of letters; the date is a string of
    eight digits and the time one of six digits.  A test name is read from
    the file name only together with a date: whenever the name pattern
    matches, so does the date pattern. *)
Theorem profile_metadata_is_well_formed :
  forall filename,
    (exists profile_type test_name date time,
       extract_profile_metadata filename =
         [("profile_type", PStr profile_type); ("test_name", PStr test_name);
          ("date", PStr date); ("time", PStr time)] /\
       is_profile_type profile_type /\
       test_name <> EmptyString /\ forall_chars is_letter test_name = true /\
       String.length date = 8%nat /\ forall_chars is_digit date = true /\
       String.length time = 6%nat /\ forall_chars is_digit time = true) /\
    match Re.search test_pattern filename with
    | Some _ =>
        match Re.search date_pattern filename with
        | Some _ => True
        | None => False
        end
    | None => True
    end.
Proof.
  intros filename. split.
  - unfold extract_profile_metadata.
    assert (Htype : exists ty, is_profile_type ty /\
              match profile_type_of filename with
              | Some t => t
              | None => "unknown"
              end = ty).
    { unfold profile_type_of, is_profile_type.
      repeat match goal with
        | |- context [if ?b then _ else _] => destruct b
        end; eexists; (split; [|reflexivity]); auto 10. }
    destruct Htype as (ty & Hty & Ety).
    assert (Hname : exists n, n <> EmptyString /\
              forall_chars is_letter n = true /\
              match Re.search test_pattern filename with
              | Some name => name
              | None => "unknown"
              end = n).
    { destruct (Re.search test_pattern filename) as [name|] eqn:E.
      - apply search_In in E as (pre & t & r & _ & Hin).
        apply test_pattern_In in Hin as (Hne & Hl & _). eauto.
      - exists "unknown". repeat split. discriminate. }
    destruct Hname as (n & Hn1 & Hn2 & En).
    destruct (Re.search date_pattern filename) as [[date time]|] eqn:Ed.
    + apply search_In in Ed as (pre & t & r & _ & Hin).
      apply date_pattern_In in Hin as (Hd1 & Hd2 & Htime).
      destruct time as [s|].
      * destruct Htime as [Hs1 Hs2].
        destruct s as [|c s]; [discriminate|]. cbn [truthy].
        exists ty, n, date, (String c s). subst ty n.
        destruct (profile_type_of filename);
          destruct (Re.search test_pattern filename); repeat split; auto.
      * exists ty, n, date, "000000". subst ty n.
        destruct (profile_type_of filename);
          destruct (Re.search test_pattern filename); repeat split; auto.
    + exists ty, n, "00000000", "000000". subst ty n.
      destruct (profile_type_of filename);
        destruct (Re.search test_pattern filename); repeat split; auto.
  - destruct (Re.search test_pattern filename) as [name|] eqn:E; [|exact I].
    apply search_In in E as (pre & t & r & -> & Hin).
    apply test_pattern_In in Hin as (_ & _ & date & Hlen & Hd & ->).
    destruct (search_complete date_pattern (pre ++ name ++ "_")%string
                (date ++ r)%string
                (date_pattern_matches date r Hlen Hd)) as [a Ha].
    rewrite !append_assoc in Ha. rewrite Ha. exact I.
Qed.

(** ** The analysis of a directory *)

(** What an entry of [results['profiles']] holds for its profile. *)
Record entry_of (t : tool) (self : pprof_analyzer) (pr : profile_result)
  : Prop := {
  entry_filename : pr_filename pr = basename (pr_path pr);
  entry_metadata : pr_metadata pr = extract_profile_metadata (pr_filename pr);
  entry_flamegraph :
    pr_flamegraph_path pr =
    match generate_flamegraph t (pr_path pr) with
    | Ok true =>
        Some (path_join (pa_flame_dir self) (splitext_root (pr_filename pr))
              ++ ".svg")%string
    | _ => None
    end;
  entry_top :
    pr_top_functions pr =
    match Pprof.extract_top_functions (top_run t (pr_path pr)) with
    | Ok (row :: rows) => Some (row :: rows)
    | _ => None
    end
}.

Definition no_empty_table (tables : list (string * DataFrame)) : Prop :=
  Forall (fun kv => snd kv <> []) tables.

Lemma set_table_no_empty k df tables :
  df <> [] -> no_empty_table tables -> no_empty_table (set_table k df tables).
Proof.
  intros Hdf. unfold no_empty_table.
  induction tables as [|[k' df'] tables IH]; cbn [set_table]; intros H.
  - constructor; [exact Hdf|constructor].
  - inversion H; subst. destruct (String.eqb k k'); constructor; auto.
Qed.

Lemma analyze_profile_spec t self path res res' :
  analyze_profile t self path res = Ok res' ->
  exists pr,
    profiles res' = profiles res ++ [pr] /\ pr_path pr = path /\
    entry_of t self pr /\
    (no_empty_table (top_functions res) -> no_empty_table (top_functions res')).
Proof.
  unfold analyze_profile. intros H.
  destruct (generate_flamegraph t path) as [generated|] eqn:G;
    [|discriminate].
  cbn [bind] in H.
  destruct (Pprof.extract_top_functions (top_run t path)) as [df|] eqn:E;
    [|discriminate].
  cbn [bind] in H. inversion H; subst res'; clear H.
  eexists. cbn [profiles top_functions]. split; [reflexivity|].
  split; [reflexivity|]. split.
  - constructor; cbn [pr_filename pr_path pr_metadata pr_flamegraph_path
                      pr_top_functions]; try reflexivity.
    + rewrite G. destruct generated; reflexivity.
    + rewrite E. destruct df; reflexivity.
  - intros Hne. destruct df; [exact Hne|].
    apply set_table_no_empty; [discriminate|exact Hne].
Qed.

Lemma analyze_loop_spec t self files : forall res res',
  analyze_loop t self files res = Ok res' ->
  map pr_path (profiles res') = map pr_path (profiles res) ++ files /\
  (Forall (entry_of t self) (profiles res) ->
   Forall (entry_of t self) (profiles res')) /\
  (no_empty_table (top_functions res) -> no_empty_table (top_functions res')).
Proof.
  induction files as [|path files IH]; intros res res' H; cbn [analyze_loop] in H.
  - inversion H; subst. rewrite app_nil_r. auto.
  - destruct (analyze_profile t self path res) as [res1|] eqn:E;
      [|discriminate].
    cbn [bind] in H.
    destruct (analyze_profile_spec _ _ _ _ _ E) as (pr & Hp & Hpath & He & Ht).
    destruct (IH _ _ H) as (Hpaths & Hentries & Htables).
    rewrite Hp in Hpaths, Hentries. split; [|split].
    + rewrite Hpaths, map_app. cbn [map]. rewrite Hpath, <- app_assoc.
      reflexivity.
    + intros Hall. apply Hentries. apply Forall_app. split; [exact Hall|].
      constructor; [exact He|constructor].
    + auto.
Qed.

(** When no table can be read, the loop never raises and stores none. *)
Lemma analyze_loop_silent t self files : forall res,
  (forall p, exists b, generate_flamegraph t p = Ok b) ->
  (forall p, Pprof.extract_top_functions (top_run t p) = Ok []) ->
  exists res',
    analyze_loop t self files res = Ok res' /\
    top_functions res' = top_functions res /\
    (Forall (fun pr => pr_top_functions pr = None) (profiles res) ->
     Forall (fun pr => pr_top_functions pr = None) (profiles res')).
Proof.
  intros res Hflame Hsilent. revert res.
  induction files as [|path files IH]; intros res; cbn [analyze_loop].
  - exists res. auto.
  - unfold analyze_profile at 1. destruct (Hflame path) as [b ->].
    cbn [bind]. rewrite Hsilent. cbn [bind].
    match goal with
    | |- exists res', analyze_loop _ _ _ ?r = _ /\ _ =>
        destruct (IH r) as (res' & Hrun & Htop & Hall)
    end.
    exists res'. split; [exact Hrun|]. split; [exact Htop|].
    intros H. apply Hall. cbn [profiles]. apply Forall_app.
    split; [exact H|]. constructor; [reflexivity|constructor].
Qed.

(** A table that cannot be parsed stops the loop. *)
Lemma analyze_loop_raises t self files : forall res path e,
  In path files ->
  Pprof.extract_top_functions (top_run t path) = Raise e ->
  is_ok (analyze_loop t self files res) = false.
Proof.
  induction files as [|p files IH]; intros res path e Hin Hraise;
    [destruct Hin|].
  cbn [analyze_loop].
  destruct (analyze_profile t self p res) as [res1|] eqn:E; [|reflexivity].
  cbn [bind]. destruct Hin as [->|Hin]; [|eapply IH; eassumption].
  unfold analyze_profile in E.
  destruct (generate_flamegraph t path); [|discriminate].
  cbn [bind] in E. rewrite Hraise in E. discriminate.
Qed.

(** A directory with two profiles and a tool that prints a table for the
    first and fails on the second. *)
Definition profile_dir : filesystem :=
  LoadFacts.directory "pprof"
    [("cpu_get_20240101_101500.pprof", ""); ("heap_set_20240102.pb.gz", "");
     ("README.md", "")].

Definition sample_tool : tool :=
  {| available := true;
     flamegraph := fun p =>
       Ok (String.eqb p "pprof/cpu_get_20240101_101500.pprof");
     top := fun p =>
       if String.eqb p "pprof/cpu_get_20240101_101500.pprof"
       then Some PprofFacts.top_output else None |}.

Definition no_tool : tool :=
  {| available := false;
     flamegraph := fun _ => Ok true;
     top := fun _ => Some PprofFacts.standard_top_output |}.

(** The tool as installed: it prints the standard table. *)
Definition standard_tool : tool :=
  {| available := true;
     flamegraph := fun _ => Ok true;
     top := fun _ => Some PprofFacts.standard_top_output |}.

Definition fresh_pprof : pprof_analyzer :=
  {| pa_input_dir := "pprof"; pa_flame_dir := "out/flamegraphs";
     pa_results := None |}.

(** X12.  When [analyze_profiles] returns, its result has exactly one
    entry per [.pprof] or [.pb.gz] file of the directory, in the order of
    the listing; each entry holds the base name of its path, the metadata
    of that name, the flamegraph path when the flamegraph was produced and
    the table of top functions when it has rows; no empty table is stored
    under [top_functions].  [self.results] is the result, except when the
    directory has no profile: then the empty result is returned and
    [self.results] stays as it was. *)
Theorem one_entry_per_profile :
  forall t fs self names res self',
    listdir fs (pa_input_dir self) = Ok names ->
    analyze_profiles t fs self = (Ok res, self') ->
    map pr_path (profiles res) =
      map (path_join (pa_input_dir self)) (filter is_profile names) /\
    Forall (entry_of t self) (profiles res) /\
    no_empty_table (top_functions res) /\
    pa_input_dir self' = pa_input_dir self /\
    pa_results self' =
      match filter is_profile names with
      | [] => pa_results self
      | _ => Some res
      end.
Proof.
  intros t fs self names res self' Hdir H. unfold analyze_profiles in H.
  rewrite Hdir in H.
  destruct (filter is_profile names) as [|f files]; cbn [map] in H |- *.
  - inversion H; subst. repeat split; constructor.
  - destruct (analyze_loop t self _ _) as [res1|] eqn:E; [|discriminate].
    inversion H; subst res1 self'; clear H.
    destruct (analyze_loop_spec _ _ _ _ _ E) as (Hpaths & Hentries & Htables).
    cbn [profiles top_functions map app] in Hpaths, Hentries, Htables.
    repeat split; auto. apply Htables. constructor.
Qed.

Lemma one_entry_per_profile_witness :
  exists res self',
    analyze_profiles sample_tool profile_dir fresh_pprof = (Ok res, self') /\
    map pr_path (profiles res) =
      ["pprof/cpu_get_20240101_101500.pprof"; "pprof/heap_set_20240102.pb.gz"] /\
    map pr_flamegraph_path (profiles res) =
      [Some "out/flamegraphs/cpu_get_20240101_101500.svg"; None] /\
    map fst (top_functions res) = ["cpu_get_20240101_101500.pprof"] /\
    Forall (entry_of sample_tool fresh_pprof) (profiles res) /\
    pa_results self' = Some res.
Proof.
  eexists _, _. split; [vm_compute; reflexivity|].
  match goal with
  | |- map pr_path (profiles ?res) = _ /\ _ /\ _ /\ _ /\ pa_results ?self' = _ =>
      destruct (one_entry_per_profile sample_tool profile_dir fresh_pprof
                  ["cpu_get_20240101_101500.pprof"; "heap_set_20240102.pb.gz";
                   "README.md"] res self' eq_refl)
        as (_ & Hentries & _ & _ & _)
  end.
  - vm_compute. reflexivity.
  - repeat split; try reflexivity. exact Hentries.
Defined.

(** X13.  A missing tool is not fatal: when [go tool pprof] is not found,
    or when every [-top] call fails while no flamegraph page fails to be
    written, [analyze_profiles] does not raise; it still returns one entry
    per profile, none with a table of top functions, and stores no table;
    when the tool is not found no entry has a flamegraph either. *)
Theorem missing_tool_is_not_fatal :
  forall t fs self names,
    available t = false \/
    ((forall p, top t p = None) /\
     (forall p, is_ok (flamegraph t p) = true)) ->
    listdir fs (pa_input_dir self) = Ok names ->
    exists res self',
      analyze_profiles t fs self = (Ok res, self') /\
      map pr_path (profiles res) =
        map (path_join (pa_input_dir self)) (filter is_profile names) /\
      Forall (fun pr => pr_top_functions pr = None) (profiles res) /\
      top_functions res = [] /\
      (available t = false ->
       Forall (fun pr => pr_flamegraph_path pr = None) (profiles res)).
Proof.
  intros t fs self names Htool Hdir.
  assert (Hsilent : forall p,
            Pprof.extract_top_functions (top_run t p) = Ok []).
  { intros p. unfold top_run, check_go_tool_pprof.
    destruct Htool as [->|[Hnone _]]; [reflexivity|].
    rewrite Hnone. destruct (available t); reflexivity. }
  assert (Hflame : forall p, exists b, generate_flamegraph t p = Ok b).
  { intros p. unfold generate_flamegraph, check_go_tool_pprof.
    destruct Htool as [->|[_ Hok]]; [exists false; reflexivity|].
    destruct (available t); [|exists false; reflexivity].
    specialize (Hok p). destruct (flamegraph t p) as [b|]; [|discriminate].
    exists b. reflexivity. }
  unfold analyze_profiles. rewrite Hdir.
  destruct (filter is_profile names) as [|f files] eqn:Efiles; cbn [map].
  - eexists _, _. split; [reflexivity|]. cbn. repeat split; constructor.
  - destruct (analyze_loop_silent t self
                (path_join (pa_input_dir self) f ::
                 map (path_join (pa_input_dir self)) files)
                {| profiles := []; top_functions := [] |} Hflame Hsilent)
      as (res & Hrun & Htop & Hnone).
    rewrite Hrun. eexists _, _. split; [reflexivity|].
    destruct (analyze_loop_spec _ _ _ _ _ Hrun) as (Hpaths & Hentries & _).
    cbn [profiles top_functions map app] in *.
    split; [exact Hpaths|]. split; [apply Hnone; constructor|].
    split; [exact Htop|].
    intros Hmissing. specialize (Hentries (Forall_nil _)).
    eapply Forall_impl; [|exact Hentries].
    intros pr [_ _ Hpath _]. rewrite Hpath.
    unfold generate_flamegraph, check_go_tool_pprof. rewrite Hmissing.
    reflexivity.
Qed.

Lemma missing_tool_is_not_fatal_witness :
  exists res self',
    analyze_profiles no_tool profile_dir fresh_pprof = (Ok res, self') /\
    map pr_path (profiles res) =
      map (path_join "pprof")
          (filter is_profile
             ["cpu_get_20240101_101500.pprof"; "heap_set_20240102.pb.gz";
              "README.md"]) /\
    Forall (fun pr => pr_top_functions pr = None) (profiles res) /\
    top_functions res = [] /\
    (available no_tool = false ->
     Forall (fun pr => pr_flamegraph_path pr = None) (profiles res)).
Proof.
  exact (missing_tool_is_not_fatal no_tool profile_dir fresh_pprof
           ["cpu_get_20240101_101500.pprof"; "heap_set_20240102.pb.gz";
            "README.md"] (or_introl eq_refl) eq_refl).
Defined.

(** X14.  A table that cannot be parsed is fatal to the whole analysis:
    if [extract_top_functions] raises for one profile of the directory
    (as the [ValueError] of [float] on a row whose first token is not a
    number), [analyze_profiles] raises, returns no entry for any profile
    and leaves [self.results] as it was. *)
Theorem unparsable_table_aborts_analysis :
  forall t fs self names filename e,
    listdir fs (pa_input_dir self) = Ok names ->
    In filename (filter is_profile names) ->
    Pprof.extract_top_functions
      (top_run t (path_join (pa_input_dir self) filename)) = Raise e ->
    is_ok (fst (analyze_profiles t fs self)) = false /\
    snd (analyze_profiles t fs self) = self.
Proof.
  intros t fs self names filename e Hdir Hin Hraise.
  unfold analyze_profiles. rewrite Hdir.
  destruct (filter is_profile names) as [|f files] eqn:Efiles;
    [destruct Hin|].
  cbn [map].
  pose proof (analyze_loop_raises t self
                (map (path_join (pa_input_dir self)) (f :: files))
                {| profiles := []; top_functions := [] |}
                (path_join (pa_input_dir self) filename) e
                (in_map _ _ _ Hin) Hraise) as Hloop.
  cbn [map] in Hloop.
  destruct (analyze_loop t self _ _); [discriminate|]. split; reflexivity.
Qed.

Lemma unparsable_table_aborts_analysis_witness :
  is_ok (fst (analyze_profiles standard_tool profile_dir fresh_pprof)) = false /\
  snd (analyze_profiles standard_tool profile_dir fresh_pprof) = fresh_pprof.
Proof.
  apply (unparsable_table_aborts_analysis standard_tool profile_dir fresh_pprof
           ["cpu_get_20240101_101500.pprof"; "heap_set_20240102.pb.gz";
            "README.md"] "heap_set_20240102.pb.gz"
           (ValueError "could not convert string to float")).
  - reflexivity.
  - vm_compute. auto.
  - vm_compute. reflexivity.
Defined.

End ProfilesFacts.

(* ===================================================================== *)
(** * Facts about the helpers of the comprehensive report                *)
(* ===================================================================== *)

Module ReportFacts.
Import Py PyFacts Report.
Local Open Scope string_scope.

(** ** [str.replace] *)

Lemma replace_go_skip old new s : forall k,
  replace_go old new k s = replace old new (drop k s).
Proof.
  induction s as [|c s IH]; intros [|k]; try reflexivity.
  cbn [replace_go drop]. apply IH.
Qed.

Lemma replace_match old new s :
  old <> EmptyString -> starts_with old s = true ->
  replace old new s = (new ++ replace old new (drop (String.length old) s))%string.
Proof.
  intros Hne Hs. destruct old as [|a old]; [congruence|].
  destruct s as [|c s]; [discriminate|].
  unfold replace at 1. cbn [replace_go]. rewrite Hs, replace_go_skip.
  replace (String.length (String a old) - 1)%nat with (String.length old)
    by (cbn [String.length]; lia).
  reflexivity.
Qed.

Lemma replace_copy old new c s :
  starts_with old (String c s) = false ->
  replace old new (String c s) = String c (replace old new s).
Proof. intros H. unfold replace. cbn [replace_go]. rewrite H. reflexivity. Qed.

Lemma drop_length s : forall k, (String.length (drop k s) <= String.length s)%nat.
Proof.
  induction s as [|c s IH]; intros [|k]; cbn [drop String.length]; try lia.
  specialize (IH k). lia.
Qed.

Lemma contains_cons sub c s :
  contains sub (String c s) = starts_with sub (String c s) || contains sub s.
Proof. reflexivity. Qed.

Lemma starts_with_contains sub s :
  starts_with sub s = true -> contains sub s = true.
Proof. intros H. destruct s; cbn [contains]; rewrite H; reflexivity. Qed.

Lemma starts_with_app_l a b : forall s,
  starts_with (a ++ b) s = true -> starts_with a s = true.
Proof.
  induction a as [|x a IH]; intros s H; [reflexivity|].
  destruct s as [|c s]; [discriminate|]. cbn [String.append starts_with] in *.
  apply andb_true_iff in H as [-> H]. apply (IH _ H).
Qed.

Lemma starts_with_app_contains pre sub : forall s,
  starts_with (pre ++ sub) s = true -> contains sub s = true.
Proof.
  induction pre as [|x pre IH]; intros s H.
  - apply starts_with_contains. exact H.
  - destruct s as [|c s]; [discriminate|].
    cbn [String.append starts_with] in H.
    apply andb_true_iff in H as [_ H]. rewrite contains_cons, (IH _ H).
    apply orb_true_r.
Qed.

(** A text without [sub] has no occurrence of a string that holds [sub]. *)
Lemma contains_super pre sub post s :
  contains sub s = false -> contains (pre ++ sub ++ post) s = false.
Proof.
  assert (Hstart : forall t, contains sub t = false ->
                             starts_with (pre ++ sub ++ post) t = false).
  { intros t Ht. destruct (starts_with (pre ++ sub ++ post) t) eqn:E;
      [|reflexivity].
    rewrite <- append_assoc in E. apply starts_with_app_l in E.
    apply starts_with_app_contains in E. congruence. }
  induction s as [|c s IH]; intros H.
  - cbn [contains]. rewrite (Hstart _ H). reflexivity.
  - rewrite contains_cons in *. apply orb_false_iff in H as [H1 H2].
    rewrite IH by exact H2. rewrite Hstart; [reflexivity|].
    rewrite contains_cons, H1, H2. reflexivity.
Qed.

(** Replacing a string that does not occur changes nothing. *)
Lemma replace_absent old new s :
  contains old s = false -> replace old new s = s.
Proof.
  induction s as [|c s IH]; intros H; [reflexivity|].
  rewrite contains_cons in H. apply orb_false_iff in H as [H1 H2].
  rewrite replace_copy by exact H1. rewrite IH by exact H2. reflexivity.
Qed.

Lemma replace_absent_super pre sub post new s :
  contains sub s = false -> replace (pre ++ sub ++ post) new s = s.
Proof. intros H. apply replace_absent, contains_super, H. Qed.

Section Replaced.

Variables (old new new' : string) (h : ascii).
Hypothesis new_head : new = String h new'.
Hypothesis head_not_in_old :
  forall_chars (fun c => negb (Ascii.eqb c h)) old = true.
Hypothesis old_not_empty : old <> EmptyString.
Hypothesis no_overlap :
  forall rest, contains old (new ++ rest) = contains old rest.

Lemma replaced_prefix : forall s u,
  forall_chars (fun c => negb (Ascii.eqb c h)) u = true ->
  starts_with u (replace old new s) = true -> starts_with u s = true.
Proof.
  induction s as [|c s IH]; intros [|a u] Hu H; try reflexivity.
  - discriminate.
  - cbn [forall_chars] in Hu. apply andb_true_iff in Hu as [Ha Hu].
    destruct (starts_with old (String c s)) eqn:E.
    + rewrite replace_match, new_head in H by assumption.
      cbn [String.append starts_with] in H.
      apply andb_true_iff in H as [H _]. rewrite H in Ha. discriminate.
    + rewrite replace_copy in H by exact E. cbn [starts_with] in *.
      apply andb_true_iff in H as [-> H]. apply (IH _ Hu H).
Qed.

(** After [s.replace(old, new)] no occurrence of [old] is left. *)
Lemma replaced_everywhere s : contains old (replace old new s) = false.
Proof.
  remember (String.length s) as n eqn:Hn.
  assert (Hle : (String.length s <= n)%nat) by lia. clear Hn.
  revert s Hle. induction n as [|n IH]; intros s Hle.
  - destruct s; [|cbn in Hle; lia]. destruct old; [congruence|reflexivity].
  - destruct s as [|c s]; [destruct old; [congruence|reflexivity]|].
    cbn [String.length] in Hle.
    destruct (starts_with old (String c s)) eqn:E.
    + rewrite replace_match, no_overlap by assumption. apply IH.
      destruct old as [|a o]; [congruence|]. cbn [String.length drop].
      pose proof (drop_length s (String.length o)). lia.
    + destruct (starts_with old (replace old new (String c s))) eqn:E'.
      * apply replaced_prefix in E'; [congruence|exact head_not_in_old].
      * rewrite replace_copy in * by exact E.
        rewrite contains_cons, E'. apply IH. lia.
Qed.

End Replaced.

Lemma replace_go_chars (q : ascii -> bool) old new s : forall k,
  forall_chars q new = true -> forall_chars q s = true ->
  forall_chars q (replace_go old new k s) = true.
Proof.
  induction s as [|c s IH]; intros k Hnew Hs; [reflexivity|].
  cbn [forall_chars] in Hs. apply andb_true_iff in Hs as [Hc Hs].
  cbn [replace_go]. destruct k as [|k]; [|apply IH; assumption].
  destruct (starts_with old (String c s)).
  - rewrite forall_chars_app, Hnew. apply IH; assumption.
  - cbn [forall_chars]. rewrite Hc. apply IH; assumption.
Qed.

(** Replacing a character removes it, when the replacement is free of it. *)
Lemma replace_char_chars (q q' : ascii -> bool) c new s :
  (forall x, q x = true -> Ascii.eqb c x = false -> q' x = true) ->
  forall_chars q' new = true -> forall_chars q s = true ->
  forall_chars q' (replace (String c EmptyString) new s) = true.
Proof.
  intros Hq Hnew. unfold replace.
  induction s as [|x s IH]; intros Hs; [reflexivity|].
  cbn [forall_chars] in Hs. apply andb_true_iff in Hs as [Hx Hs].
  cbn [replace_go starts_with String.length Nat.sub].
  destruct (Ascii.eqb c x) eqn:E; cbn [andb].
  - rewrite forall_chars_app, Hnew. apply IH, Hs.
  - cbn [forall_chars]. rewrite (Hq _ Hx E). apply IH, Hs.
Qed.

Lemma replace_char_app c new a b :
  replace (String c EmptyString) new (a ++ b) =
  (replace (String c EmptyString) new a ++
   replace (String c EmptyString) new b)%string.
Proof.
  unfold replace. induction a as [|x a IH]; [reflexivity|].
  cbn [String.append replace_go starts_with String.length Nat.sub].
  destruct (Ascii.eqb c x); cbn [andb].
  - rewrite IH, append_assoc. reflexivity.
  - rewrite IH. reflexivity.
Qed.

Lemma replace_char_absent c new s :
  forall_chars (fun x => negb (Ascii.eqb c x)) s = true ->
  replace (String c EmptyString) new s = s.
Proof.
  unfold replace. induction s as [|x s IH]; intros H; [reflexivity|].
  cbn [forall_chars] in H. apply andb_true_iff in H as [Hx H].
  cbn [replace_go starts_with String.length Nat.sub].
  apply negb_true_iff in Hx. rewrite Hx. cbn [andb]. rewrite IH by exact H.
  reflexivity.
Qed.

(** ** [str.split] and [str.join] *)

Lemma split_go_chars (q : ascii -> bool) sep s : forall k cur,
  forall_chars q cur = true -> forall_chars q s = true ->
  Forall (fun p => forall_chars q p = true) (split_go sep k cur s).
Proof.
  induction s as [|c s IH]; intros k cur Hcur Hs; cbn [split_go].
  - constructor; [exact Hcur|constructor].
  - cbn [forall_chars] in Hs. apply andb_true_iff in Hs as [Hc Hs].
    destruct k as [|k]; [|apply IH; assumption].
    destruct (starts_with sep (String c s)).
    + constructor; [exact Hcur|]. apply IH; [reflexivity|exact Hs].
    + apply IH; [|exact Hs].
      rewrite forall_chars_app, Hcur. cbn [forall_chars]. rewrite Hc.
      reflexivity.
Qed.

Lemma join_chars (q : ascii -> bool) sep parts :
  forall_chars q sep = true ->
  Forall (fun p => forall_chars q p = true) parts ->
  forall_chars q (join sep parts) = true.
Proof.
  intros Hsep. induction 1 as [|p ps Hp Hps IH]; [reflexivity|].
  cbn [join]. destruct ps as [|p' ps]; [exact Hp|].
  rewrite !forall_chars_app, Hp, Hsep, IH. reflexivity.
Qed.

Definition no_newline (line : string) : bool :=
  forall_chars (fun x => negb (Ascii.eqb "010" x)) line.

Lemma lines_no_newline s : forall cur,
  no_newline cur = true ->
  Forall (fun l => no_newline l = true) (split_go nl O cur s).
Proof.
  unfold no_newline.
  induction s as [|c s IH]; intros cur Hcur; cbn [split_go].
  - constructor; [exact Hcur|constructor].
  - cbn [nl starts_with String.length Nat.sub].
    destruct (Ascii.eqb "010" c) eqn:E; cbn [andb].
    + constructor; [exact Hcur|]. apply IH. reflexivity.
    + apply IH. rewrite forall_chars_app, Hcur. cbn [forall_chars].
      rewrite E. reflexivity.
Qed.

Lemma split_go_not_nil sep s : forall k cur, split_go sep k cur s <> [].
Proof.
  induction s as [|c s IH]; intros k cur; cbn [split_go]; [discriminate|].
  destruct k; [|apply IH]. destruct (starts_with sep _); [discriminate|apply IH].
Qed.

Lemma join_cons sep p ps :
  ps <> [] -> join sep (p :: ps) = (p ++ sep ++ join sep ps)%string.
Proof. destruct ps; [congruence|reflexivity]. Qed.

(** Joining the lines of a text gives the text back. *)
Lemma join_split_go s : forall cur,
  join nl (split_go nl O cur s) = (cur ++ s)%string.
Proof.
  induction s as [|c s IH]; intros cur; cbn [split_go].
  { cbn [join]. rewrite append_nil_r. reflexivity. }
  cbn [nl starts_with String.length Nat.sub].
  destruct (Ascii.eqb "010" c) eqn:E; cbn [andb].
  - apply Ascii.eqb_eq in E. subst c.
    rewrite join_cons by apply split_go_not_nil. rewrite IH. reflexivity.
  - rewrite IH, append_assoc. reflexivity.
Qed.

Lemma join_split s : join nl (split nl s) = s.
Proof. apply join_split_go. Qed.

Lemma split_go_line p : forall cur rest,
  no_newline p = true ->
  split_go nl O cur (p ++ String "010" rest) =
  (cur ++ p)%string :: split nl rest.
Proof.
  unfold no_newline, nl.
  induction p as [|c p IH]; intros cur rest Hp.
  - rewrite append_nil_r. reflexivity.
  - cbn [forall_chars] in Hp. apply andb_true_iff in Hp as [Hc Hp].
    apply negb_true_iff in Hc.
    cbn [String.append split_go starts_with String.length Nat.sub].
    rewrite Hc. cbn [andb]. rewrite (IH _ _ Hp), append_assoc. reflexivity.
Qed.

(** Splitting joined lines gives the lines back. *)
Lemma split_join parts :
  parts <> [] -> Forall (fun l => no_newline l = true) parts ->
  split nl (join nl parts) = parts.
Proof.
  intros Hne H. induction H as [|p ps Hp Hps IH]; [congruence|].
  destruct ps as [|p' ps].
  - cbn [join]. apply split_no_sep. exact Hp.
  - rewrite join_cons by discriminate. unfold split at 1.
    change (nl ++ join nl (p' :: ps))%string
      with (String "010" (join nl (p' :: ps))).
    rewrite split_go_line by exact Hp. rewrite IH by discriminate.
    reflexivity.
Qed.

(** ** [extract_section] *)

Local Open Scope list_scope.

Lemma index_of_none {A : Type} (p : A -> bool) xs :
  index_of p xs = None <-> Forall (fun x => p x = false) xs.
Proof.
  induction xs as [|x xs IH]; cbn [index_of].
  - split; [constructor|reflexivity].
  - destruct (p x) eqn:E.
    + split; [discriminate|]. intros H. inversion H; congruence.
    + destruct (index_of p xs); cbn [option_map].
      * split; [discriminate|]. intros H. inversion H; subst.
        apply IH in H3. discriminate.
      * split; [|reflexivity]. intros _. constructor; [exact E|].
        apply IH. reflexivity.
Qed.

Lemma index_of_some {A : Type} (p : A -> bool) xs : forall i,
  index_of p xs = Some i ->
  exists pre x post,
    xs = pre ++ x :: post /\ List.length pre = i /\
    Forall (fun y => p y = false) pre /\ p x = true.
Proof.
  induction xs as [|x xs IH]; intros i H; cbn [index_of] in H; [discriminate|].
  destruct (p x) eqn:E.
  - inversion H; subst. exists [], x, xs. repeat split; auto.
  - destruct (index_of p xs) as [j|]; [|discriminate].
    cbn [option_map] in H. inversion H; subst.
    destruct (IH j eq_refl) as (pre & y & post & -> & Hlen & Hpre & Hy).
    exists (x :: pre), y, post. cbn [app List.length].
    repeat split; auto.
Qed.

Lemma skipn_app_length {A : Type} (pre post : list A) :
  skipn (List.length pre) (pre ++ post) = post.
Proof. induction pre; cbn; auto. Qed.

Lemma firstn_app_length {A : Type} (pre post : list A) :
  firstn (List.length pre) (pre ++ post) = pre.
Proof. induction pre; cbn; congruence. Qed.

(** The end section when one is given: [None] and the empty title are
    no end section. *)
Definition ending (end_section : option string) : option string :=
  match end_section with
  | Some e => if truthy e then Some e else None
  | None => None
  end.

(** The section that starts at [line] is [line :: body], between the
    lines [pre] and [post] of the document. *)
Record block (content start_section : string) (end_section : option string)
  (pre : list string) (line : string) (body post : list string) : Prop := {
  block_lines : split nl content = pre ++ (line :: body) ++ post;
  block_first : Forall (fun l => is_heading start_section l = false) pre;
  block_heading : is_heading start_section line = true;
  block_end :
    match ending end_section with
    | Some e =>
        Forall (fun l => is_heading e l = false) body /\
        (post = [] \/
         exists l post', post = l :: post' /\ is_heading e l = true)
    | None => post = []
    end
}.

Lemma skipn_S_app_length {A : Type} (pre : list A) x post :
  skipn (S (List.length pre)) (pre ++ x :: post) = post.
Proof. induction pre; cbn; auto. Qed.

Lemma firstn_rest {A : Type} (pre rest : list A) :
  firstn (List.length (pre ++ rest) - List.length pre) rest = rest.
Proof. rewrite length_app, Nat.add_comm, Nat.add_sub. apply firstn_all. Qed.

Lemma extract_section_block content start_section end_section :
  match extract_section content start_section end_section with
  | None =>
      Forall (fun l => is_heading start_section l = false) (split nl content)
  | Some section =>
      exists pre line body post,
        block content start_section end_section pre line body post /\
        section = join nl (line :: body)
  end.
Proof.
  unfold extract_section.
  destruct (index_of (is_heading start_section) (split nl content))
    as [start_idx|] eqn:Estart; [|apply index_of_none, Estart].
  destruct (index_of_some _ _ _ Estart)
    as (pre & line & rest & Hlines & Hlen & Hpre & Hline).
  subst start_idx.
  assert (Hwhole : block content start_section None pre line rest []).
  { split; auto; [|reflexivity]. rewrite Hlines, app_nil_r. reflexivity. }
  rewrite Hlines, skipn_app_length, skipn_S_app_length.
  destruct end_section as [e|];
    [|rewrite firstn_rest; exists pre, line, rest, []; auto].
  destruct (truthy e) eqn:Etruthy.
  2:{ rewrite firstn_rest. exists pre, line, rest, []. split; [|reflexivity].
      destruct Hwhole. split; cbn [ending]; try rewrite Etruthy; auto. }
  destruct (index_of (is_heading e) rest) as [i|] eqn:Eend.
  - destruct (index_of_some _ _ _ Eend)
      as (body & l & post' & -> & Hi & Hbody & Hl).
    subst i.
    replace (S (List.length pre) + List.length body - List.length pre)%nat
      with (List.length (line :: body)) by (cbn [List.length]; lia).
    change (line :: body ++ l :: post') with ((line :: body) ++ l :: post').
    rewrite firstn_app_length.
    exists pre, line, body, (l :: post'). split; [|reflexivity].
    split; cbn [ending]; try rewrite Etruthy; auto.
    split; [exact Hbody|]. right. eauto.
  - rewrite firstn_rest. exists pre, line, rest, []. split; [|reflexivity].
    destruct Hwhole. split; cbn [ending]; try rewrite Etruthy; auto.
    split; [apply index_of_none, Eend|]. left. reflexivity.
Qed.

(** A report with a title, two sections and a link. *)
Definition sample_report : string :=
  ("# Report" ++ nl ++ "intro" ++ nl ++
   "## Summary Statistics" ++ nl ++ "mean (ns/op): 250" ++ nl ++
   "### Conclusion" ++ nl ++ "[View](full.md)")%string.

(** X15.  [extract_section] returns [None] exactly when no line of the
    document starts with [## <start_section>] or [### <start_section>];
    otherwise it returns a block of consecutive lines of the document,
    unchanged: the block starts at the first such line and ends before
    the first later line that starts with [## <end_section>] or
    [### <end_section>], or at the end of the document when there is no
    such line or no end section is given (the empty title counts as
    none).  The titles are compared as prefixes of the line. *)
Theorem section_is_a_block_of_lines :
  forall content start_section end_section,
    match extract_section content start_section end_section with
    | None =>
        Forall (fun l => is_heading start_section l = false)
               (split nl content)
    | Some section =>
        exists pre line body post,
          block content start_section end_section pre line body post /\
          section = join nl (line :: body) /\
          content = join nl (pre ++ (line :: body) ++ post)
    end.
Proof.
  intros content start_section end_section.
  pose proof (extract_section_block content start_section end_section) as H.
  destruct (extract_section content start_section end_section); [|exact H].
  destruct H as (pre & line & body & post & Hblock & Hsection).
  exists pre, line, body, post. split; [exact Hblock|]. split; [exact Hsection|].
  destruct Hblock as [Hlines _ _ _]. rewrite <- Hlines, join_split.
  reflexivity.
Qed.

(** X16.  Extracting a section from an extracted section gives it back:
    what [extract_section] returns starts with its own heading and holds
    no line of the end section. *)
Theorem extract_section_is_idempotent :
  forall content start_section end_section section,
    extract_section content start_section end_section = Some section ->
    extract_section section start_section end_section = Some section.
Proof.
  intros content start_section end_section section H.
  pose proof (extract_section_block content start_section end_section) as Hb.
  rewrite H in Hb. destruct Hb as (pre & line & body & post & Hblock & ->).
  destruct Hblock as [Hlines _ Hline Hend].
  assert (Hsplit : split nl (join nl (line :: body)) = line :: body).
  { apply split_join; [discriminate|].
    pose proof (lines_no_newline content EmptyString eq_refl) as Hall.
    fold (split nl content) in Hall. rewrite Hlines in Hall.
    apply Forall_app in Hall as [_ Hall]. apply Forall_app in Hall as [Hall _].
    exact Hall. }
  unfold extract_section. rewrite Hsplit. cbn [index_of]. rewrite Hline.
  cbn [skipn]. rewrite Nat.sub_0_r.
  assert (Hall : firstn (List.length (line :: body)) (line :: body) =
                 line :: body) by apply firstn_all.
  destruct end_section as [e|]; [|rewrite Hall; reflexivity].
  cbn [ending] in Hend. destruct (truthy e); [|rewrite Hall; reflexivity].
  destruct Hend as [Hbody _]. apply index_of_none in Hbody. rewrite Hbody, Hall.
  reflexivity.
Qed.

Lemma extract_section_is_idempotent_witness :
  extract_section sample_report "Summary" (Some "Conclusion") =
    Some ("## Summary Statistics" ++ nl ++ "mean (ns/op): 250")%string /\
  extract_section ("## Summary Statistics" ++ nl ++ "mean (ns/op): 250")
    "Summary" (Some "Conclusion") =
    Some ("## Summary Statistics" ++ nl ++ "mean (ns/op): 250")%string.
Proof.
  split; [reflexivity|].
  apply (extract_section_is_idempotent sample_report). reflexivity.
Defined.

(** ** [markdown_to_html] *)

(** X17.  Of the eight replacements that convert headers only the first
    has an effect: it leaves no [# ] in the text, and each of the other
    seven looks for a string that ends in [# ].  So no [<h2>], [<h3>] or
    [<h4>] is produced, and a level-two heading [## Title] becomes
    [#<h1>Title]. *)
Theorem only_the_first_header_replacement_applies :
  forall s,
    convert_headers s = replace "# " "<h1>" s /\
    contains "# " (convert_headers s) = false /\
    convert_headers ("## " ++ s) = ("#<h1>" ++ convert_headers s)%string.
Proof.
  assert (Hnone : forall s, contains "# " (replace "# " "<h1>" s) = false).
  { intros s.
    apply (replaced_everywhere "# " "<h1>" "h1>" "<" eq_refl eq_refl);
      [discriminate|reflexivity]. }
  assert (Hone : forall s, convert_headers s = replace "# " "<h1>" s).
  { intros s. unfold convert_headers. specialize (Hnone s).
    rewrite (replace_absent_super nl "# " "" _ _ Hnone).
    rewrite (replace_absent_super "#" "# " "" _ _ Hnone).
    rewrite (replace_absent_super (nl ++ "#") "# " "" _ _ Hnone).
    rewrite (replace_absent_super "##" "# " "" _ _ Hnone).
    rewrite (replace_absent_super (nl ++ "##") "# " "" _ _ Hnone).
    rewrite (replace_absent_super "###" "# " "" _ _ Hnone).
    rewrite (replace_absent_super (nl ++ "###") "# " "" _ _ Hnone).
    reflexivity. }
  intros s. split; [apply Hone|]. split; [rewrite Hone; apply Hnone|].
  rewrite !Hone. reflexivity.
Qed.

(** X18.  Of the two replacements that convert code blocks only the first
    has an effect: every fence, opening or closing, becomes
    [<pre><code>], no fence is left for the second replacement, and so it
    never writes [</code></pre>]. *)
Theorem code_fences_are_never_closed :
  forall s,
    convert_code_blocks s = replace "```" "<pre><code>" s /\
    contains "```" (convert_code_blocks s) = false.
Proof.
  assert (Hnone : forall s,
            contains "```" (replace "```" "<pre><code>" s) = false).
  { intros s.
    apply (replaced_everywhere "```" "<pre><code>" "pre><code>" "<"
             eq_refl eq_refl); [discriminate|reflexivity]. }
  assert (Hone : forall s,
            convert_code_blocks s = replace "```" "<pre><code>" s).
  { intros s. unfold convert_code_blocks.
    apply (replace_absent_super nl "```" "" _ _ (Hnone s)). }
  intros s. split; [apply Hone|]. rewrite Hone. apply Hnone.
Qed.

Definition bracket (c : ascii) : bool :=
  Ascii.eqb "[" c || Ascii.eqb "]" c || Ascii.eqb "(" c || Ascii.eqb ")" c.

Definition no_bracket (s : string) : bool :=
  forall_chars (fun c => negb (bracket c)) s.

Lemma convert_links_no_bracket s : no_bracket (convert_links s) = true.
Proof.
  unfold no_bracket, convert_links.
  apply (replace_char_chars
           (fun c => negb (Ascii.eqb "[" c || Ascii.eqb "]" c || Ascii.eqb "(" c)));
    [|reflexivity|].
  { intros x Hx E. unfold bracket. rewrite E, orb_false_r. exact Hx. }
  apply (replace_char_chars
           (fun c => negb (Ascii.eqb "[" c || Ascii.eqb "]" c)));
    [|reflexivity|].
  { intros x Hx E. rewrite E, orb_false_r. exact Hx. }
  apply (replace_char_chars (fun c => negb (Ascii.eqb "[" c)));
    [|reflexivity|].
  { intros x Hx E. rewrite E, orb_false_r. exact Hx. }
  apply (replace_char_chars (fun _ => true)); [|reflexivity|].
  { intros x _ E. rewrite E. reflexivity. }
  induction s; [reflexivity|assumption].
Qed.

Lemma convert_paragraph_no_bracket p :
  no_bracket p = true -> no_bracket (convert_paragraph p) = true.
Proof.
  unfold no_bracket, convert_paragraph. intros H.
  destruct (_ && _); [|exact H].
  rewrite !forall_chars_app, H. reflexivity.
Qed.

(** X19.  No bracket or parenthesis survives the conversion: whatever the
    document, the text returned by [markdown_to_html] has no [[], []],
    [(] or [)] (in particular every closing parenthesis of the prose is
    deleted). *)
Theorem no_bracket_survives :
  forall markdown_content,
    no_bracket (markdown_to_html markdown_content) = true.
Proof.
  intros s. unfold markdown_to_html.
  set (links := convert_links _).
  assert (Hlinks : no_bracket links = true) by apply convert_links_no_bracket.
  clearbody links.
  assert (Hcode : no_bracket (convert_code_blocks links) = true).
  { unfold convert_code_blocks, replace, no_bracket.
    repeat apply replace_go_chars; try reflexivity. exact Hlinks. }
  set (code := convert_code_blocks links) in *. clearbody code.
  assert (Hlists : no_bracket (convert_lists code) = true).
  { unfold convert_lists, replace, no_bracket.
    repeat apply replace_go_chars; try reflexivity. exact Hcode. }
  unfold convert_paragraphs, no_bracket. apply join_chars; [reflexivity|].
  apply Forall_map.
  eapply Forall_impl; [intros p; apply convert_paragraph_no_bracket|].
  apply split_go_chars; [reflexivity|exact Hlists].
Qed.

Lemma no_bracket_absent c s :
  bracket c = true -> no_bracket s = true ->
  forall_chars (fun x => negb (Ascii.eqb c x)) s = true.
Proof.
  intros Hc. apply forall_chars_impl. intros x Hx.
  destruct (Ascii.eqb c x) eqn:E; [|reflexivity].
  apply Ascii.eqb_eq in E. subst x. rewrite Hc in Hx. discriminate.
Qed.

(** X20.  A link is not converted to an anchor on its target: for a link
    [[text](url)] whose text and target hold no bracket or parenthesis,
    the link stage writes the text where the target belongs, closes the
    anchor inside the attribute and leaves the target as plain text. *)
Theorem link_text_is_written_as_the_target :
  forall text url,
    no_bracket text = true -> no_bracket url = true ->
    convert_links ("[" ++ text ++ "](" ++ url ++ ")") =
    ("<a href=" ++ dquote ++ text ++ "</a>" ++ dquote ++ ">" ++ url)%string.
Proof.
  intros text url Ht Hu. unfold convert_links.
  assert (Habsent : forall c new,
            bracket c = true ->
            replace (String c EmptyString) new text = text /\
            replace (String c EmptyString) new url = url).
  { intros c new Hc.
    split; apply replace_char_absent, no_bracket_absent; assumption. }
  assert (E1 : replace "[" ("<a href=" ++ dquote)
                 ("[" ++ text ++ "](" ++ url ++ ")") =
               ("<a href=" ++ dquote ++ text ++ "](" ++ url ++ ")")%string).
  { destruct (Habsent "["%char ("<a href=" ++ dquote)%string eq_refl)
      as [Et Eu].
    rewrite !replace_char_app, Et, Eu. reflexivity. }
  assert (E2 : replace "]" "</a>"
                 ("<a href=" ++ dquote ++ text ++ "](" ++ url ++ ")") =
               ("<a href=" ++ dquote ++ text ++ "</a>(" ++ url ++ ")")%string).
  { destruct (Habsent "]"%char "</a>" eq_refl) as [Et Eu].
    rewrite !replace_char_app, Et, Eu. reflexivity. }
  assert (E3 : replace "(" (dquote ++ ">")
                 ("<a href=" ++ dquote ++ text ++ "</a>(" ++ url ++ ")") =
               ("<a href=" ++ dquote ++ text ++ "</a>" ++ dquote ++ ">"
                ++ url ++ ")")%string).
  { destruct (Habsent "("%char (dquote ++ ">")%string eq_refl) as [Et Eu].
    rewrite !replace_char_app, Et, Eu. reflexivity. }
  assert (E4 : replace ")" ""
                 ("<a href=" ++ dquote ++ text ++ "</a>" ++ dquote ++ ">"
                  ++ url ++ ")") =
               ("<a href=" ++ dquote ++ text ++ "</a>" ++ dquote ++ ">"
                ++ url)%string).
  { destruct (Habsent ")"%char "" eq_refl) as [Et Eu].
    rewrite !replace_char_app, Et, Eu. cbn. rewrite append_nil_r.
    reflexivity. }
  rewrite E1, E2, E3, E4. reflexivity.
Qed.

Lemma link_text_is_written_as_the_target_witness :
  convert_links "[View](full.md)" =
  ("<a href=" ++ dquote ++ "View" ++ "</a>" ++ dquote ++ ">" ++ "full.md")%string.
Proof.
  apply (link_text_is_written_as_the_target "View" "full.md"); reflexivity.
Defined.

End ReportFacts.
